(** * COREP assistant: schema-driven field validation

    A shallow embedding of [backend/app/services/validation_service.py],
    of the template catalog of [backend/app/services/template_service.py]
    and of their callers in [backend/app/main.py], with the properties of
    the validation engine proved about it.

    Python values are the ones [json.loads] produces (the field values come
    from a JSON document): [None], booleans, unbounded integers, binary64
    floats, strings, lists and dictionaries.  Floats are the IEEE 754
    binary64 numbers of [SpecFloat]; integers are [Z].  Exceptions are
    explicit: a computation returns [Ok v] or [Raise e]. *)

From Stdlib Require Import ZArith Bool List String SpecFloat Lia.
From stdpp Require Import gmap strings list fin_maps.

Set Warnings "-register-all".

Local Open Scope string_scope.
Local Open Scope list_scope.
Local Open Scope Z_scope.

(** ** Exceptions *)

Inductive exn := TypeError | ValueError | OverflowError.

Inductive result (A : Type) :=
| Ok (a : A)
| Raise (e : exn).
Arguments Ok {A} a.
Arguments Raise {A} e.

Definition bind {A B} (r : result A) (k : A -> result B) : result B :=
  match r with
  | Ok a => k a
  | Raise e => Raise e
  end.

Notation "'do' x <- r ; k" := (bind r (fun x => k))
  (at level 10, x name, r at level 100, k at level 200).

(** A [for] loop whose body appends findings to a shared list: the bodies
    run in order and the first exception abandons the loop. *)
Fixpoint for_each {A B} (body : A -> result (list B)) (l : list A)
  : result (list B) :=
  match l with
  | [] => Ok []
  | x :: rest =>
      do here <- body x;
      do more <- for_each body rest;
      Ok (here ++ more)
  end.

(** ** Binary64 floats *)

Module F64.
Definition prec : Z := 53.
Definition emax : Z := 1024.

Definition add := SFadd prec emax.
Definition sub := SFsub prec emax.
Definition mul := SFmul prec emax.
Definition div := SFdiv prec emax.

(** The float nearest to an integer (ties to even), or infinity. *)
Definition round_Z (z : Z) : spec_float := binary_normalize prec emax z 0 false.

Definition is_infinity (f : spec_float) : bool :=
  match f with S754_infinity _ => true | _ => false end.

(** Conversion of a Python [int] to [float]: integers too large for a
    finite binary64 raise [OverflowError]. *)
Definition of_int (z : Z) : result spec_float :=
  let f := round_Z z in
  if is_infinity f then Raise OverflowError else Ok f.

(** Exact comparison of a float with an integer, as Python compares a
    [float] with an [int]; [None] when the float is a NaN. *)
Definition compare_Z (f : spec_float) (z : Z) : option comparison :=
  match f with
  | S754_nan => None
  | S754_infinity s => Some (if s then Lt else Gt)
  | S754_zero _ => Some (0 ?= z)
  | S754_finite s m e =>
      let v := cond_Zopp s (Zpos m) in
      Some (if 0 <=? e then v * 2 ^ e ?= z else v ?= z * 2 ^ (- e))
  end.

(** Float literals of the source. *)
Definition lit_0_5 : spec_float := div (round_Z 1) (round_Z 2).
Definition lit_12_5 : spec_float := div (round_Z 25) (round_Z 2).
End F64.

(** ** Python values *)

Inductive pyvalue :=
| PyNone
| PyBool (b : bool)
| PyInt (z : Z)
| PyFloat (f : spec_float)
| PyStr (s : string)
| PyList (l : list pyvalue)
| PyDict (d : list (string * pyvalue)).

Definition is_none (v : pyvalue) : bool :=
  match v with PyNone => true | _ => false end.

(** The numbers: [int] (with [bool], its subclass) and [float]. *)
Inductive pynum :=
| NInt (z : Z)
| NFloat (f : spec_float).

Definition as_num (v : pyvalue) : option pynum :=
  match v with
  | PyBool b => Some (NInt (Z.b2z b))
  | PyInt z => Some (NInt z)
  | PyFloat f => Some (NFloat f)
  | _ => None
  end.

Definition num_to_float (n : pynum) : result spec_float :=
  match n with
  | NInt z => F64.of_int z
  | NFloat f => Ok f
  end.

(** Arithmetic on two numbers: exact on two integers, otherwise both
    operands are converted to [float]. *)
Definition num_binop (zop : Z -> Z -> Z)
    (fop : spec_float -> spec_float -> spec_float) (a b : pynum)
  : result pyvalue :=
  match a, b with
  | NInt x, NInt y => Ok (PyInt (zop x y))
  | _, _ =>
      do x <- num_to_float a;
      do y <- num_to_float b;
      Ok (PyFloat (fop x y))
  end.

(** [v + w] *)
Definition py_add (v w : pyvalue) : result pyvalue :=
  match as_num v, as_num w with
  | Some a, Some b => num_binop Z.add F64.add a b
  | _, _ =>
      match v, w with
      | PyStr s, PyStr t => Ok (PyStr (s +:+ t))
      | PyList l, PyList k => Ok (PyList (l ++ k))
      | _, _ => Raise TypeError
      end
  end.

(** [v - w] *)
Definition py_sub (v w : pyvalue) : result pyvalue :=
  match as_num v, as_num w with
  | Some a, Some b => num_binop Z.sub F64.sub a b
  | _, _ => Raise TypeError
  end.

(** [v * c] for a float literal [c]: a sequence cannot be repeated a
    fractional number of times. *)
Definition py_mul_float (v : pyvalue) (c : spec_float) : result pyvalue :=
  match as_num v with
  | Some a => num_binop Z.mul F64.mul a (NFloat c)
  | None => Raise TypeError
  end.

(** [abs(v)] *)
Definition py_abs (v : pyvalue) : result pyvalue :=
  match as_num v with
  | Some (NInt z) => Ok (PyInt (Z.abs z))
  | Some (NFloat f) => Ok (PyFloat (SFabs f))
  | None => Raise TypeError
  end.

(** Comparison of a number with an integer literal. *)
Definition num_compare_Z (a : pynum) (z : Z) : option comparison :=
  match a with
  | NInt x => Some (x ?= z)
  | NFloat f => F64.compare_Z f z
  end.

(** [v > z], [v < z] and [v == z] for an integer literal [z].  Ordering a
    value that is not a number against an [int] raises [TypeError];
    equality never raises. *)
Definition py_gt_int (v : pyvalue) (z : Z) : result bool :=
  match as_num v with
  | Some a => Ok (match num_compare_Z a z with Some Gt => true | _ => false end)
  | None => Raise TypeError
  end.

Definition py_lt_int (v : pyvalue) (z : Z) : result bool :=
  match as_num v with
  | Some a => Ok (match num_compare_Z a z with Some Lt => true | _ => false end)
  | None => Raise TypeError
  end.

Definition py_eq_int (v : pyvalue) (z : Z) : bool :=
  match as_num v with
  | Some a => match num_compare_Z a z with Some Eq => true | _ => false end
  | None => false
  end.

(** [sum(l)]: the items are added to [0] from left to right, as the
    language reference defines it.  (On integers the result is exact;
    CPython 3.12 and later add floats with a compensated sum, which can
    differ from this one in the last bits of a float total.) *)
Definition py_sum (l : list pyvalue) : result pyvalue :=
  fold_left (fun acc x => do a <- acc; py_add a x) l (Ok (PyInt 0)).

(** ** f-strings

    A formatted message is kept as its parts: the literal text and the
    formatted values, each with its format specification.  Formatting a
    number with [.2f] or [.0%] goes through its [float] value. *)

Inductive fpart :=
| Lit (s : string)            (* literal text *)
| Fmt (v : pyvalue)           (* {v} *)
| Fmt_2f (f : spec_float)     (* {v:.2f} *)
| Fmt_pct (f : spec_float).   (* {v:.0%} *)

Definition fstring := list fpart.

Definition format_2f (v : pyvalue) : result fpart :=
  match v with
  | PyBool b => do f <- F64.of_int (Z.b2z b); Ok (Fmt_2f f)
  | PyInt z => do f <- F64.of_int z; Ok (Fmt_2f f)
  | PyFloat f => Ok (Fmt_2f f)
  | PyStr _ => Raise ValueError
  | PyNone | PyList _ | PyDict _ => Raise TypeError
  end.

(** ** Data model ([app/models.py]) *)

(** [TemplateType] is a [str] enumeration: a member is equal to, and
    hashes as, its string value. *)
Definition TemplateType := string.
Definition OWN_FUNDS_CR1 : TemplateType := "own_funds_cr1".
Definition CAPITAL_REQUIREMENTS_CR2 : TemplateType := "capital_requirements_cr2".

Record TemplateField := {
  tf_field_id : string;
  tf_field_name : string;
  tf_value : pyvalue;                      (* Optional[Any] *)
  tf_justification : string;
  tf_regulatory_references : list string;
  tf_confidence_score : spec_float
}.

Record ValidationIssue := {
  severity : string;                       (* error, warning, info *)
  field_id : option string;
  message : fstring;
  rule : string
}.

(** ** Template schemas: the dictionaries of [template_service.py]

    A key read with [.get(key, default)] may be missing; a key read with
    [d[key]] is always there. *)

Record field_def := {
  fd_field_id : string;
  fd_field_name : string;
  fd_data_type : string;
  fd_required : option bool;
  fd_validation_rules : option (list string);
  fd_formula : option string
}.

Record section_def := {
  sec_section_id : string;
  sec_section_name : string;
  sec_fields : option (list field_def)
}.

Record template_schema := {
  ts_template_name : option string;
  ts_description : option string;
  ts_sections : option (list section_def)
}.

(** The empty dictionary [{}]. *)
Definition empty_schema : template_schema :=
  {| ts_template_name := None; ts_description := None; ts_sections := None |}.

(** ** ValidationService ([services/validation_service.py]) *)

Definition mk_issue (sev : string) (fid : string) (msg : fstring) (r : string)
  : ValidationIssue :=
  {| severity := sev; field_id := Some fid; message := msg; rule := r |}.

(** *** Cross-field business rules *)

(** [field_map.get(key, default)] and [field_map.get(key)] *)
Definition get_or (field_map : gmap string pyvalue) (key : string)
    (default_value : pyvalue) : pyvalue :=
  default default_value (field_map !! key).

Definition get (field_map : gmap string pyvalue) (key : string) : pyvalue :=
  get_or field_map key PyNone.

(** The comparison of a calculated total with the reported one:
[[
  if reported is not None:
      if abs(calculated - reported) > 1:
          issues.append(ValidationIssue(severity="error", field_id=fid,
              message=f"{what} ({reported}) does not match {how} ({calculated:.2f})",
              rule=rule))
]] *)
Definition report_mismatch (calculated reported : pyvalue)
    (fid what how rule_id : string) : result (list ValidationIssue) :=
  if negb (is_none reported) then
    do difference <- py_sub calculated reported;
    do distance <- py_abs difference;
    do off <- py_gt_int distance 1;
    if off then
      do shown <- format_2f calculated;
      Ok [mk_issue "error" fid
            [Lit what; Lit " ("; Fmt reported; Lit ") does not match ";
             Lit how; Lit " ("; shown; Lit ")"]
            rule_id]
    else Ok []
  else Ok [].

(** V2: Total CET1 calculation *)
Definition calculated_cet1 (field_map : gmap string pyvalue) : result pyvalue :=
  let cet1_components :=
    [get_or field_map "CR1_010_010" (PyInt 0);
     get_or field_map "CR1_020_010" (PyInt 0);
     get_or field_map "CR1_030_010" (PyInt 0);
     get_or field_map "CR1_040_010" (PyInt 0);
     get_or field_map "CR1_050_010" (PyInt 0)] in
  let adjustments := get_or field_map "CR1_100_010" (PyInt 0) in
  do total <- py_sum cet1_components;
  py_add total adjustments.   (* adjustments are negative *)

Definition cr1_cet1_calculation (field_map : gmap string pyvalue)
  : result (list ValidationIssue) :=
  do calculated <- calculated_cet1 field_map;
  let reported_cet1 := get field_map "CR1_500_010" in
  report_mismatch calculated reported_cet1
    "CR1_500_010" "Total CET1" "sum of components" "cr1_cet1_calculation".

(** V3: Total Tier 1 calculation *)
Definition calculated_tier1 (field_map : gmap string pyvalue) : result pyvalue :=
  let cet1 := get_or field_map "CR1_500_010" (PyInt 0) in
  let at1 := get_or field_map "CR1_150_010" (PyInt 0) in
  py_add cet1 at1.

Definition cr1_tier1_calculation (field_map : gmap string pyvalue)
  : result (list ValidationIssue) :=
  do calculated <- calculated_tier1 field_map;
  let reported_tier1 := get field_map "CR1_600_010" in
  report_mismatch calculated reported_tier1
    "CR1_600_010" "Total Tier 1" "CET1 + AT1" "cr1_tier1_calculation".

(** V4: Total own funds calculation *)
Definition calculated_own_funds (field_map : gmap string pyvalue)
  : result pyvalue :=
  let tier1 := get_or field_map "CR1_600_010" (PyInt 0) in
  let tier2 := get_or field_map "CR1_200_010" (PyInt 0) in
  py_add tier1 tier2.

Definition cr1_own_funds_calculation (field_map : gmap string pyvalue)
  : result (list ValidationIssue) :=
  do calculated <- calculated_own_funds field_map;
  let reported_own_funds := get field_map "CR1_700_010" in
  report_mismatch calculated reported_own_funds
    "CR1_700_010" "Total own funds" "Tier 1 + Tier 2" "cr1_own_funds_calculation".

(** V6: Minimum capital requirements *)
Definition cr1_minimum_cet1 (field_map : gmap string pyvalue)
  : result (list ValidationIssue) :=
  let cet1_amount := get field_map "CR1_500_010" in
  do negative <-
    (if negb (is_none cet1_amount) then py_lt_int cet1_amount 0 else Ok false);
  if negative then
    Ok [mk_issue "error" "CR1_500_010" [Lit "CET1 capital cannot be negative"]
          "cr1_minimum_cet1"]
  else Ok [].

Definition _validate_cr1_rules (field_map : gmap string pyvalue)
  : result (list ValidationIssue) :=
  do v2 <- cr1_cet1_calculation field_map;
  do v3 <- cr1_tier1_calculation field_map;
  do v4 <- cr1_own_funds_calculation field_map;
  do v6 <- cr1_minimum_cet1 field_map;
  Ok (v2 ++ v3 ++ v4 ++ v6).

(** Validate total RWA calculation:
    RWA = Credit RWA + (Market + Operational own funds requirement * 12.5) *)
Definition calculated_rwa (field_map : gmap string pyvalue) : result pyvalue :=
  let credit_std := get_or field_map "CR2_010_010" (PyInt 0) in
  let credit_irb := get_or field_map "CR2_020_010" (PyInt 0) in
  let market := get_or field_map "CR2_050_010" (PyInt 0) in
  let operational := get_or field_map "CR2_060_010" (PyInt 0) in
  do credit <- py_add credit_std credit_irb;
  do other <- py_add market operational;
  do scaled <- py_mul_float other F64.lit_12_5;
  py_add credit scaled.

Definition cr2_rwa_calculation (field_map : gmap string pyvalue)
  : result (list ValidationIssue) :=
  do calculated <- calculated_rwa field_map;
  let reported_rwa := get field_map "CR2_100_010" in
  report_mismatch calculated reported_rwa
    "CR2_100_010" "Total RWA" "calculated RWA" "cr2_rwa_calculation".

(** Check that at least one credit risk approach is used *)
Definition cr2_credit_risk_required (field_map : gmap string pyvalue)
  : list ValidationIssue :=
  let credit_std := get_or field_map "CR2_010_010" (PyInt 0) in
  let credit_irb := get_or field_map "CR2_020_010" (PyInt 0) in
  if py_eq_int credit_std 0 && py_eq_int credit_irb 0 then
    [mk_issue "warning" "CR2_010_010"
       [Lit "No credit risk exposure reported (both Standardised and IRB are zero)"]
       "cr2_credit_risk_required"]
  else [].

Definition _validate_cr2_rules (field_map : gmap string pyvalue)
  : result (list ValidationIssue) :=
  do rwa <- cr2_rwa_calculation field_map;
  Ok (rwa ++ cr2_credit_risk_required field_map).

(** [{f.field_id: f.value for f in fields if f.value is not None}] *)
Definition value_map_of (fields : list TemplateField) : gmap string pyvalue :=
  fold_left
    (fun m f =>
       if negb (is_none (tf_value f)) then <[tf_field_id f := tf_value f]> m
       else m)
    fields ∅.

Definition _validate_cross_field_rules (fields : list TemplateField)
    (template_type : TemplateType) (schema : template_schema)
  : result (list ValidationIssue) :=
  let field_map := value_map_of fields in
  if String.eqb template_type OWN_FUNDS_CR1 then _validate_cr1_rules field_map
  else if String.eqb template_type CAPITAL_REQUIREMENTS_CR2 then
    _validate_cr2_rules field_map
  else Ok [].

(** *** Validation summary *)

Record ValidationSummary := {
  total_issues : Z;
  errors : Z;
  warnings : Z;
  info : Z;
  is_valid : bool
}.

(** [sum(1 for i in issues if i.severity == sev)] *)
Definition count_severity (sev : string) (issues : list ValidationIssue) : Z :=
  fold_left Z.add
    (map (fun _ => 1) (filter (fun i => severity i = sev) issues)) 0.

Definition generate_validation_summary (issues : list ValidationIssue)
  : ValidationSummary :=
  let error_count := count_severity "error" issues in
  let warning_count := count_severity "warning" issues in
  let info_count := count_severity "info" issues in
  {| total_issues := Z.of_nat (length issues);
     errors := error_count;
     warnings := warning_count;
     info := info_count;
     is_valid := error_count =? 0 |}.

(** *** Rule registry and per-field validation *)
Section Rules.
(** [float(s)] on a string: the parsed float, or [None] where Python
    raises [ValueError]. *)
Variable float_of_str : string -> option spec_float.

(** [float(value)] *)
Definition py_float (value : pyvalue) : result spec_float :=
  match value with
  | PyNone => Raise TypeError
  | PyBool b => F64.of_int (Z.b2z b)
  | PyInt z => F64.of_int z
  | PyFloat f => Ok f
  | PyStr s =>
      match float_of_str s with
      | Some f => Ok f
      | None => Raise ValueError
      end
  | PyList _ | PyDict _ => Raise TypeError
  end.

(** [try: return test(float(value)) except (ValueError, TypeError):
    return False] *)
Definition try_float (value : pyvalue) (test : spec_float -> bool)
  : result bool :=
  match py_float value with
  | Ok f => Ok (test f)
  | Raise ValueError | Raise TypeError => Ok false
  | Raise e => Raise e
  end.

Definition _validate_positive (value : pyvalue) : result bool :=
  if is_none value then Ok false
  else try_float value
         (fun f => match F64.compare_Z f 0 with Some Gt => true | _ => false end).

Definition _validate_negative_or_zero (value : pyvalue) : result bool :=
  if is_none value then Ok true
  else try_float value
         (fun f => match F64.compare_Z f 0 with
                   | Some Lt | Some Eq => true
                   | _ => false
                   end).

Definition _validate_required (value : pyvalue) : result bool :=
  Ok (negb (is_none value)).

(** [self.validation_rules] *)
Definition validation_rules : gmap string (pyvalue -> result bool) :=
  <["must_be_positive" := _validate_positive]>
    (<["must_be_negative_or_zero" := _validate_negative_or_zero]>
       (<["required_field" := _validate_required]> ∅)).

(** [not field or field.value is None] *)
Definition not_populated (field : option TemplateField) : bool :=
  match field with
  | None => true
  | Some f => is_none (tf_value f)
  end.

(** [{f.field_id: f for f in fields}]: a later field replaces an earlier
    one with the same id. *)
Definition field_map_of (fields : list TemplateField)
  : gmap string TemplateField :=
  fold_left (fun m f => <[tf_field_id f := f]> m) fields ∅.

(** The body of [for rule_name in field_def.get("validation_rules", [])]. *)
Definition apply_rule (fd : field_def) (field : TemplateField)
    (rule_name : string) : result (list ValidationIssue) :=
  match validation_rules !! rule_name with
  | Some validator =>
      do ok <- validator (tf_value field);
      if negb ok then
        Ok [mk_issue "error" (fd_field_id fd)
              [Lit "Field '"; Fmt (PyStr (fd_field_name fd));
               Lit "' failed validation: "; Fmt (PyStr rule_name)]
              rule_name]
      else Ok []
  | None => Ok []
  end.

Definition required_issue (fd : field_def) : ValidationIssue :=
  mk_issue "error" (fd_field_id fd)
    [Lit "Required field '"; Fmt (PyStr (fd_field_name fd)); Lit "' is missing"]
    "required_field".

Definition confidence_issue (fd : field_def) (field : TemplateField)
  : ValidationIssue :=
  mk_issue "warning" (fd_field_id fd)
    [Lit "Low confidence score ("; Fmt_pct (tf_confidence_score field);
     Lit ") for field '"; Fmt (PyStr (fd_field_name fd)); Lit "'"]
    "confidence_threshold".

(** The checks of a field once the required-field check has let it
    through: nothing for a field that is not populated, otherwise the
    rules of the definition and then the confidence score. *)
Definition validate_populated (fd : field_def) (field : option TemplateField)
  : result (list ValidationIssue) :=
  match field with
  | None => Ok []
  | Some f =>
      if is_none (tf_value f) then Ok []
      else
        do rule_issues <-
          for_each (apply_rule fd f) (default [] (fd_validation_rules fd));
        if SFltb (tf_confidence_score f) F64.lit_0_5 then
          Ok (rule_issues ++ [confidence_issue fd f])
        else Ok rule_issues
  end.

(** The body of [for field_def in section.get("fields", [])]. *)
Definition validate_field_def (field_map : gmap string TemplateField)
    (fd : field_def) : result (list ValidationIssue) :=
  let field := field_map !! fd_field_id fd in
  if default false (fd_required fd) then
    if not_populated field then Ok [required_issue fd]
    else validate_populated fd field
  else validate_populated fd field.

(** The two nested loops of [validate_fields] over the sections of the
    schema and the fields of each section. *)
Definition validate_schema_fields (fields : list TemplateField)
    (schema : template_schema) : result (list ValidationIssue) :=
  let field_map := field_map_of fields in
  for_each
    (fun section =>
       for_each (validate_field_def field_map) (default [] (sec_fields section)))
    (default [] (ts_sections schema)).

Definition validate_fields (fields : list TemplateField)
    (template_type : TemplateType) (schema : template_schema)
  : result (list ValidationIssue) :=
  do issues <- validate_schema_fields fields schema;
  do cross_validation_issues <-
    _validate_cross_field_rules fields template_type schema;
  Ok (issues ++ cross_validation_issues).
End Rules.

(** ** TemplateService ([services/template_service.py]) *)

(** A field dictionary of the catalog: every one has ["data_type":
    "number"], and the keys ["required"] and ["validation_rules"]. *)
Definition number_field (id name : string) (required : bool)
    (rules : list string) (formula : option string) : field_def :=
  {| fd_field_id := id; fd_field_name := name; fd_data_type := "number";
     fd_required := Some required; fd_validation_rules := Some rules;
     fd_formula := formula |}.

Definition mk_section (id name : string) (fields : list field_def)
  : section_def :=
  {| sec_section_id := id; sec_section_name := name; sec_fields := Some fields |}.

Definition _get_cr1_schema : template_schema :=
  {| ts_template_name := Some "CR1 - Own Funds";
     ts_description :=
       Some "Breakdown of institution's own funds and regulatory capital";
     ts_sections := Some
       [mk_section "cet1_capital" "Common Equity Tier 1 Capital"
          [number_field "CR1_010_010"
             "Capital instruments and related share premium accounts"
             true ["must_be_positive"] None;
           number_field "CR1_020_010" "Retained earnings" true [] None;
           number_field "CR1_030_010" "Accumulated other comprehensive income"
             true [] None;
           number_field "CR1_040_010" "Other reserves" false [] None;
           number_field "CR1_050_010" "Funds for general banking risk"
             false [] None];
        mk_section "cet1_adjustments" "CET1 Regulatory Adjustments"
          [number_field "CR1_100_010" "Total regulatory adjustments to CET1"
             true ["must_be_negative_or_zero"] None;
           number_field "CR1_110_010" "Intangible assets (net of tax)"
             true [] None;
           number_field "CR1_120_010" "Deferred tax assets" true [] None];
        mk_section "tier1_tier2" "Additional Tier 1 and Tier 2 Capital"
          [number_field "CR1_150_010" "Additional Tier 1 capital" true [] None;
           number_field "CR1_200_010" "Tier 2 capital" true [] None];
        mk_section "totals" "Total Own Funds"
          [number_field "CR1_500_010" "Total Common Equity Tier 1 capital"
             true ["must_be_positive"]
             (Some "sum(CR1_010_010:CR1_050_010) - CR1_100_010");
           number_field "CR1_600_010" "Total Tier 1 capital"
             true ["must_be_positive"] (Some "CR1_500_010 + CR1_150_010");
           number_field "CR1_700_010" "Total own funds"
             true ["must_be_positive"] (Some "CR1_600_010 + CR1_200_010")]] |}.

Definition _get_cr2_schema : template_schema :=
  {| ts_template_name := Some "CR2 - Capital Requirements";
     ts_description := Some "Institution's capital requirements by risk type";
     ts_sections := Some
       [mk_section "credit_risk" "Credit Risk"
          [number_field "CR2_010_010" "Credit risk (Standardised approach) - RWA"
             true ["must_be_positive"] None;
           number_field "CR2_020_010" "Credit risk (IRB approach) - RWA"
             false ["must_be_positive"] None];
        mk_section "other_risks" "Other Risk Types"
          [number_field "CR2_050_010" "Market risk - Own funds requirement"
             true [] None;
           number_field "CR2_060_010" "Operational risk - Own funds requirement"
             true ["must_be_positive"] None];
        mk_section "total_requirements" "Total Capital Requirements"
          [number_field "CR2_100_010" "Total risk exposure amount"
             true ["must_be_positive"]
             (Some "sum(CR2_010_010, CR2_020_010) + (CR2_050_010 + CR2_060_010) * 12.5")]] |}.

(** [self.templates] *)
Definition templates : gmap string template_schema :=
  <[OWN_FUNDS_CR1 := _get_cr1_schema]>
    (<[CAPITAL_REQUIREMENTS_CR2 := _get_cr2_schema]> ∅).

Definition get_template_schema (template_type : TemplateType)
  : template_schema :=
  default empty_schema (templates !! template_type).

Definition get_all_field_ids (template_type : TemplateType) : list string :=
  let schema := get_template_schema template_type in
  flat_map (fun section => map fd_field_id (default [] (sec_fields section)))
    (default [] (ts_sections schema)).

(** ** The callers in [app/main.py] *)

(** What an endpoint answers: the body of a 200 response, or the
    [HTTPException] it raises, with its status code, the text of its
    detail before the formatted exception, and that exception if any. *)
Inductive http (A : Type) :=
| Http200 (body : A)
| HTTPException (status_code : Z) (detail : string) (cause : option exn).
Arguments Http200 {A} body.
Arguments HTTPException {A} status_code detail cause.

(** [TemplateType(value)]: the member with that value; [ValueError] when
    there is none. *)
Definition TemplateType_of (value : string) : result TemplateType :=
  if decide (value ∈ [OWN_FUNDS_CR1; CAPITAL_REQUIREMENTS_CR2]) then Ok value
  else Raise ValueError.

(** [GET /api/templates/{template_type}], with the services initialised. *)
Definition api_get_template_schema (template_type : string)
  : http template_schema :=
  match TemplateType_of template_type with
  | Ok template_enum => Http200 (get_template_schema template_enum)
  | Raise ValueError =>
      HTTPException 404
        ("Template type '" +:+ template_type +:+ "' not found") None
  | Raise e => HTTPException 500 "Error retrieving template schema: " (Some e)
  end.

(** Step 4 of [process_query] and the summary of its step 5: the fields
    are validated against the catalog schema of the template type of the
    request, and the findings are summarised.  An exception becomes the
    500 response of the endpoint. *)
Definition process_query_validation
    (float_of_str : string -> option spec_float)
    (template_fields : list TemplateField) (template_type : TemplateType)
  : result (list ValidationIssue * ValidationSummary) :=
  let template_schema := get_template_schema template_type in
  do validation_issues <-
    validate_fields float_of_str template_fields template_type template_schema;
  Ok (validation_issues, generate_validation_summary validation_issues).

(** * Vocabulary of the statements *)

(** The keys of the rule registry. *)
Definition known_rules : list string :=
  ["must_be_positive"; "must_be_negative_or_zero"; "required_field"].

(** All the field definitions of a schema, in the order of the loops. *)
Definition schema_field_defs (schema : template_schema) : list field_def :=
  flat_map (fun section => default [] (sec_fields section))
    (default [] (ts_sections schema)).

(** The same field definition with another list of rule names. *)
Definition with_rules (fd : field_def) (rules : list string) : field_def :=
  {| fd_field_id := fd_field_id fd; fd_field_name := fd_field_name fd;
     fd_data_type := fd_data_type fd; fd_required := fd_required fd;
     fd_validation_rules := Some rules; fd_formula := fd_formula fd |}.

(** The field ids the cross-field rules report about. *)
Definition cross_field_ids : list string :=
  ["CR1_500_010"; "CR1_600_010"; "CR1_700_010"; "CR2_100_010"; "CR2_010_010"].

(** What a finding of the validator looks like. *)
Definition error_or_warning (i : ValidationIssue) : Prop :=
  (severity i = "error" \/ severity i = "warning") /\ is_Some (field_id i).

(** What a finding of the cross-field rules looks like. *)
Definition cross_field_issue (i : ValidationIssue) : Prop :=
  (severity i = "error" \/ severity i = "warning") /\
  exists id, field_id i = Some id /\ id ∈ cross_field_ids.

(** A formula cross-check: the check, its calculated value, the ids of the
    inputs of the formula and the id of the reported total. *)
Record formula_check := {
  fc_check : gmap string pyvalue -> result (list ValidationIssue);
  fc_calculated : gmap string pyvalue -> result pyvalue;
  fc_inputs : list string;
  fc_reported : string
}.

Definition formula_checks : list formula_check :=
  [ {| fc_check := cr1_cet1_calculation; fc_calculated := calculated_cet1;
       fc_inputs := ["CR1_010_010"; "CR1_020_010"; "CR1_030_010";
                     "CR1_040_010"; "CR1_050_010"; "CR1_100_010"];
       fc_reported := "CR1_500_010" |};
    {| fc_check := cr1_tier1_calculation; fc_calculated := calculated_tier1;
       fc_inputs := ["CR1_500_010"; "CR1_150_010"];
       fc_reported := "CR1_600_010" |};
    {| fc_check := cr1_own_funds_calculation;
       fc_calculated := calculated_own_funds;
       fc_inputs := ["CR1_600_010"; "CR1_200_010"];
       fc_reported := "CR1_700_010" |};
    {| fc_check := cr2_rwa_calculation; fc_calculated := calculated_rwa;
       fc_inputs := ["CR2_010_010"; "CR2_020_010"; "CR2_050_010"; "CR2_060_010"];
       fc_reported := "CR2_100_010" |} ].

(** The error of the CET1 cross-check. *)
Definition cet1_mismatch_issue (reported : pyvalue) (shown : spec_float)
  : ValidationIssue :=
  mk_issue "error" "CR1_500_010"
    [Lit "Total CET1"; Lit " ("; Fmt reported; Lit ") does not match ";
     Lit "sum of components"; Lit " ("; Fmt_2f shown; Lit ")"]
    "cr1_cet1_calculation".

(** Decimal literals: a Python literal denotes the float nearest to it,
    which is what the correctly rounded division of two small integers
    gives. *)
Definition lit_0_1 : spec_float := F64.div (F64.round_Z 1) (F64.round_Z 10).
Definition lit_0_49 : spec_float := F64.div (F64.round_Z 49) (F64.round_Z 100).
Definition lit_0_9 : spec_float := F64.div (F64.round_Z 9) (F64.round_Z 10).
Definition lit_131_0 : spec_float := F64.round_Z 131.
Definition lit_131_01 : spec_float :=
  F64.div (F64.round_Z 13101) (F64.round_Z 100).

(** A number, as the arithmetic of the cross-field rules needs it. *)
Definition is_number (v : pyvalue) : bool :=
  match as_num v with Some _ => true | None => false end.

(** The exceptions of the cross-field rules. *)
Definition cross_field_exn (e : exn) : Prop := e = TypeError \/ e = OverflowError.

(** A value supplied under an id, when it is not [None], is a number. *)
Definition number_at (field_map : gmap string pyvalue) (k : string) : Prop :=
  forall v, field_map !! k = Some v -> is_none v = false -> is_number v = true.

(** The field ids the rules of each template read. *)
Definition cr1_rule_ids : list string :=
  ["CR1_010_010"; "CR1_020_010"; "CR1_030_010"; "CR1_040_010"; "CR1_050_010";
   "CR1_100_010"; "CR1_500_010"; "CR1_150_010"; "CR1_600_010"; "CR1_200_010";
   "CR1_700_010"].

Definition cr2_rule_ids : list string :=
  ["CR2_010_010"; "CR2_020_010"; "CR2_050_010"; "CR2_060_010"; "CR2_100_010"].

Definition cross_field_inputs (template_type : TemplateType) : list string :=
  if String.eqb template_type OWN_FUNDS_CR1 then cr1_rule_ids
  else if String.eqb template_type CAPITAL_REQUIREMENTS_CR2 then cr2_rule_ids
  else [].

(** Every value a dictionary holds under one of the ids is a number. *)
Definition numbers_at (field_map : gmap string pyvalue) (ids : list string)
  : Prop :=
  forall k v, k ∈ ids -> field_map !! k = Some v -> is_number v = true.

(** An amount the arithmetic of the validator takes without overflow: a
    float, or an integer below a bound in magnitude. *)
Definition amount_within (bound : Z) (v : pyvalue) : Prop :=
  match as_num v with
  | Some (NInt z) => Z.abs z < bound
  | Some (NFloat _) => True
  | None => False
  end.

(** A value of a supplied field that is [None], a float, or an integer
    below [2^50] in magnitude. *)
Definition plain_amount (v : pyvalue) : Prop :=
  v = PyNone \/ amount_within (2 ^ 50) v.

(** The error of the sign check of the CR1 rules. *)
Definition negative_cet1_issue : ValidationIssue :=
  mk_issue "error" "CR1_500_010" [Lit "CET1 capital cannot be negative"]
    "cr1_minimum_cet1".

(** The warning of the CR2 rules. *)
Definition credit_risk_warning : ValidationIssue :=
  mk_issue "warning" "CR2_010_010"
    [Lit "No credit risk exposure reported (both Standardised and IRB are zero)"]
    "cr2_credit_risk_required".

(** No amount, or a number equal to zero. *)
Definition zero_or_absent (amount : option pyvalue) : bool :=
  match amount with
  | None | Some (PyInt 0) | Some (PyBool false)
  | Some (PyFloat (S754_zero _)) => true
  | _ => false
  end.

(** The rule names of the findings of the per-field pass. *)
Definition per_field_rules : list string :=
  known_rules ++ ["confidence_threshold"].

(** A required field definition whose field is not populated. *)
Definition missing_required (field_map : gmap string TemplateField)
    (fd : field_def) : bool :=
  default false (fd_required fd) && not_populated (field_map !! fd_field_id fd).

(** A field definition with nothing to report as an error: it is populated
    if it is required, and when it is populated every rule of its list
    passes. *)
Definition field_in_order (float_of_str : string -> option spec_float)
    (field_map : gmap string TemplateField) (fd : field_def) : Prop :=
  missing_required field_map fd = false /\
  forall f, field_map !! fd_field_id fd = Some f ->
            is_none (tf_value f) = false ->
            forall r, r ∈ default [] (fd_validation_rules fd) ->
                      apply_rule float_of_str fd f r = Ok [].

(** The confidence warning of a field definition: one when the field
    found under its id is populated with a confidence score below 0.5. *)
Definition confidence_warnings (field_map : gmap string TemplateField)
    (fd : field_def) : list ValidationIssue :=
  match field_map !! fd_field_id fd with
  | Some f =>
      if negb (is_none (tf_value f)) &&
         SFltb (tf_confidence_score f) F64.lit_0_5
      then [confidence_issue fd f] else []
  | None => []
  end.

(** ** Worked inputs *)

(** An instance of [float_of_str] to run the model on inputs without
    string values, where the parser is never called. *)
Definition no_string_parses : string -> option spec_float := fun _ => None.

Definition template_field (id : string) (value : pyvalue)
    (confidence : spec_float) : TemplateField :=
  {| tf_field_id := id; tf_field_name := id; tf_value := value;
     tf_justification := ""; tf_regulatory_references := [];
     tf_confidence_score := confidence |}.

(** End-to-end scenario C, with the reported total as a parameter. *)
Definition scenario_C (reported_cet1 : pyvalue) : list TemplateField :=
  [template_field "CR1_010_010" (PyInt 100) lit_0_9;
   template_field "CR1_020_010" (PyInt 50) lit_0_9;
   template_field "CR1_100_010" (PyInt (-20)) lit_0_9;
   template_field "CR1_500_010" reported_cet1 lit_0_9].

(** The schema of the end-to-end scenarios A and B, one required field
    [X] with the rule [must_be_positive], and an optional field [Y]. *)
Definition field_X : field_def :=
  number_field "X" "X" true ["must_be_positive"] None.

Definition optional_Y : field_def :=
  number_field "Y" "Y" false ["must_be_positive"] None.

Definition schema_X : template_schema :=
  {| ts_template_name := Some "X"; ts_description := None;
     ts_sections := Some [mk_section "s" "S" [field_X; optional_Y]] |}.

Definition null_X : TemplateField := template_field "X" PyNone lit_0_1.
Definition null_Y : TemplateField := template_field "Y" PyNone lit_0_1.
Definition negative_X : TemplateField := template_field "X" (PyInt (-5)) lit_0_1.
Definition confident_0_49 : TemplateField :=
  template_field "X" (PyInt 10) lit_0_49.

Definition negative_X_issues : list ValidationIssue :=
  [mk_issue "error" "X"
     [Lit "Field '"; Fmt (PyStr "X"); Lit "' failed validation: ";
      Fmt (PyStr "must_be_positive")] "must_be_positive";
   confidence_issue field_X negative_X].

(** The field [X] with the registry rule [required_field] listed among
    its rules. *)
Definition listed_required_X : field_def :=
  number_field "X" "X" true ["required_field"; "must_be_positive"] None.

(** An amount supplied as text. *)
Definition text_amount : list TemplateField :=
  [template_field "CR1_010_010" (PyStr "100") lit_0_9].

(** Totals that each drift by 1 from the one before. *)
Definition drifting_totals : list TemplateField :=
  [template_field "CR1_010_010" (PyInt 100) lit_0_9;
   template_field "CR1_500_010" (PyInt 101) lit_0_9;
   template_field "CR1_600_010" (PyInt 102) lit_0_9;
   template_field "CR1_700_010" (PyInt 103) lit_0_9].

(** A CR2 template with every required field, and a total that matches
    100 + (8 + 8) * 12.5. *)
Definition complete_cr2 : list TemplateField :=
  [template_field "CR2_010_010" (PyInt 100) lit_0_9;
   template_field "CR2_050_010" (PyInt 8) lit_0_9;
   template_field "CR2_060_010" (PyInt 8) lit_0_9;
   template_field "CR2_100_010" (PyInt 300) lit_0_9].

(** A negative CET1 total. *)
Definition negative_cet1 : list TemplateField :=
  [template_field "CR1_500_010" (PyInt (-5)) lit_0_9].

(** A CET1 component of [2^53 + 1], an integer that no binary64 float
    equals, against a reported total. *)
Definition odd_total (reported_cet1 : pyvalue) : list TemplateField :=
  [template_field "CR1_010_010" (PyInt (2 ^ 53 + 1)) lit_0_9;
   template_field "CR1_500_010" reported_cet1 lit_0_9].

(** The floats [9007199254740994.0] and [9007199254740991.0]. *)
Definition lit_2_53_plus_2 : spec_float := F64.round_Z (2 ^ 53 + 2).
Definition lit_2_53_minus_1 : spec_float := F64.round_Z (2 ^ 53 - 1).

(** A CET1 component beyond the binary64 range, against a reported 0. *)
Definition beyond_binary64 : list TemplateField :=
  [template_field "CR1_010_010" (PyInt (2 ^ 1024)) lit_0_9;
   template_field "CR1_500_010" (PyInt 0) lit_0_9].

(** Membership of a literal in the list of the cross-field ids. *)
Ltac known_id := unfold cross_field_ids; solve [repeat constructor].

(** Case analysis on membership in a list given by its elements. *)
Ltac in_list H :=
  repeat (apply elem_of_cons in H as [->|H]); [..|by apply elem_of_nil in H].

(** * Properties *)

(** ** The error monad and the loops *)

Lemma bind_Ok {A B} (r : result A) (k : A -> result B) (b : B) :
  bind r k = Ok b -> exists a, r = Ok a /\ k a = Ok b.
Proof. destruct r as [a|e]; simpl; [eauto | discriminate]. Qed.

Lemma for_each_app {A B} (body : A -> result (list B)) (l k : list A) :
  for_each body (l ++ k) =
  do here <- for_each body l; do more <- for_each body k; Ok (here ++ more).
Proof.
  induction l as [|x l IH]; simpl.
  - destruct (for_each body k); reflexivity.
  - destruct (body x) as [o|e]; simpl; [|reflexivity].
    rewrite IH. destruct (for_each body l) as [o1|e1]; simpl; [|reflexivity].
    destruct (for_each body k) as [o2|e2]; simpl; [|reflexivity].
    by rewrite app_assoc.
Qed.

(** A nested loop is the loop over the flattened list. *)
Lemma for_each_flat_map {A B C} (inner : A -> list B)
    (body : B -> result (list C)) (l : list A) :
  for_each (fun x => for_each body (inner x)) l =
  for_each body (flat_map inner l).
Proof.
  induction l as [|x l IH]; simpl; [reflexivity|].
  rewrite for_each_app, IH. reflexivity.
Qed.

Lemma for_each_Forall {A B} (P : B -> Prop) (body : A -> result (list B))
    (l : list A) out :
  (forall x o, x ∈ l -> body x = Ok o -> Forall P o) ->
  for_each body l = Ok out -> Forall P out.
Proof.
  revert out. induction l as [|x l IH]; simpl; intros out HP H.
  - inversion H. constructor.
  - apply bind_Ok in H as (o & Hx & H).
    apply bind_Ok in H as (more & Hl & H). inversion H; subst.
    apply Forall_app. split.
    + eapply HP; [left | exact Hx].
    + apply IH; [|exact Hl]. intros y oy Hy. apply HP. by right.
Qed.

Lemma for_each_total {A B} (body : A -> result (list B)) (l : list A) :
  (forall x, x ∈ l -> exists o, body x = Ok o) ->
  exists out, for_each body l = Ok out.
Proof.
  induction l as [|x l IH]; simpl; intros H; [eauto|].
  destruct (H x) as [o Hx]; [left|]. rewrite Hx. simpl.
  destruct IH as [more Hl]; [intros y Hy; apply H; by right|].
  rewrite Hl. simpl. eauto.
Qed.

(** ** Validation summary *)

Lemma fold_add_ones {A} (l : list A) (a : Z) :
  fold_left Z.add (map (fun _ => 1) l) a = a + Z.of_nat (length l).
Proof.
  revert a. induction l as [|x l IH]; intros a; simpl fold_left.
  - simpl. lia.
  - rewrite IH. rewrite length_cons. lia.
Qed.

Lemma count_severity_length sev issues :
  count_severity sev issues =
  Z.of_nat (length (filter (fun i => severity i = sev) issues)).
Proof. unfold count_severity. rewrite fold_add_ones. lia. Qed.

Lemma count_severity_zero sev issues :
  count_severity sev issues = 0 <-> Forall (fun i => severity i <> sev) issues.
Proof.
  rewrite count_severity_length.
  induction issues as [|i issues IH].
  - split; [constructor | reflexivity].
  - rewrite filter_cons. destruct (decide (severity i = sev)) as [Heq|Hne].
    + split.
      * rewrite length_cons. lia.
      * intros H. inversion H; subst. contradiction.
    + rewrite IH. split.
      * intros H. by constructor.
      * intros H. by inversion H.
Qed.

Lemma count_severity_app sev (l k : list ValidationIssue) :
  count_severity sev (l ++ k) = count_severity sev l + count_severity sev k.
Proof.
  rewrite !count_severity_length, filter_app, length_app. lia.
Qed.

(** C4. The summary of a list of findings is a reduction of that list:
    [total_issues] is its length, the three counts are the numbers of
    findings of severity error, warning and info, and [is_valid] holds
    exactly when the error count is zero, that is when no finding is an
    error; adding findings that are not errors (warnings, infos) never
    changes it. *)
Theorem C4_summary_is_reduction (issues : list ValidationIssue) :
  let s := generate_validation_summary issues in
  total_issues s = Z.of_nat (length issues) /\
  errors s = Z.of_nat (length (filter (fun i => severity i = "error") issues)) /\
  warnings s = Z.of_nat (length (filter (fun i => severity i = "warning") issues)) /\
  info s = Z.of_nat (length (filter (fun i => severity i = "info") issues)) /\
  (is_valid s = true <-> errors s = 0) /\
  (is_valid s = true <-> Forall (fun i => severity i <> "error") issues) /\
  (forall others,
      Forall (fun i => severity i <> "error") others ->
      is_valid (generate_validation_summary (issues ++ others)) = is_valid s /\
      is_valid (generate_validation_summary (others ++ issues)) = is_valid s).
Proof.
  simpl. repeat split; try apply count_severity_length.
  - apply Z.eqb_eq.
  - apply Z.eqb_eq.
  - intros H. apply count_severity_zero. by apply Z.eqb_eq.
  - intros H. apply Z.eqb_eq. by apply count_severity_zero.
  - rewrite count_severity_app.
    apply count_severity_zero in H. rewrite H. f_equal. lia.
  - rewrite count_severity_app.
    apply count_severity_zero in H. by rewrite H.
Qed.

(** ** Rule registry *)

Section RuleProperties.
Variable float_of_str : string -> option spec_float.


Lemma validation_rules_lookup (r : string) :
  validation_rules float_of_str !! r =
  if decide (r = "must_be_positive") then Some (_validate_positive float_of_str)
  else if decide (r = "must_be_negative_or_zero")
       then Some (_validate_negative_or_zero float_of_str)
  else if decide (r = "required_field") then Some _validate_required
  else None.
Proof.
  unfold validation_rules.
  repeat (rewrite lookup_insert; case_decide; subst; [reflexivity|]).
  rewrite lookup_empty.
  repeat (case_decide; [congruence|]). reflexivity.
Qed.

Lemma validation_rules_unknown (r : string) :
  validation_rules float_of_str !! r = None <-> r ∉ known_rules.
Proof.
  rewrite validation_rules_lookup. unfold known_rules.
  repeat case_decide; subst; split; intros Hr;
    try discriminate; try reflexivity;
    try (exfalso; apply Hr; solve [repeat constructor]).
  intros Hin.
  repeat (apply elem_of_cons in Hin as [->|Hin]; [congruence|]).
  by apply elem_of_nil in Hin.
Qed.

(** A value that [float()] rejects fails both numeric predicates. *)
Lemma try_float_rejected (v : pyvalue) (test : spec_float -> bool) :
  py_float float_of_str v = Raise ValueError \/ py_float float_of_str v = Raise TypeError ->
  try_float float_of_str v test = Ok false.
Proof. unfold try_float. intros [-> | ->]; reflexivity. Qed.

(** The only exception a predicate lets through is the [OverflowError]
    of converting an integer beyond the binary64 range. *)
Lemma try_float_total (v : pyvalue) (test : spec_float -> bool) :
  py_float float_of_str v <> Raise OverflowError ->
  exists b, try_float float_of_str v test = Ok b.
Proof.
  unfold try_float. destruct (py_float float_of_str v) as [f|[]]; intros H; eauto.
  congruence.
Qed.
End RuleProperties.

(** C5. The listed values of the two numeric predicates, and: a value
    other than [None] that [float()] cannot convert (it raises [ValueError]
    or [TypeError]) fails both predicates; these values are the strings
    that do not parse as a number, the lists and the dictionaries. *)
Theorem C5_rule_predicates (float_of_str : string -> option spec_float) :
  _validate_positive float_of_str (PyInt 0) = Ok false /\
  _validate_positive float_of_str (PyInt (-5)) = Ok false /\
  _validate_positive float_of_str (PyInt 10) = Ok true /\
  _validate_positive float_of_str PyNone = Ok false /\
  _validate_negative_or_zero float_of_str PyNone = Ok true /\
  _validate_negative_or_zero float_of_str (PyInt 0) = Ok true /\
  _validate_negative_or_zero float_of_str (PyInt 5) = Ok false /\
  (forall v : pyvalue,
      v <> PyNone ->
      py_float float_of_str v = Raise ValueError \/
      py_float float_of_str v = Raise TypeError ->
      _validate_positive float_of_str v = Ok false /\
      _validate_negative_or_zero float_of_str v = Ok false) /\
  (forall v : pyvalue,
      v <> PyNone ->
      (py_float float_of_str v = Raise ValueError \/
       py_float float_of_str v = Raise TypeError) <->
      ((exists s, v = PyStr s /\ float_of_str s = None) \/
       (exists l, v = PyList l) \/ (exists d, v = PyDict d))).
Proof.
  repeat split; try reflexivity.
  - destruct v; try congruence; by apply try_float_rejected.
  - destruct v; try congruence; by apply try_float_rejected.
  - intros Hraise. destruct v as [| b | z | f | s | l | d]; simpl in Hraise.
    + congruence.
    + destruct Hraise as [Hr|Hr]; vm_compute in Hr; destruct b; discriminate.
    + unfold F64.of_int in Hraise.
      destruct (F64.is_infinity (F64.round_Z z));
        destruct Hraise; discriminate.
    + destruct Hraise; discriminate.
    + left. exists s. split; [done|].
      destruct (float_of_str s); [destruct Hraise; discriminate | done].
    + right. left. by exists l.
    + right. right. by exists d.
  - intros [(s & -> & Hs) | [(l & ->) | (d & ->)]]; simpl.
    + rewrite Hs. by left.
    + by right.
    + by right.
Qed.

(** ** The dictionaries built from the supplied fields *)

Lemma field_map_of_snoc (fields : list TemplateField) (f : TemplateField) :
  field_map_of (fields ++ [f]) = <[tf_field_id f := f]> (field_map_of fields).
Proof. unfold field_map_of. by rewrite fold_left_app. Qed.

(** A field id nobody supplied is not a key of the dictionary. *)
Lemma field_map_of_lookup_None (fields : list TemplateField) (k : string) :
  field_map_of fields !! k = None <->
  (forall f, f ∈ fields -> tf_field_id f <> k).
Proof.
  induction fields as [|f fields IH] using rev_ind.
  - split; [intros _ f Hf; by apply elem_of_nil in Hf | reflexivity].
  - rewrite field_map_of_snoc, lookup_insert. case_decide as Hk.
    + split; [discriminate|]. intros H. exfalso.
      apply (H f); [apply elem_of_app; right; by left | exact Hk].
    + rewrite IH. split.
      * intros H g Hg. apply elem_of_app in Hg as [Hg|Hg]; [by apply H|].
        apply list_elem_of_singleton in Hg. by subst.
      * intros H g Hg. apply H. apply elem_of_app. by left.
Qed.

(** The field found under an id is one of the supplied fields. *)
Lemma field_map_of_lookup_Some (fields : list TemplateField) (k : string) f :
  field_map_of fields !! k = Some f -> f ∈ fields /\ tf_field_id f = k.
Proof.
  induction fields as [|g fields IH] using rev_ind.
  - discriminate.
  - rewrite field_map_of_snoc, lookup_insert. case_decide as Hk.
    + intros [= ->]. split; [apply elem_of_app; right; by left | exact Hk].
    + intros H. destruct (IH H) as [Hin Hid].
      split; [apply elem_of_app; by left | exact Hid].
Qed.

Lemma value_map_of_snoc (fields : list TemplateField) (f : TemplateField) :
  value_map_of (fields ++ [f]) =
  if negb (is_none (tf_value f))
  then <[tf_field_id f := tf_value f]> (value_map_of fields)
  else value_map_of fields.
Proof. unfold value_map_of. by rewrite fold_left_app. Qed.

(** An id that is not supplied, or only with the value [None], is not a
    key of the dictionary of the cross-field rules. *)
Lemma value_map_of_lookup_None (fields : list TemplateField) (k : string) :
  value_map_of fields !! k = None <->
  (forall f, f ∈ fields -> tf_field_id f = k -> tf_value f = PyNone).
Proof.
  induction fields as [|f fields IH] using rev_ind.
  - split; [intros _ f Hf; by apply elem_of_nil in Hf | reflexivity].
  - rewrite value_map_of_snoc.
    assert (Hsplit : (forall g, g ∈ fields ++ [f] -> tf_field_id g = k ->
                                tf_value g = PyNone) <->
                     (forall g, g ∈ fields -> tf_field_id g = k ->
                                tf_value g = PyNone) /\
                     (tf_field_id f = k -> tf_value f = PyNone)).
    { split.
      - intros H. split; [intros g Hg; apply H; apply elem_of_app; by left|].
        apply H. apply elem_of_app. right. by left.
      - intros [H1 H2] g Hg. apply elem_of_app in Hg as [Hg|Hg]; [by apply H1|].
        apply list_elem_of_singleton in Hg. by subst. }
    rewrite Hsplit, <- IH. destruct (tf_value f) eqn:Hv; simpl;
      try (rewrite lookup_insert; case_decide as Hk;
           [split; [discriminate | intros [_ H]; by specialize (H Hk)]
           | split; [intros H; split; [exact H | congruence] | by intros [H _]]]).
    split; [intros H; by split | by intros [H _]].
Qed.

(** The values of the dictionary of the cross-field rules are never
    [None]. *)
Lemma value_map_of_not_none (fields : list TemplateField) (k : string) v :
  value_map_of fields !! k = Some v -> is_none v = false.
Proof.
  induction fields as [|f fields IH] using rev_ind; [discriminate|].
  rewrite value_map_of_snoc. destruct (is_none (tf_value f)) eqn:Hv; simpl.
  - exact IH.
  - rewrite lookup_insert. case_decide; [by intros [= <-] | exact IH].
Qed.

(** ** Cross-field rules *)

Lemma report_mismatch_shape calculated reported fid what how rule_id o :
  report_mismatch calculated reported fid what how rule_id = Ok o ->
  Forall (fun i => severity i = "error" /\ field_id i = Some fid /\
                   rule i = rule_id) o.
Proof.
  unfold report_mismatch. destruct (negb (is_none reported)).
  - intros H. apply bind_Ok in H as (d & _ & H).
    apply bind_Ok in H as (a & _ & H). apply bind_Ok in H as (off & _ & H).
    destruct off.
    + apply bind_Ok in H as (shown & _ & H). injection H as <-.
      constructor; [done | constructor].
    + injection H as <-. constructor.
  - intros [= <-]. constructor.
Qed.

Lemma report_mismatch_kind calculated reported fid what how rule_id o :
  fid ∈ cross_field_ids ->
  report_mismatch calculated reported fid what how rule_id = Ok o ->
  Forall cross_field_issue o.
Proof.
  intros Hid H. apply report_mismatch_shape in H.
  eapply Forall_impl; [exact H|]. simpl. intros i (Hs & Hf & _).
  split; [by left | by exists fid].
Qed.

Lemma _validate_cr1_rules_kind field_map o :
  _validate_cr1_rules field_map = Ok o -> Forall cross_field_issue o.
Proof.
  unfold _validate_cr1_rules. intros H.
  apply bind_Ok in H as (v2 & H2 & H). apply bind_Ok in H as (v3 & H3 & H).
  apply bind_Ok in H as (v4 & H4 & H). apply bind_Ok in H as (v6 & H6 & H).
  injection H as <-. repeat (apply Forall_app; split).
  - unfold cr1_cet1_calculation in H2. apply bind_Ok in H2 as (c & _ & H2).
    apply report_mismatch_kind in H2; [done | known_id].
  - unfold cr1_tier1_calculation in H3. apply bind_Ok in H3 as (c & _ & H3).
    apply report_mismatch_kind in H3; [done | known_id].
  - unfold cr1_own_funds_calculation in H4.
    apply bind_Ok in H4 as (c & _ & H4).
    apply report_mismatch_kind in H4; [done | known_id].
  - unfold cr1_minimum_cet1 in H6. apply bind_Ok in H6 as (n & _ & H6).
    destruct n; injection H6 as <-; [|constructor].
    constructor; [|constructor].
    split; [by left | exists "CR1_500_010"; split; [done | known_id]].
Qed.

Lemma _validate_cr2_rules_kind field_map o :
  _validate_cr2_rules field_map = Ok o -> Forall cross_field_issue o.
Proof.
  unfold _validate_cr2_rules. intros H.
  apply bind_Ok in H as (rwa & Hrwa & H). injection H as <-.
  apply Forall_app. split.
  - unfold cr2_rwa_calculation in Hrwa.
    apply bind_Ok in Hrwa as (calc & _ & Hrwa).
    apply report_mismatch_kind in Hrwa; [done | known_id].
  - unfold cr2_credit_risk_required. destruct (_ && _); [|constructor].
    constructor; [|constructor].
    split; [by right | exists "CR2_010_010"; split; [done | known_id]].
Qed.

(** The findings of the cross-field rules are errors and warnings about
    five field ids. *)
Lemma _validate_cross_field_rules_kind fields template_type schema o :
  _validate_cross_field_rules fields template_type schema = Ok o ->
  Forall cross_field_issue o.
Proof.
  unfold _validate_cross_field_rules.
  destruct (String.eqb template_type OWN_FUNDS_CR1);
    [apply _validate_cr1_rules_kind|].
  destruct (String.eqb template_type CAPITAL_REQUIREMENTS_CR2);
    [apply _validate_cr2_rules_kind|].
  intros [= <-]. constructor.
Qed.

Lemma cross_field_issue_kind (i : ValidationIssue) :
  cross_field_issue i -> error_or_warning i.
Proof. intros [Hs (id & Hid & _)]. split; [done | by rewrite Hid]. Qed.

(** ** Per-field validation *)

Section FieldProperties.
Variable float_of_str : string -> option spec_float.



Lemma apply_rule_shape fd f r o :
  apply_rule float_of_str fd f r = Ok o ->
  Forall (fun i => severity i = "error" /\
                   field_id i = Some (fd_field_id fd) /\
                   rule i = r /\ r ∈ known_rules) o.
Proof.
  unfold apply_rule.
  destruct (validation_rules float_of_str !! r) as [validator|] eqn:Hr.
  - assert (Hknown : r ∈ known_rules).
    { destruct (decide (r ∈ known_rules)) as [|Hn]; [done|].
      apply validation_rules_unknown with (float_of_str := float_of_str) in Hn.
      congruence. }
    intros H. apply bind_Ok in H as (ok & _ & H).
    destruct ok; simpl in H; inversion H; subst; [constructor|].
    constructor; [simpl; done | constructor].
  - intros [= <-]. constructor.
Qed.

Lemma apply_rule_total fd f r :
  py_float float_of_str (tf_value f) <> Raise OverflowError ->
  exists o, apply_rule float_of_str fd f r = Ok o.
Proof.
  intros Hv. unfold apply_rule.
  rewrite validation_rules_lookup.
  repeat case_decide; eauto.
  - unfold _validate_positive. destruct (is_none (tf_value f)); simpl; eauto.
    destruct (try_float_total float_of_str (tf_value f)
                (fun x => match F64.compare_Z x 0 with Some Gt => true | _ => false end) Hv)
      as [b ->].
    simpl. destruct b; simpl; eauto.
  - unfold _validate_negative_or_zero.
    destruct (is_none (tf_value f)); simpl; eauto.
    destruct (try_float_total float_of_str (tf_value f)
                (fun x => match F64.compare_Z x 0 with
                          | Some Lt | Some Eq => true | _ => false end) Hv)
      as [b ->].
    simpl. destruct b; simpl; eauto.
  - unfold _validate_required. simpl.
    destruct (negb (negb (is_none (tf_value f)))); eauto.
Qed.

(** The findings of the rule loop of one field. *)
Lemma rule_issues_shape fd f rules o :
  for_each (apply_rule float_of_str fd f) rules = Ok o ->
  Forall (fun i => severity i = "error" /\
                   field_id i = Some (fd_field_id fd) /\
                   rule i ∈ known_rules) o.
Proof.
  apply for_each_Forall. intros r out _ Hr.
  apply apply_rule_shape in Hr.
  eapply Forall_impl; [exact Hr|]. simpl.
  intros i (Hs & Hf & Hrule & Hk). subst r. done.
Qed.

Lemma validate_populated_Some fd f :
  is_none (tf_value f) = false ->
  validate_populated float_of_str fd (Some f) =
  do rule_issues <-
    for_each (apply_rule float_of_str fd f) (default [] (fd_validation_rules fd));
  Ok (rule_issues ++
      if SFltb (tf_confidence_score f) F64.lit_0_5
      then [confidence_issue fd f] else []).
Proof.
  intros Hv. unfold validate_populated. rewrite Hv.
  destruct (for_each _ _) as [o|e]; simpl; [|reflexivity].
  destruct (SFltb _ _); [reflexivity | by rewrite app_nil_r].
Qed.

Lemma validate_populated_skip fd field :
  not_populated field = true -> validate_populated float_of_str fd field = Ok [].
Proof.
  destruct field as [f|]; simpl; [|reflexivity]. by intros ->.
Qed.

(** A field that is populated passes the required-field check. *)
Lemma validate_field_def_populated fm fd f :
  fm !! fd_field_id fd = Some f ->
  is_none (tf_value f) = false ->
  validate_field_def float_of_str fm fd = validate_populated float_of_str fd (Some f).
Proof.
  intros Hf Hv. unfold validate_field_def. rewrite Hf. simpl.
  rewrite Hv. by destruct (default false (fd_required fd)).
Qed.

Lemma validate_field_def_not_populated fm fd :
  not_populated (fm !! fd_field_id fd) = true ->
  validate_field_def float_of_str fm fd =
  Ok (if default false (fd_required fd) then [required_issue fd] else []).
Proof.
  intros Hn. unfold validate_field_def. rewrite Hn.
  destruct (default false (fd_required fd)); [reflexivity|].
  by apply validate_populated_skip.
Qed.

(** Every finding of a field definition is an error or a warning about
    that field. *)
Lemma validate_field_def_shape fm fd o :
  validate_field_def float_of_str fm fd = Ok o ->
  Forall (fun i => (severity i = "error" \/ severity i = "warning") /\
                   field_id i = Some (fd_field_id fd)) o.
Proof.
  destruct (not_populated (fm !! fd_field_id fd)) eqn:Hn.
  - rewrite validate_field_def_not_populated by done.
    intros [= <-]. destruct (default false (fd_required fd));
      [constructor; [split; [by left | done] | constructor] | constructor].
  - destruct (fm !! fd_field_id fd) as [f|] eqn:Hf; [|discriminate].
    simpl in Hn. rewrite (validate_field_def_populated fm fd f Hf Hn).
    rewrite validate_populated_Some by done.
    intros H. apply bind_Ok in H as (ri & Hri & H). inversion H; subst.
    apply Forall_app. split.
    + apply rule_issues_shape in Hri.
      eapply Forall_impl; [exact Hri|]. simpl. intros i (Hs & Hi & _). auto.
    + destruct (SFltb _ _);
        [constructor; [split; [by right | done] | constructor] | constructor].
Qed.

Lemma validate_schema_fields_flat fields schema :
  validate_schema_fields float_of_str fields schema =
  for_each (validate_field_def float_of_str (field_map_of fields)) (schema_field_defs schema).
Proof.
  unfold validate_schema_fields, schema_field_defs.
  apply for_each_flat_map.
Qed.
End FieldProperties.

Lemma filter_Forall_all {A} (P : A -> Prop) `{!forall x, Decision (P x)}
    (l : list A) :
  Forall P l -> filter P l = l.
Proof.
  induction 1 as [|x l Hx _ IH]; [reflexivity|].
  rewrite filter_cons. rewrite decide_True by done. by rewrite IH.
Qed.

Lemma filter_Forall_none {A} (P : A -> Prop) `{!forall x, Decision (P x)}
    (l : list A) :
  Forall (fun x => ~ P x) l -> filter P l = [].
Proof.
  induction 1 as [|x l Hx _ IH]; [reflexivity|].
  rewrite filter_cons. by rewrite decide_False.
Qed.

Lemma for_each_elem {A B} (body : A -> result (list B)) (l : list A) out x :
  for_each body l = Ok out -> x ∈ l ->
  exists o, body x = Ok o /\ (forall i, i ∈ o -> i ∈ out).
Proof.
  revert out. induction l as [|y l IH]; simpl; intros out H Hx.
  - by apply elem_of_nil in Hx.
  - apply bind_Ok in H as (o & Hy & H).
    apply bind_Ok in H as (more & Hl & H). inversion H; subst.
    apply elem_of_cons in Hx as [->|Hx].
    + exists o. split; [done|]. intros i Hi. apply elem_of_app. by left.
    + destruct (IH _ Hl Hx) as (ox & Hox & Hsub).
      exists ox. split; [done|]. intros i Hi. apply elem_of_app. right. auto.
Qed.

Lemma validate_fields_Ok float_of_str fields template_type schema issues :
  validate_fields float_of_str fields template_type schema = Ok issues ->
  exists per_field cross,
    validate_schema_fields float_of_str fields schema = Ok per_field /\
    _validate_cross_field_rules fields template_type schema = Ok cross /\
    issues = per_field ++ cross.
Proof.
  unfold validate_fields. intros H.
  apply bind_Ok in H as (per_field & Hp & H).
  apply bind_Ok in H as (cross & Hc & H). injection H as <-. eauto.
Qed.

(** In a schema whose field ids are pairwise distinct, the findings about
    one field id are those of its field definition. *)
Lemma own_findings float_of_str fm (defs : list field_def) out fd :
  NoDup (fd_field_id <$> defs) ->
  for_each (validate_field_def float_of_str fm) defs = Ok out ->
  fd ∈ defs ->
  exists o, validate_field_def float_of_str fm fd = Ok o /\
            filter (fun i => field_id i = Some (fd_field_id fd)) out = o.
Proof.
  revert out. induction defs as [|d defs IH]; intros out Hnd H Hfd.
  - by apply elem_of_nil in Hfd.
  - rewrite fmap_cons in Hnd. apply NoDup_cons in Hnd as [Hd Hnd].
    simpl in H. apply bind_Ok in H as (o & Ho & H).
    apply bind_Ok in H as (more & Hmore & H). inversion H; subst. clear H.
    rewrite filter_app.
    assert (Hothers : forall x id, x ∈ defs -> id ∉ fd_field_id <$> defs ->
              fd_field_id x <> id).
    { intros x id Hx Hid Heq. subst id. apply Hid.
      by apply list_elem_of_fmap_2. }
    apply elem_of_cons in Hfd as [->|Hfd].
    + exists o. split; [done|].
      rewrite filter_Forall_all.
      * rewrite filter_Forall_none; [by rewrite app_nil_r|].
        eapply for_each_Forall; [|exact Hmore]. intros x ox Hx Hox. simpl.
        apply validate_field_def_shape in Hox.
        eapply Forall_impl; [exact Hox|]. simpl. intros i [_ Hi] Hi'.
        rewrite Hi in Hi'. inversion Hi'. by eapply Hothers.
      * apply validate_field_def_shape in Ho.
        eapply Forall_impl; [exact Ho|]. simpl. by intros i [_ Hi].
    + destruct (IH _ Hnd Hmore Hfd) as (ofd & Hofd & Hfilter).
      exists ofd. split; [done|].
      rewrite filter_Forall_none; [by rewrite Hfilter|].
      apply validate_field_def_shape in Ho.
      eapply Forall_impl; [exact Ho|]. simpl. intros i [_ Hi] Hi'.
      rewrite Hi in Hi'. inversion Hi' as [Heq].
      apply Hd. rewrite Heq. by apply list_elem_of_fmap_2.
Qed.

(** C3. When the supplied fields lack the id of a field definition, or
    the field found under that id has the value [None], the definition
    yields exactly one finding if it is required, the error of rule
    [required_field] for that id (and no finding of a rule predicate), and
    no finding at all if it is not required.  In a schema with pairwise
    distinct field ids these are all the findings of the per-field pass
    about that id, and all the findings of the whole validator about it
    unless it is one of the five ids the cross-field rules report on. *)
Theorem C3_required_field_check (float_of_str : string -> option spec_float)
    (fields : list TemplateField) (fd : field_def) :
  (forall f, f ∈ fields -> tf_field_id f <> fd_field_id fd) \/
  (exists f, field_map_of fields !! fd_field_id fd = Some f /\
             tf_value f = PyNone) ->
  let expected :=
    if default false (fd_required fd) then [required_issue fd] else [] in
  let about_field := fun i => field_id i = Some (fd_field_id fd) in
  severity (required_issue fd) = "error" /\
  rule (required_issue fd) = "required_field" /\
  field_id (required_issue fd) = Some (fd_field_id fd) /\
  validate_field_def float_of_str (field_map_of fields) fd = Ok expected /\
  (forall schema issues,
      NoDup (fd_field_id <$> schema_field_defs schema) ->
      fd ∈ schema_field_defs schema ->
      validate_schema_fields float_of_str fields schema = Ok issues ->
      filter about_field issues = expected) /\
  (forall template_type schema issues,
      NoDup (fd_field_id <$> schema_field_defs schema) ->
      fd ∈ schema_field_defs schema ->
      fd_field_id fd ∉ cross_field_ids ->
      validate_fields float_of_str fields template_type schema = Ok issues ->
      filter about_field issues = expected).
Proof.
  intros Habsent expected about_field.
  assert (Hn : not_populated (field_map_of fields !! fd_field_id fd) = true).
  { destruct Habsent as [Hlack | (f & Hf & Hv)].
    - apply field_map_of_lookup_None in Hlack. by rewrite Hlack.
    - rewrite Hf. simpl. by rewrite Hv. }
  assert (Hfd : validate_field_def float_of_str (field_map_of fields) fd
                = Ok expected)
    by (by apply validate_field_def_not_populated).
  assert (Hpass : forall schema issues,
             NoDup (fd_field_id <$> schema_field_defs schema) ->
             fd ∈ schema_field_defs schema ->
             validate_schema_fields float_of_str fields schema = Ok issues ->
             filter about_field issues = expected).
  { intros schema issues Hnd Hin Hrun.
    rewrite validate_schema_fields_flat in Hrun.
    destruct (own_findings _ _ _ _ _ Hnd Hrun Hin) as (o & Ho & Hfilter).
    rewrite Hfd in Ho. unfold about_field. congruence. }
  repeat split; [exact Hfd | exact Hpass |].
  intros template_type schema issues Hnd Hin Hid Hrun.
  apply validate_fields_Ok in Hrun as (per_field & cross & Hp & Hc & ->).
  rewrite filter_app, (Hpass schema per_field Hnd Hin Hp).
  rewrite filter_Forall_none; [by rewrite app_nil_r|].
  apply _validate_cross_field_rules_kind in Hc.
  eapply Forall_impl; [exact Hc|]. simpl.
  intros i [_ (id & Hi & Hknown)] Hi'. unfold about_field in Hi'.
  rewrite Hi in Hi'. injection Hi' as ->. contradiction.
Qed.

Lemma bind_ret {A} (r : result A) : (do x <- r; Ok x) = r.
Proof. by destruct r. Qed.



(** The rule loop never reports under the name of the confidence check. *)
Lemma rule_issues_not_confidence float_of_str fd f rules o :
  for_each (apply_rule float_of_str fd f) rules = Ok o ->
  Forall (fun i => rule i <> "confidence_threshold") o.
Proof.
  intros H. apply rule_issues_shape in H.
  eapply Forall_impl; [exact H|]. simpl. intros i (_ & _ & Hk) Heq.
  rewrite Heq in Hk. unfold known_rules in Hk.
  repeat (apply elem_of_cons in Hk as [Hk|Hk]; [discriminate|]).
  by apply elem_of_nil in Hk.
Qed.

Lemma rule_loop_total float_of_str fd f rules :
  py_float float_of_str (tf_value f) <> Raise OverflowError ->
  exists o, for_each (apply_rule float_of_str fd f) rules = Ok o.
Proof.
  intros Hv. apply for_each_total. intros r _. by apply apply_rule_total.
Qed.

(** C6. For a populated field matched to a field definition, whenever the
    validation of the definition returns its findings, one of them has the
    rule [confidence_threshold] exactly when the confidence score is
    strictly below 0.5 (it is then the warning of that field): a score of
    exactly 0.5 gives no such finding, a score of 0.49 gives the warning.
    The validation does return unless the value is an integer too large
    for [float()]. *)
Theorem C6_confidence_boundary (float_of_str : string -> option spec_float)
    (fm : gmap string TemplateField) (fd : field_def) (f : TemplateField) :
  fm !! fd_field_id fd = Some f ->
  is_none (tf_value f) = false ->
  (forall issues,
      validate_field_def float_of_str fm fd = Ok issues ->
      ((exists i, i ∈ issues /\ rule i = "confidence_threshold") <->
       SFltb (tf_confidence_score f) F64.lit_0_5 = true) /\
      (SFltb (tf_confidence_score f) F64.lit_0_5 = true ->
       confidence_issue fd f ∈ issues) /\
      (tf_confidence_score f = F64.lit_0_5 ->
       Forall (fun i => rule i <> "confidence_threshold") issues) /\
      (tf_confidence_score f = lit_0_49 -> confidence_issue fd f ∈ issues)) /\
  (py_float float_of_str (tf_value f) <> Raise OverflowError ->
   exists issues, validate_field_def float_of_str fm fd = Ok issues).
Proof.
  intros Hf Hv.
  rewrite (validate_field_def_populated _ fm fd f Hf Hv).
  rewrite validate_populated_Some by done.
  split.
  - intros issues H. apply bind_Ok in H as (ri & Hri & H).
    injection H as <-.
    pose proof (rule_issues_not_confidence _ _ _ _ _ Hri) as Hnc.
    rewrite Forall_forall in Hnc.
    assert (Hwarn : SFltb (tf_confidence_score f) F64.lit_0_5 = true ->
                    confidence_issue fd f ∈
                      ri ++ (if SFltb (tf_confidence_score f) F64.lit_0_5
                             then [confidence_issue fd f] else [])).
    { intros ->. apply elem_of_app. right. by left. }
    assert (Hnone : SFltb (tf_confidence_score f) F64.lit_0_5 = false ->
                    Forall (fun i => rule i <> "confidence_threshold")
                      (ri ++ (if SFltb (tf_confidence_score f) F64.lit_0_5
                              then [confidence_issue fd f] else []))).
    { intros ->. rewrite app_nil_r. by apply Forall_forall. }
    repeat split.
    + intros (i & Hi & Hrule).
      destruct (SFltb (tf_confidence_score f) F64.lit_0_5) eqn:Hlt; [done|].
      specialize (Hnone eq_refl). rewrite Forall_forall in Hnone.
      exfalso. by apply (Hnone i).
    + intros Hlt. exists (confidence_issue fd f). split; [by apply Hwarn | done].
    + exact Hwarn.
    + intros Hc. apply Hnone. by rewrite Hc.
    + intros Hc. apply Hwarn. by rewrite Hc.
  - intros Hfloat.
    destruct (rule_loop_total float_of_str fd f
                (default [] (fd_validation_rules fd)) Hfloat) as [o Ho].
    rewrite Ho. simpl. eauto.
Qed.

(** C2, as the code has it.  A field matched to a field definition of the
    schema, with a value other than [None] and a confidence score below
    0.5, gets the warning of rule [confidence_threshold] in every list of
    findings the validator returns, whatever the rule checks of the field
    report: the validation of the field is its rule loop followed by the
    warning, and the loop runs to its end unless the value is an integer
    too large for [float()].  A matched field whose value is [None] gets no
    confidence warning: only the [required_field] error when the
    definition is required. *)
Theorem C2_low_confidence_warning (float_of_str : string -> option spec_float)
    (fields : list TemplateField) (template_type : TemplateType)
    (schema : template_schema) (fd : field_def) (f : TemplateField) :
  fd ∈ schema_field_defs schema ->
  field_map_of fields !! fd_field_id fd = Some f ->
  SFltb (tf_confidence_score f) F64.lit_0_5 = true ->
  severity (confidence_issue fd f) = "warning" /\
  rule (confidence_issue fd f) = "confidence_threshold" /\
  field_id (confidence_issue fd f) = Some (fd_field_id fd) /\
  (is_none (tf_value f) = false ->
   (forall issues,
       validate_fields float_of_str fields template_type schema = Ok issues ->
       confidence_issue fd f ∈ issues) /\
   validate_field_def float_of_str (field_map_of fields) fd =
     (do rule_issues <-
        for_each (apply_rule float_of_str fd f)
          (default [] (fd_validation_rules fd));
      Ok (rule_issues ++ [confidence_issue fd f])) /\
   (py_float float_of_str (tf_value f) <> Raise OverflowError ->
    exists rule_issues,
      validate_field_def float_of_str (field_map_of fields) fd =
        Ok (rule_issues ++ [confidence_issue fd f]) /\
      Forall (fun i => rule i ∈ known_rules) rule_issues)) /\
  (is_none (tf_value f) = true ->
   validate_field_def float_of_str (field_map_of fields) fd =
     Ok (if default false (fd_required fd) then [required_issue fd] else [])).
Proof.
  intros Hin Hf Hlt. do 3 (split; [reflexivity|]). split.
  - intros Hv.
    assert (Hfd : validate_field_def float_of_str (field_map_of fields) fd =
              (do rule_issues <-
                 for_each (apply_rule float_of_str fd f)
                   (default [] (fd_validation_rules fd));
               Ok (rule_issues ++ [confidence_issue fd f]))).
    { rewrite (validate_field_def_populated _ _ fd f Hf Hv).
      by rewrite validate_populated_Some, Hlt. }
    split; [|split; [exact Hfd|]].
    + intros issues Hrun.
      apply validate_fields_Ok in Hrun as (per_field & cross & Hp & _ & ->).
      rewrite validate_schema_fields_flat in Hp.
      destruct (for_each_elem _ _ _ _ Hp Hin) as (o & Ho & Hsub).
      apply elem_of_app. left. apply Hsub.
      rewrite Hfd in Ho. apply bind_Ok in Ho as (ri & _ & Ho).
      injection Ho as <-. apply elem_of_app. right. by left.
    + intros Hfloat. rewrite Hfd.
      destruct (rule_loop_total float_of_str fd f
                  (default [] (fd_validation_rules fd)) Hfloat) as [o Ho].
      rewrite Ho. simpl. exists o. split; [done|].
      apply rule_issues_shape in Ho.
      eapply Forall_impl; [exact Ho|]. simpl. by intros i (_ & _ & Hk).
  - intros Hnull. apply validate_field_def_not_populated.
    rewrite Hf. simpl. exact Hnull.
Qed.

(** ** Findings of the whole validator *)

(** C10. Every finding the validator returns, from the per-field pass or
    from the cross-field rules, has severity error or warning and names a
    field; none has severity info, so the summary of what the validator
    returns counts no info finding. *)
Theorem C10_findings_are_errors_or_warnings
    (float_of_str : string -> option spec_float)
    (fields : list TemplateField) (template_type : TemplateType)
    (schema : template_schema) (issues : list ValidationIssue) :
  validate_fields float_of_str fields template_type schema = Ok issues ->
  Forall (fun i => (severity i = "error" \/ severity i = "warning") /\
                   is_Some (field_id i)) issues /\
  Forall (fun i => severity i <> "info") issues /\
  info (generate_validation_summary issues) = 0.
Proof.
  intros Hrun.
  assert (Hkind : Forall error_or_warning issues).
  { apply validate_fields_Ok in Hrun as (per_field & cross & Hp & Hc & ->).
    apply Forall_app. split.
    - rewrite validate_schema_fields_flat in Hp.
      eapply for_each_Forall; [|exact Hp]. intros fd o _ Ho.
      apply validate_field_def_shape in Ho.
      eapply Forall_impl; [exact Ho|]. simpl. intros i [Hs Hf].
      split; [done | by rewrite Hf].
    - apply _validate_cross_field_rules_kind in Hc.
      eapply Forall_impl; [exact Hc | apply cross_field_issue_kind]. }
  assert (Hinfo : Forall (fun i => severity i <> "info") issues).
  { eapply Forall_impl; [exact Hkind|]. simpl.
    intros i [[Hs|Hs] _]; rewrite Hs; discriminate. }
  repeat split; [exact Hkind | exact Hinfo |].
  by apply count_severity_zero.
Qed.

(** ** Template catalog *)

Lemma templates_lookup (t : TemplateType) :
  templates !! t =
  if decide (t = OWN_FUNDS_CR1) then Some _get_cr1_schema
  else if decide (t = CAPITAL_REQUIREMENTS_CR2) then Some _get_cr2_schema
  else None.
Proof.
  unfold templates.
  repeat (rewrite lookup_insert; case_decide; subst; [reflexivity|]).
  rewrite lookup_empty. repeat (case_decide; [congruence|]). reflexivity.
Qed.

(** C8. For a template type other than the two of the catalog, the schema
    lookup returns the empty dictionary, and validating any fields against
    it returns the empty list of findings: the per-field pass has no
    section to walk and the cross-field dispatch has no branch for the
    type.  Nothing is raised. *)
Theorem C8_unknown_template_type (float_of_str : string -> option spec_float)
    (template_type : TemplateType) :
  template_type <> OWN_FUNDS_CR1 ->
  template_type <> CAPITAL_REQUIREMENTS_CR2 ->
  templates !! template_type = None /\
  get_template_schema template_type = empty_schema /\
  get_all_field_ids template_type = [] /\
  (forall fields : list TemplateField,
      validate_schema_fields float_of_str fields
        (get_template_schema template_type) = Ok [] /\
      (forall schema,
          _validate_cross_field_rules fields template_type schema = Ok []) /\
      validate_fields float_of_str fields template_type
        (get_template_schema template_type) = Ok []).
Proof.
  intros H1 H2.
  assert (Hnone : templates !! template_type = None).
  { rewrite templates_lookup. by rewrite !decide_False. }
  assert (Hschema : get_template_schema template_type = empty_schema).
  { unfold get_template_schema. by rewrite Hnone. }
  assert (Hcross : forall fields schema,
             _validate_cross_field_rules fields template_type schema = Ok []).
  { intros fields schema. unfold _validate_cross_field_rules.
    apply String.eqb_neq in H1, H2. by rewrite H1, H2. }
  repeat split; try done.
  - unfold get_all_field_ids. by rewrite Hschema.
  - by rewrite Hschema.
  - unfold validate_fields. rewrite Hcross, Hschema. reflexivity.
Qed.

(** ** The formula cross-checks *)

Lemma get_or_insert_default (field_map : gmap string pyvalue) k k' d :
  field_map !! k = None ->
  get_or (<[k := d]> field_map) k' d = get_or field_map k' d.
Proof.
  intros Hk. unfold get_or. rewrite lookup_insert. case_decide; [|done].
  subst. by rewrite Hk.
Qed.

Lemma get_insert_ne (field_map : gmap string pyvalue) k k' v :
  k <> k' -> get (<[k := v]> field_map) k' = get field_map k'.
Proof. intros Hk. unfold get, get_or. by rewrite lookup_insert_ne. Qed.

(** C7. For each of the formula cross-checks: an input of the formula that
    the dictionary lacks is read as 0 (the check and its calculated value
    are what they are with 0 supplied for it); when the reported total is
    lacking (or [None]) the check only computes its value and reports
    nothing, so whatever list it returns is empty, and with no input
    supplied at all it returns the empty list.  The sign check of the
    reported CET1 is skipped in the same way, and the credit-risk check
    reads a lacking input as 0.  In the dictionary built from the supplied
    fields an id is lacking as soon as it is not supplied or only supplied
    with the value [None]. *)
Theorem C7_defaults_and_silent_skip (c : formula_check)
    (field_map : gmap string pyvalue) :
  c ∈ formula_checks ->
  (forall k, k ∈ fc_inputs c -> field_map !! k = None ->
     get_or field_map k (PyInt 0) = PyInt 0 /\
     fc_calculated c (<[k := PyInt 0]> field_map) = fc_calculated c field_map /\
     fc_check c (<[k := PyInt 0]> field_map) = fc_check c field_map) /\
  (get field_map (fc_reported c) = PyNone ->
     fc_check c field_map = (do calculated <- fc_calculated c field_map; Ok []) /\
     (forall o, fc_check c field_map = Ok o -> o = []) /\
     ((forall k, k ∈ fc_inputs c -> field_map !! k = None) ->
      fc_check c field_map = Ok [])) /\
  (get field_map "CR1_500_010" = PyNone ->
     cr1_minimum_cet1 field_map = Ok []) /\
  (forall k, k ∈ ["CR2_010_010"; "CR2_020_010"] -> field_map !! k = None ->
     cr2_credit_risk_required (<[k := PyInt 0]> field_map) =
     cr2_credit_risk_required field_map) /\
  (forall (fields : list TemplateField) k,
     (forall f, f ∈ fields -> tf_field_id f = k -> tf_value f = PyNone) ->
     value_map_of fields !! k = None /\
     get_or (value_map_of fields) k (PyInt 0) = PyInt 0 /\
     get (value_map_of fields) k = PyNone).
Proof.
  intros Hc. split; [|split; [|split; [|split]]].
  - intros k Hk Hnone.
    split; [unfold get_or; by rewrite Hnone|].
    assert (Hcalc : fc_calculated c (<[k := PyInt 0]> field_map)
                    = fc_calculated c field_map).
    { in_list Hc; simpl;
        unfold calculated_cet1, calculated_tier1, calculated_own_funds,
          calculated_rwa;
        by rewrite !get_or_insert_default. }
    split; [exact Hcalc|].
    in_list Hc; simpl in *;
      unfold cr1_cet1_calculation, cr1_tier1_calculation,
        cr1_own_funds_calculation, cr2_rwa_calculation;
      rewrite Hcalc; in_list Hk; by rewrite get_insert_ne.
  - intros Hrep.
    assert (Hskip : fc_check c field_map
                    = (do calculated <- fc_calculated c field_map; Ok [])).
    { in_list Hc; simpl in *;
        unfold cr1_cet1_calculation, cr1_tier1_calculation,
          cr1_own_funds_calculation, cr2_rwa_calculation;
        by rewrite Hrep. }
    split; [exact Hskip|]. split.
    + intros o. rewrite Hskip. intros H.
      apply bind_Ok in H as (calc & _ & H). by injection H as <-.
    + intros Hnone. rewrite Hskip.
      assert (Hget : forall k, k ∈ fc_inputs c ->
                               get_or field_map k (PyInt 0) = PyInt 0).
      { intros k Hk. unfold get_or. by rewrite (Hnone k Hk). }
      in_list Hc; simpl in *;
        unfold calculated_cet1, calculated_tier1, calculated_own_funds,
          calculated_rwa;
        rewrite !Hget by (solve [repeat constructor]); reflexivity.
  - intros Hrep. unfold cr1_minimum_cet1. by rewrite Hrep.
  - intros k Hk Hnone. unfold cr2_credit_risk_required.
    by rewrite !get_or_insert_default.
  - intros fields k Hk.
    apply value_map_of_lookup_None in Hk.
    unfold get, get_or. by rewrite Hk.
Qed.

(** ** The CET1 cross-check *)

Lemma py_eq_int_not_gt (v : pyvalue) (z : Z) :
  py_eq_int v z = true -> py_gt_int v z = Ok false.
Proof.
  unfold py_eq_int, py_gt_int. destruct (as_num v) as [a|]; [|discriminate].
  by destruct (num_compare_Z a z) as [[]|].
Qed.

(** The comparison on integers is the exact one. *)
Lemma report_mismatch_int (calculated reported : Z) fid what how rule_id :
  report_mismatch (PyInt calculated) (PyInt reported) fid what how rule_id =
  if Z.abs (calculated - reported) >? 1 then
    do shown <- format_2f (PyInt calculated);
    Ok [mk_issue "error" fid
          [Lit what; Lit " ("; Fmt (PyInt reported); Lit ") does not match ";
           Lit how; Lit " ("; shown; Lit ")"]
          rule_id]
  else Ok [].
Proof.
  unfold report_mismatch. simpl. unfold Z.gtb.
  by destruct (Z.abs (calculated - reported) ?= 1).
Qed.

Lemma calculated_cet1_int (field_map : gmap string pyvalue)
    (c1 c2 c3 c4 c5 adjustments : Z) :
  get_or field_map "CR1_010_010" (PyInt 0) = PyInt c1 ->
  get_or field_map "CR1_020_010" (PyInt 0) = PyInt c2 ->
  get_or field_map "CR1_030_010" (PyInt 0) = PyInt c3 ->
  get_or field_map "CR1_040_010" (PyInt 0) = PyInt c4 ->
  get_or field_map "CR1_050_010" (PyInt 0) = PyInt c5 ->
  get_or field_map "CR1_100_010" (PyInt 0) = PyInt adjustments ->
  calculated_cet1 field_map = Ok (PyInt (c1 + c2 + c3 + c4 + c5 + adjustments)).
Proof.
  intros H1 H2 H3 H4 H5 H6. unfold calculated_cet1.
  rewrite H1, H2, H3, H4, H5, H6. reflexivity.
Qed.

(** * The properties on worked inputs *)

(** A required field and an optional field both supplied with the value
    [None] and a confidence of 0.1: the only finding is the
    [required_field] error of the required one, and no finding has the
    rule [confidence_threshold]. *)
Lemma C2_null_value_gets_no_warning :
  field_X ∈ schema_field_defs schema_X /\
  field_map_of [null_X; null_Y] !! "X" = Some null_X /\
  field_map_of [null_X; null_Y] !! "Y" = Some null_Y /\
  SFltb (tf_confidence_score null_X) F64.lit_0_5 = true /\
  SFltb (tf_confidence_score null_Y) F64.lit_0_5 = true /\
  validate_fields no_string_parses [null_X; null_Y] "other" schema_X =
    Ok [required_issue field_X] /\
  rule (required_issue field_X) <> "confidence_threshold".
Proof.
  split; [vm_compute; by left|].
  do 5 (split; [by vm_compute|]). discriminate.
Defined.

Lemma negative_X_run :
  validate_fields no_string_parses [negative_X] "other" schema_X =
    Ok negative_X_issues.
Proof. by vm_compute. Qed.

Lemma C2_negative_X_warned :
  confidence_issue field_X negative_X ∈ negative_X_issues.
Proof.
  assert (Hin : field_X ∈ schema_field_defs schema_X) by (vm_compute; by left).
  destruct (C2_low_confidence_warning no_string_parses [negative_X] "other"
              schema_X field_X negative_X Hin eq_refl eq_refl)
    as (_ & _ & _ & Hpop & _).
  destruct (Hpop eq_refl) as (Hall & _). exact (Hall _ negative_X_run).
Defined.

(** Scenario B: nothing is supplied. *)
Lemma C3_scenario_B :
  validate_field_def no_string_parses (field_map_of []) field_X =
    Ok [required_issue field_X] /\
  validate_fields no_string_parses [] "other" schema_X =
    Ok [required_issue field_X] /\
  filter (fun i => field_id i = Some "X") [required_issue field_X] =
    [required_issue field_X].
Proof.
  assert (Hlack : (forall f : TemplateField,
                      f ∈ [] -> tf_field_id f <> fd_field_id field_X) \/
                  (exists f, field_map_of [] !! fd_field_id field_X = Some f /\
                             tf_value f = PyNone)).
  { left. intros f Hf. by apply elem_of_nil in Hf. }
  pose proof (C3_required_field_check no_string_parses [] field_X Hlack) as H.
  cbv zeta in H. destruct H as (_ & _ & _ & Hfd & _ & Hall).
  assert (Hrun : validate_fields no_string_parses [] "other" schema_X =
                 Ok [required_issue field_X]) by (by vm_compute).
  split; [exact Hfd|]. split; [exact Hrun|].
  apply (Hall "other" schema_X [required_issue field_X]);
    [| vm_compute; by left | | exact Hrun].
  - apply NoDup_cons. split; [|apply NoDup_singleton].
    intros Hin. apply list_elem_of_singleton in Hin. discriminate.
  - intros Hin. unfold cross_field_ids in Hin.
    repeat (apply elem_of_cons in Hin as [Hin|Hin]; [discriminate|]).
    by apply elem_of_nil in Hin.
Defined.

Lemma C5_list_fails_both :
  _validate_positive no_string_parses (PyList []) = Ok false /\
  _validate_negative_or_zero no_string_parses (PyList []) = Ok false.
Proof.
  destruct (C5_rule_predicates no_string_parses)
    as (_ & _ & _ & _ & _ & _ & _ & Hrejected).
  apply Hrejected; [discriminate | by right].
Defined.

Lemma C6_score_0_49_warned :
  exists issues,
    validate_field_def no_string_parses (field_map_of [confident_0_49]) field_X
      = Ok issues /\
    confidence_issue field_X confident_0_49 ∈ issues.
Proof.
  destruct (C6_confidence_boundary no_string_parses
              (field_map_of [confident_0_49]) field_X confident_0_49
              eq_refl eq_refl) as [Hall Htotal].
  destruct Htotal as [issues Hrun]; [discriminate|].
  exists issues. split; [exact Hrun|].
  destruct (Hall issues Hrun) as (_ & _ & _ & H49). by apply H49.
Defined.

Lemma C7_nothing_supplied :
  cr1_cet1_calculation ∅ = Ok [] /\ cr2_rwa_calculation ∅ = Ok [].
Proof.
  split.
  - destruct (C7_defaults_and_silent_skip
                {| fc_check := cr1_cet1_calculation;
                   fc_calculated := calculated_cet1;
                   fc_inputs := ["CR1_010_010"; "CR1_020_010"; "CR1_030_010";
                                 "CR1_040_010"; "CR1_050_010"; "CR1_100_010"];
                   fc_reported := "CR1_500_010" |} ∅)
      as (_ & Hskip & _); [by left|].
    destruct (Hskip eq_refl) as (_ & _ & Hnone). apply Hnone.
    intros k _. apply lookup_empty.
  - destruct (C7_defaults_and_silent_skip
                {| fc_check := cr2_rwa_calculation;
                   fc_calculated := calculated_rwa;
                   fc_inputs := ["CR2_010_010"; "CR2_020_010"; "CR2_050_010";
                                 "CR2_060_010"];
                   fc_reported := "CR2_100_010" |} ∅)
      as (_ & Hskip & _); [do 3 right; by left|].
    destruct (Hskip eq_refl) as (_ & _ & Hnone). apply Hnone.
    intros k _. apply lookup_empty.
Defined.

Lemma C8_unknown_type_no_findings :
  get_template_schema "unknown" = empty_schema /\
  validate_fields no_string_parses (scenario_C (PyInt 135)) "unknown"
    (get_template_schema "unknown") = Ok [].
Proof.
  destruct (C8_unknown_template_type no_string_parses "unknown")
    as (_ & Hschema & _ & Hvalidate); [discriminate | discriminate |].
  split; [exact Hschema | apply Hvalidate].
Defined.


Lemma C10_negative_X_findings :
  Forall (fun i => (severity i = "error" \/ severity i = "warning") /\
                   is_Some (field_id i)) negative_X_issues /\
  Forall (fun i => severity i <> "info") negative_X_issues /\
  info (generate_validation_summary negative_X_issues) = 0.
Proof.
  exact (C10_findings_are_errors_or_warnings no_string_parses [negative_X]
           "other" schema_X negative_X_issues negative_X_run).
Defined.


(** * Further properties *)

(** ** The numeric predicates *)

(** The sign of a float, read off its exact comparison with 0. *)
Lemma compare_Z_0 (f : spec_float) :
  F64.compare_Z f 0 =
  match f with
  | S754_nan => None
  | S754_zero _ => Some Eq
  | S754_infinity s | S754_finite s _ _ => Some (if s then Lt else Gt)
  end.
Proof.
  destruct f as [s | s | | s m e]; try reflexivity.
  unfold F64.compare_Z. f_equal. destruct (0 <=? e) eqn:He.
  - apply Z.leb_le in He.
    assert (0 < 2 ^ e) by (by apply Z.pow_pos_nonneg).
    destruct s; simpl.
    + apply Z.compare_lt_iff. nia.
    + apply Z.compare_gt_iff. nia.
  - destruct s; reflexivity.
Qed.

(** X1. On a float, [must_be_positive] holds for the positive numbers and
    plus infinity, [must_be_negative_or_zero] for both zeros, the negative
    numbers and minus infinity; a NaN fails both. *)
Theorem X1_predicates_on_floats (float_of_str : string -> option spec_float)
    (f : spec_float) :
  _validate_positive float_of_str (PyFloat f) =
    Ok match f with
       | S754_finite false _ _ | S754_infinity false => true
       | _ => false
       end /\
  _validate_negative_or_zero float_of_str (PyFloat f) =
    Ok match f with
       | S754_zero _ | S754_finite true _ _ | S754_infinity true => true
       | _ => false
       end.
Proof.
  unfold _validate_positive, _validate_negative_or_zero, try_float. simpl.
  rewrite compare_Z_0. by destruct f as [[] | [] | | [] m e].
Qed.

(** X2. The two predicates never both hold of a value other than [None]; they
    raise together; and on a value that [float()] converts to a float
    other than NaN exactly one of them holds. *)
Theorem X2_predicates_exclusive (float_of_str : string -> option spec_float)
    (v : pyvalue) :
  v <> PyNone ->
  (forall e,
      _validate_positive float_of_str v = Raise e <->
      _validate_negative_or_zero float_of_str v = Raise e) /\
  (forall positive non_positive,
      _validate_positive float_of_str v = Ok positive ->
      _validate_negative_or_zero float_of_str v = Ok non_positive ->
      positive && non_positive = false /\
      (forall f, py_float float_of_str v = Ok f -> f <> S754_nan ->
                 positive = negb non_positive)).
Proof.
  intros Hv.
  assert (Hn : is_none v = false) by (by destruct v).
  unfold _validate_positive, _validate_negative_or_zero, try_float.
  rewrite Hn. destruct (py_float float_of_str v) as [f|[]] eqn:Hf.
  - rewrite compare_Z_0. split.
    + intros e. split; discriminate.
    + intros p n [= <-] [= <-]. split.
      * by destruct f as [[] | [] | | [] m e].
      * intros g [= <-] Hnan. by destruct f as [[] | [] | | [] m e].
  - split; [intros e; split; discriminate|].
    intros p n [= <-] [= <-]. split; [done|]. discriminate.
  - split; [intros e; split; discriminate|].
    intros p n [= <-] [= <-]. split; [done|]. discriminate.
  - split; [done|]. discriminate.
Qed.


(** ** The per-field pass *)

Lemma for_each_ext {A B} (body body' : A -> result (list B)) (l : list A) :
  (forall x, x ∈ l -> body x = body' x) -> for_each body l = for_each body' l.
Proof.
  induction l as [|x l IH]; intros H; [reflexivity|]. simpl.
  rewrite (H x) by left. rewrite IH; [reflexivity|].
  intros y Hy. apply H. by right.
Qed.

(** What a loop that ran to its end appended, filtered: the filtered
    findings of every iteration, in order. *)
Lemma for_each_filter {A B} (P : B -> Prop) `{!forall i, Decision (P i)}
    (body : A -> result (list B)) (g : A -> list B) (l : list A) out :
  (forall x o, x ∈ l -> body x = Ok o -> filter P o = g x) ->
  for_each body l = Ok out -> filter P out = flat_map g l.
Proof.
  revert out. induction l as [|x l IH]; simpl; intros out Hg Hrun.
  - by injection Hrun as <-.
  - apply bind_Ok in Hrun as (o & Hx & Hrun).
    apply bind_Ok in Hrun as (more & Hl & Hrun). injection Hrun as <-.
    rewrite filter_app. f_equal.
    + apply Hg; [left | done].
    + apply IH; [|done]. intros y oy Hy. apply Hg. by right.
Qed.

Lemma for_each_Forall_iff {A B} (P : B -> Prop) (Q : A -> Prop)
    (body : A -> result (list B)) (l : list A) out :
  (forall x o, x ∈ l -> body x = Ok o -> (Forall P o <-> Q x)) ->
  for_each body l = Ok out -> (Forall P out <-> forall x, x ∈ l -> Q x).
Proof.
  revert out. induction l as [|x l IH]; simpl; intros out HPQ H.
  - injection H as <-. split; [intros _ x Hx; by apply elem_of_nil in Hx|].
    constructor.
  - apply bind_Ok in H as (o & Hx & H).
    apply bind_Ok in H as (more & Hl & H). injection H as <-.
    rewrite Forall_app, (HPQ x o) by (done || left).
    rewrite (IH more) by (done || (intros y oy Hy; apply HPQ; by right)).
    split.
    + intros [Hq Hall] y Hy. apply elem_of_cons in Hy as [->|Hy]; auto.
    + intros Hall. split; [apply Hall; left|].
      intros y Hy. apply Hall. by right.
Qed.

Lemma for_each_nil_iff {A B} (body : A -> result (list B)) (l : list A) out :
  for_each body l = Ok out ->
  (out = [] <-> forall x, x ∈ l -> body x = Ok []).
Proof.
  revert out. induction l as [|x l IH]; simpl; intros out H.
  - injection H as <-. split; [intros _ x Hx; by apply elem_of_nil in Hx|done].
  - apply bind_Ok in H as (o & Hx & H).
    apply bind_Ok in H as (more & Hl & H). injection H as <-.
    split.
    + intros Hnil. apply app_eq_nil in Hnil as [-> ->].
      intros y Hy. apply elem_of_cons in Hy as [->|Hy]; [done|].
      by apply (IH []).
    + intros Hall. rewrite (Hall x) in Hx by left. injection Hx as <-.
      simpl. apply (IH more); [done|]. intros y Hy. apply Hall. by right.
Qed.

Lemma for_each_raise {A B} (body : A -> result (list B)) (l : list A) e :
  for_each body l = Raise e -> exists x, x ∈ l /\ body x = Raise e.
Proof.
  induction l as [|x l IH]; simpl; [discriminate|].
  destruct (body x) as [o|e'] eqn:Hx; simpl.
  - destruct (for_each body l) as [more|e'']; simpl; [discriminate|].
    intros [= ->]. destruct IH as (y & Hy & Hby); [done|].
    exists y. split; [by right | done].
  - intros [= ->]. exists x. split; [left | done].
Qed.

Section PerField.
Variable float_of_str : string -> option spec_float.

(** On a populated field the registry rule [required_field] passes. *)
Lemma apply_rule_required_field fd f :
  is_none (tf_value f) = false ->
  apply_rule float_of_str fd f "required_field" = Ok [].
Proof.
  intros Hv. unfold apply_rule. rewrite validation_rules_lookup. simpl.
  unfold _validate_required. by rewrite Hv.
Qed.

Lemma rule_loop_without_required fd f (rules : list string) :
  is_none (tf_value f) = false ->
  for_each (apply_rule float_of_str fd f) rules =
  for_each (apply_rule float_of_str fd f)
    (filter (fun r => r <> "required_field") rules).
Proof.
  intros Hv. induction rules as [|r rules IH]; [reflexivity|].
  rewrite filter_cons. destruct (decide (r <> "required_field")) as [Hr|Hr].
  - simpl. by rewrite IH.
  - apply dec_stable in Hr. subst r. simpl.
    rewrite apply_rule_required_field by done. simpl.
    rewrite <- IH. apply bind_ret.
Qed.

(** The exceptions of the per-field checks: only the [OverflowError] of
    [float()] on an integer beyond the binary64 range. *)
Lemma try_float_raise v test e :
  try_float float_of_str v test = Raise e ->
  e = OverflowError /\ py_float float_of_str v = Raise OverflowError.
Proof.
  unfold try_float. destruct (py_float float_of_str v) as [f|[]];
    try discriminate. by intros [= <-].
Qed.

Lemma apply_rule_raise fd f r e :
  apply_rule float_of_str fd f r = Raise e ->
  e = OverflowError /\ py_float float_of_str (tf_value f) = Raise OverflowError.
Proof.
  unfold apply_rule. rewrite validation_rules_lookup.
  repeat case_decide; try discriminate.
  - unfold _validate_positive. destruct (is_none (tf_value f)); simpl.
    + discriminate.
    + destruct (try_float _ _ _) as [b|e'] eqn:Ht; simpl.
      * destruct b; discriminate.
      * intros [= ->]. by apply try_float_raise in Ht.
  - unfold _validate_negative_or_zero. destruct (is_none (tf_value f)); simpl.
    + discriminate.
    + destruct (try_float _ _ _) as [b|e'] eqn:Ht; simpl.
      * destruct b; discriminate.
      * intros [= ->]. by apply try_float_raise in Ht.
  - unfold _validate_required. simpl.
    destruct (negb (negb (is_none (tf_value f)))); discriminate.
Qed.

Lemma validate_field_def_raise fm fd e :
  validate_field_def float_of_str fm fd = Raise e ->
  e = OverflowError /\
  exists f, fm !! fd_field_id fd = Some f /\
            py_float float_of_str (tf_value f) = Raise OverflowError.
Proof.
  destruct (not_populated (fm !! fd_field_id fd)) eqn:Hn.
  - by rewrite validate_field_def_not_populated.
  - destruct (fm !! fd_field_id fd) as [f|] eqn:Hf; [|discriminate].
    simpl in Hn. rewrite (validate_field_def_populated _ fm fd f Hf Hn).
    rewrite validate_populated_Some by done.
    destruct (for_each _ _) as [o|e'] eqn:Hloop; simpl; [discriminate|].
    intros [= ->]. apply for_each_raise in Hloop as (r & _ & Hr).
    apply apply_rule_raise in Hr as [-> Hr]. split; [done|]. by exists f.
Qed.
End PerField.


Lemma flat_map_if {A B} (b : A -> bool) (h : A -> B) (l : list A) :
  flat_map (fun x => if b x then [h x] else []) l =
  h <$> filter (fun x => b x = true) l.
Proof.
  induction l as [|x l IH]; [reflexivity|]. simpl. rewrite filter_cons, IH.
  destruct (b x); [by rewrite decide_True | by rewrite decide_False].
Qed.

Lemma required_findings_of_field float_of_str fm fd o :
  validate_field_def float_of_str fm fd = Ok o ->
  filter (fun i => rule i = "required_field") o =
  if missing_required fm fd then [required_issue fd] else [].
Proof.
  unfold missing_required.
  destruct (not_populated (fm !! fd_field_id fd)) eqn:Hn.
  - rewrite validate_field_def_not_populated by done. intros [= <-].
    rewrite andb_true_r. by destruct (default false (fd_required fd)).
  - rewrite andb_false_r.
    destruct (fm !! fd_field_id fd) as [f|] eqn:Hf; [|discriminate].
    simpl in Hn. rewrite (validate_field_def_populated _ fm fd f Hf Hn).
    rewrite validate_populated_Some by done. intros H.
    apply bind_Ok in H as (ri & Hri & H). injection H as <-.
    rewrite filter_app. rewrite (filter_Forall_none _ ri).
    + by destruct (SFltb _ _).
    + eapply for_each_Forall; [|exact Hri]. intros r out _ Hr. simpl.
      destruct (decide (r = "required_field")) as [->|Hne].
      * rewrite apply_rule_required_field in Hr by done.
        injection Hr as <-. constructor.
      * apply apply_rule_shape in Hr. eapply Forall_impl; [exact Hr|].
        simpl. intros i (_ & _ & Hrule & _). congruence.
Qed.

(** X3. The [required_field] errors of the per-field pass are those of the
    required definitions of the schema whose field is not populated, one
    each, in the order of the schema. *)
Theorem X3_required_field_findings (float_of_str : string -> option spec_float)
    (fields : list TemplateField) (schema : template_schema)
    (issues : list ValidationIssue) :
  validate_schema_fields float_of_str fields schema = Ok issues ->
  filter (fun i => rule i = "required_field") issues =
  required_issue <$>
    filter (fun fd => missing_required (field_map_of fields) fd = true)
      (schema_field_defs schema).
Proof.
  rewrite validate_schema_fields_flat. intros Hrun.
  rewrite <- flat_map_if.
  eapply for_each_filter; [|exact Hrun].
  intros fd o _ Ho. by apply required_findings_of_field in Ho.
Qed.

(** X4. Listing the registry rule [required_field] among the rules of a field
    definition changes nothing: the rule loop only runs on populated
    fields, where that rule passes. *)
Theorem X4_required_field_rule_is_inert
    (float_of_str : string -> option spec_float)
    (fm : gmap string TemplateField) (fd : field_def) (rules : list string) :
  fd_validation_rules fd = Some rules ->
  validate_field_def float_of_str fm fd =
  validate_field_def float_of_str fm
    (with_rules fd (filter (fun r => r <> "required_field") rules)).
Proof.
  intros Hrules. unfold validate_field_def, validate_populated. simpl.
  destruct (fm !! fd_field_id fd) as [f|]; [|reflexivity].
  rewrite Hrules. simpl.
  change (apply_rule float_of_str (with_rules fd _) f)
    with (apply_rule float_of_str fd f).
  destruct (is_none (tf_value f)) eqn:Hv; [reflexivity|].
  by rewrite <- rule_loop_without_required.
Qed.

Lemma error_free_field float_of_str fm fd o :
  validate_field_def float_of_str fm fd = Ok o ->
  Forall (fun i => severity i <> "error") o <-> field_in_order float_of_str fm fd.
Proof.
  unfold field_in_order, missing_required.
  destruct (not_populated (fm !! fd_field_id fd)) eqn:Hn.
  - rewrite validate_field_def_not_populated by done. intros [= <-].
    rewrite andb_true_r. destruct (default false (fd_required fd)).
    + split.
      * intros H. inversion H as [|? ? Hsev]. by contradict Hsev.
      * intros [? _]. discriminate.
    + split; [|constructor]. intros _. split; [done|].
      intros f Hf Hv. rewrite Hf in Hn. simpl in Hn. congruence.
  - rewrite andb_false_r.
    destruct (fm !! fd_field_id fd) as [f|] eqn:Hf; [|discriminate].
    simpl in Hn. rewrite (validate_field_def_populated _ fm fd f Hf Hn).
    rewrite validate_populated_Some by done. intros H.
    apply bind_Ok in H as (ri & Hri & H). injection H as <-.
    pose proof (for_each_nil_iff _ _ _ Hri) as Hnil.
    pose proof (rule_issues_shape _ _ _ _ _ Hri) as Hshape.
    assert (Hri_iff : Forall (fun i => severity i <> "error") ri <-> ri = []).
    { split; [|intros ->; constructor]. intros Hall.
      destruct ri as [|i ri]; [done|].
      inversion Hall as [|? ? Hi]. inversion Hshape as [|? ? (Hs & _)].
      contradiction. }
    rewrite Forall_app, Hri_iff, Hnil. split.
    + intros [Hall _]. split; [done|]. intros g [= <-] _. exact Hall.
    + intros [_ Hall]. split; [by apply Hall|].
      destruct (SFltb _ _); repeat constructor. discriminate.
Qed.

Lemma validate_schema_fields_error_free float_of_str fields schema issues :
  validate_schema_fields float_of_str fields schema = Ok issues ->
  Forall (fun i => severity i <> "error") issues <->
  forall fd, fd ∈ schema_field_defs schema ->
             field_in_order float_of_str (field_map_of fields) fd.
Proof.
  rewrite validate_schema_fields_flat.
  apply for_each_Forall_iff. intros fd o _. apply error_free_field.
Qed.

(** X5. The per-field pass reports no error exactly when every field
    definition of the schema is in order: populated if required, and
    passing every rule of its list if populated. *)
Theorem X5_error_free_per_field_pass
    (float_of_str : string -> option spec_float)
    (fields : list TemplateField) (schema : template_schema)
    (issues : list ValidationIssue) :
  validate_schema_fields float_of_str fields schema = Ok issues ->
  Forall (fun i => severity i <> "error") issues <->
  forall fd, fd ∈ schema_field_defs schema ->
             field_in_order float_of_str (field_map_of fields) fd.
Proof. apply validate_schema_fields_error_free. Qed.

Lemma validate_schema_fields_raise float_of_str fields schema e :
  validate_schema_fields float_of_str fields schema = Raise e ->
  e = OverflowError /\
  exists f, f ∈ fields /\
            py_float float_of_str (tf_value f) = Raise OverflowError.
Proof.
  rewrite validate_schema_fields_flat. intros H.
  apply for_each_raise in H as (fd & _ & Hfd).
  apply validate_field_def_raise in Hfd as (-> & f & Hf & Hover).
  split; [done|]. exists f. split; [|done].
  by apply field_map_of_lookup_Some in Hf as [Hin _].
Qed.

Lemma validate_schema_fields_returns float_of_str fields schema :
  (forall f, f ∈ fields ->
             py_float float_of_str (tf_value f) <> Raise OverflowError) ->
  exists issues, validate_schema_fields float_of_str fields schema = Ok issues.
Proof.
  intros Hfields.
  destruct (validate_schema_fields float_of_str fields schema) as [o|e] eqn:Hrun;
    [eauto|].
  apply validate_schema_fields_raise in Hrun as (_ & f & Hin & Hover).
  by destruct (Hfields f Hin).
Qed.

(** X6. The per-field pass raises nothing but the [OverflowError] of an
    integer value beyond the binary64 range on which a numeric rule runs;
    when [float()] overflows on no supplied value, it returns its list of
    findings. *)
Theorem X6_per_field_pass_returns (float_of_str : string -> option spec_float)
    (fields : list TemplateField) (schema : template_schema) :
  (forall e,
      validate_schema_fields float_of_str fields schema = Raise e ->
      e = OverflowError /\
      exists f, f ∈ fields /\
                py_float float_of_str (tf_value f) = Raise OverflowError) /\
  ((forall f, f ∈ fields ->
              py_float float_of_str (tf_value f) <> Raise OverflowError) ->
   exists issues, validate_schema_fields float_of_str fields schema = Ok issues).
Proof.
  split; [intros e; apply validate_schema_fields_raise|].
  apply validate_schema_fields_returns.
Qed.


(** ** The arithmetic of the cross-field rules *)




Lemma of_int_raise z e : F64.of_int z = Raise e -> e = OverflowError.
Proof.
  unfold F64.of_int. destruct (F64.is_infinity _); [|discriminate].
  by intros [= <-].
Qed.

Lemma num_binop_raise zop fop a b e :
  num_binop zop fop a b = Raise e -> e = OverflowError.
Proof.
  destruct a as [x|f], b as [y|g]; simpl; try discriminate.
  - destruct (F64.of_int x) as [fx|e1] eqn:Hx; simpl; [discriminate|].
    intros [= <-]. by apply of_int_raise in Hx.
  - destruct (F64.of_int y) as [fy|e2] eqn:Hy; simpl; [discriminate|].
    intros [= <-]. by apply of_int_raise in Hy.
Qed.

Lemma num_binop_number zop fop a b r :
  num_binop zop fop a b = Ok r -> is_number r = true.
Proof.
  destruct a as [x|f], b as [y|g]; simpl.
  - by intros [= <-].
  - intros H. apply bind_Ok in H as (fx & _ & H). by injection H as <-.
  - intros H. apply bind_Ok in H as (fy & _ & H). by injection H as <-.
  - by intros [= <-].
Qed.

Lemma py_add_raise v w e : py_add v w = Raise e -> cross_field_exn e.
Proof.
  unfold py_add. destruct (as_num v) as [a|] eqn:Hv.
  - destruct (as_num w) as [b|] eqn:Hw.
    + intros H. right. by apply num_binop_raise in H.
    + destruct v; try discriminate; destruct w; try discriminate;
        intros [= <-]; by left.
  - destruct v; try discriminate; destruct w; try discriminate;
      intros [= <-]; by left.
Qed.

Lemma py_sub_raise v w e : py_sub v w = Raise e -> cross_field_exn e.
Proof.
  unfold py_sub. destruct (as_num v) as [a|]; [destruct (as_num w) as [b|]|].
  - intros H. right. by apply num_binop_raise in H.
  - intros [= <-]. by left.
  - intros [= <-]. by left.
Qed.

Lemma py_mul_float_raise v c e :
  py_mul_float v c = Raise e -> cross_field_exn e.
Proof.
  unfold py_mul_float. destruct (as_num v) as [a|].
  - intros H. right. by apply num_binop_raise in H.
  - intros [= <-]. by left.
Qed.

(** Adding to a number gives a result only for a number, and the result
    is a number. *)
Lemma py_add_number_l v w r :
  is_number v = true -> py_add v w = Ok r ->
  is_number w = true /\ is_number r = true.
Proof.
  unfold is_number, py_add. destruct (as_num v) as [a|] eqn:Hv; [|discriminate].
  intros _. destruct (as_num w) as [b|] eqn:Hw.
  - intros H. split; [done|]. by apply num_binop_number in H.
  - destruct v; try discriminate; destruct w; discriminate.
Qed.

Lemma py_add_number_r v w r :
  is_number w = true -> py_add v w = Ok r ->
  is_number v = true /\ is_number r = true.
Proof.
  unfold is_number, py_add. destruct (as_num w) as [b|] eqn:Hw; [|discriminate].
  intros _. destruct (as_num v) as [a|] eqn:Hv.
  - intros H. split; [done|]. by apply num_binop_number in H.
  - destruct v; try discriminate; destruct w; discriminate.
Qed.

(** A sum that is a number is a sum of numbers. *)
Lemma py_add_number v w r :
  py_add v w = Ok r -> is_number r = true ->
  is_number v = true /\ is_number w = true.
Proof.
  unfold is_number, py_add.
  destruct (as_num v) as [a|] eqn:Hv; [destruct (as_num w) as [b|] eqn:Hw|].
  - done.
  - destruct v; try discriminate; destruct w; discriminate.
  - destruct v; try discriminate; destruct w; try discriminate;
      by intros [= <-].
Qed.

Lemma py_sub_number v w r :
  py_sub v w = Ok r ->
  is_number v = true /\ is_number w = true /\ is_number r = true.
Proof.
  unfold is_number, py_sub.
  destruct (as_num v) as [a|]; [destruct (as_num w) as [b|]|]; try discriminate.
  intros H. repeat split. by apply num_binop_number in H.
Qed.

Lemma py_mul_float_number v c r :
  py_mul_float v c = Ok r -> is_number v = true /\ exists f, r = PyFloat f.
Proof.
  unfold is_number, py_mul_float. destruct (as_num v) as [a|]; [|discriminate].
  intros H. split; [done|]. destruct a as [x|g]; simpl in H.
  - apply bind_Ok in H as (fx & _ & H). injection H as <-. eauto.
  - injection H as <-. eauto.
Qed.

(** [sum()] of a list: every item is a number, and so is the total. *)
Lemma py_sum_fold_raise (l : list pyvalue) e :
  fold_left (fun acc x => do a <- acc; py_add a x) l (Raise e) = Raise e.
Proof. induction l as [|x l IH]; [reflexivity | exact IH]. Qed.

Lemma py_sum_fold_number (l : list pyvalue) a r :
  is_number a = true ->
  fold_left (fun acc x => do a <- acc; py_add a x) l (Ok a) = Ok r ->
  Forall (fun x => is_number x = true) l /\ is_number r = true.
Proof.
  revert a. induction l as [|x l IH]; simpl; intros a Ha H.
  - injection H as <-. split; [constructor | done].
  - destruct (py_add a x) as [s|e] eqn:Hadd.
    + destruct (py_add_number_l _ _ _ Ha Hadd) as [Hx Hs].
      destruct (IH s Hs H) as [Hl Hr]. split; [by constructor | done].
    + by rewrite py_sum_fold_raise in H.
Qed.

Lemma py_sum_fold_exn (l : list pyvalue) a e :
  fold_left (fun acc x => do a <- acc; py_add a x) l (Ok a) = Raise e ->
  cross_field_exn e.
Proof.
  revert a. induction l as [|x l IH]; simpl; intros a H; [discriminate|].
  destruct (py_add a x) as [s|e'] eqn:Hadd.
  - by apply (IH s).
  - rewrite py_sum_fold_raise in H. injection H as <-.
    by apply py_add_raise in Hadd.
Qed.

Lemma py_sum_number l r :
  py_sum l = Ok r -> Forall (fun x => is_number x = true) l /\ is_number r = true.
Proof. by apply py_sum_fold_number. Qed.

Lemma py_sum_raise l e : py_sum l = Raise e -> cross_field_exn e.
Proof. apply py_sum_fold_exn. Qed.

(** The comparison with the reported total: it raises only a
    [TypeError] or an [OverflowError], and returns only on numbers. *)
Lemma report_mismatch_raise calculated reported fid what how rule_id e :
  report_mismatch calculated reported fid what how rule_id = Raise e ->
  cross_field_exn e.
Proof.
  unfold report_mismatch. destruct (negb (is_none reported)); [|discriminate].
  destruct (py_sub calculated reported) as [d|e1] eqn:Hd; simpl;
    [|intros [= <-]; by apply py_sub_raise in Hd].
  apply py_sub_number in Hd as (Hc & _ & Hdn).
  unfold py_abs, py_gt_int. unfold is_number in Hdn.
  destruct (as_num d) as [[x|f]|]; try discriminate; simpl.
  - destruct (Z.abs x ?= 1); try discriminate.
    unfold is_number in Hc. destruct calculated; try discriminate; simpl.
    + destruct (F64.of_int _) as [g|e2] eqn:Hg; simpl; [discriminate|].
      intros [= <-]. right. by apply of_int_raise in Hg.
    + destruct (F64.of_int _) as [g|e2] eqn:Hg; simpl; [discriminate|].
      intros [= <-]. right. by apply of_int_raise in Hg.
  - destruct (F64.compare_Z (SFabs f) 1) as [[]|]; try discriminate.
    unfold is_number in Hc. destruct calculated; try discriminate; simpl.
    + destruct (F64.of_int _) as [g|e2] eqn:Hg; simpl; [discriminate|].
      intros [= <-]. right. by apply of_int_raise in Hg.
    + destruct (F64.of_int _) as [g|e2] eqn:Hg; simpl; [discriminate|].
      intros [= <-]. right. by apply of_int_raise in Hg.
Qed.

Lemma report_mismatch_number calculated reported fid what how rule_id o :
  report_mismatch calculated reported fid what how rule_id = Ok o ->
  is_none reported = true \/
  (is_number calculated = true /\ is_number reported = true).
Proof.
  unfold report_mismatch. destruct (is_none reported); simpl; [by left|].
  intros H. apply bind_Ok in H as (d & Hd & _).
  apply py_sub_number in Hd as (Hc & Hr & _). by right.
Qed.


(** ** The rules of each template *)

Lemma get_or_lookup (field_map : gmap string pyvalue) k v d :
  field_map !! k = Some v -> get_or field_map k d = v.
Proof. intros H. unfold get_or. by rewrite H. Qed.

Lemma get_lookup (field_map : gmap string pyvalue) k v :
  field_map !! k = Some v -> get field_map k = v.
Proof. apply get_or_lookup. Qed.

Lemma number_at_get_or (field_map : gmap string pyvalue) k :
  is_number (get_or field_map k (PyInt 0)) = true -> number_at field_map k.
Proof. intros H v Hv _. by rewrite (get_or_lookup _ _ _ _ Hv) in H. Qed.

Lemma number_at_get (field_map : gmap string pyvalue) k c :
  is_none (get field_map k) = true \/
  (is_number c = true /\ is_number (get field_map k) = true) ->
  number_at field_map k.
Proof.
  intros H v Hv Hn. rewrite (get_lookup _ _ _ Hv) in H.
  destruct H as [H|[_ H]]; congruence.
Qed.

(** A value read with the default 0 and then added to something is a
    number, once a value supplied under that id is known to be one. *)
Lemma get_or_addend_l (field_map : gmap string pyvalue) k w r :
  number_at field_map k ->
  py_add (get_or field_map k (PyInt 0)) w = Ok r ->
  is_number (get_or field_map k (PyInt 0)) = true.
Proof.
  intros Hk. unfold get_or. destruct (field_map !! k) as [v|] eqn:Hv; [|done].
  simpl. destruct (is_none v) eqn:Hn; [|intros _; by apply Hk].
  destruct v; discriminate.
Qed.

Lemma calculated_cet1_number field_map c :
  calculated_cet1 field_map = Ok c ->
  Forall (number_at field_map)
    ["CR1_010_010"; "CR1_020_010"; "CR1_030_010"; "CR1_040_010";
     "CR1_050_010"; "CR1_100_010"] /\
  is_number c = true.
Proof.
  unfold calculated_cet1. intros H. apply bind_Ok in H as (total & Hsum & Hadd).
  apply py_sum_number in Hsum as [Hall Htotal].
  apply (py_add_number_l _ _ _ Htotal) in Hadd as [Hadj Hc].
  split; [|done].
  repeat (apply Forall_cons_1 in Hall as [? Hall]).
  repeat (constructor; [by apply number_at_get_or|]). constructor.
Qed.

Lemma calculated_cet1_raise field_map e :
  calculated_cet1 field_map = Raise e -> cross_field_exn e.
Proof.
  unfold calculated_cet1. destruct (py_sum _) as [t|e'] eqn:Hsum; simpl.
  - apply py_add_raise.
  - intros [= <-]. by apply py_sum_raise in Hsum.
Qed.

Lemma calculated_rwa_number field_map c :
  calculated_rwa field_map = Ok c ->
  Forall (number_at field_map)
    ["CR2_010_010"; "CR2_020_010"; "CR2_050_010"; "CR2_060_010"] /\
  exists f, c = PyFloat f.
Proof.
  unfold calculated_rwa. intros H.
  apply bind_Ok in H as (credit & Hcredit & H).
  apply bind_Ok in H as (other & Hother & H).
  apply bind_Ok in H as (scaled & Hscaled & Hadd).
  apply py_mul_float_number in Hscaled as [Ho (f & ->)].
  pose proof (py_add_number_r credit (PyFloat f) c eq_refl Hadd) as [Hc Hr].
  apply (py_add_number _ _ _ Hcredit) in Hc as [Hstd Hirb].
  apply (py_add_number _ _ _ Hother) in Ho as [Hm Hop].
  split; [repeat (constructor; [by apply number_at_get_or|]); constructor|].
  unfold py_add in Hadd. unfold is_number in Hr.
  destruct (as_num credit) as [[x|g]|]; simpl in Hadd.
  - apply bind_Ok in Hadd as (fx & _ & Hadd). injection Hadd as <-. eauto.
  - injection Hadd as <-. eauto.
  - destruct credit; discriminate.
Qed.

Lemma calculated_rwa_raise field_map e :
  calculated_rwa field_map = Raise e -> cross_field_exn e.
Proof.
  unfold calculated_rwa.
  destruct (py_add (get_or field_map "CR2_010_010" _) _) as [credit|e1] eqn:H1;
    simpl; [|intros [= <-]; by apply py_add_raise in H1].
  destruct (py_add (get_or field_map "CR2_050_010" _) _) as [other|e2] eqn:H2;
    simpl; [|intros [= <-]; by apply py_add_raise in H2].
  destruct (py_mul_float other F64.lit_12_5) as [scaled|e3] eqn:H3;
    simpl; [|intros [= <-]; by apply py_mul_float_raise in H3].
  apply py_add_raise.
Qed.

Lemma _validate_cr1_rules_number field_map out :
  _validate_cr1_rules field_map = Ok out ->
  Forall (number_at field_map) cr1_rule_ids.
Proof.
  unfold _validate_cr1_rules. intros H.
  apply bind_Ok in H as (v2 & H2 & H). apply bind_Ok in H as (v3 & H3 & H).
  apply bind_Ok in H as (v4 & H4 & _).
  unfold cr1_cet1_calculation in H2. apply bind_Ok in H2 as (c & Hc & Hrep).
  apply calculated_cet1_number in Hc as [Hinputs _].
  apply report_mismatch_number in Hrep. apply number_at_get in Hrep as H500.
  unfold cr1_tier1_calculation, calculated_tier1 in H3.
  apply bind_Ok in H3 as (t1 & Ht1 & Hrep1).
  pose proof (get_or_addend_l _ _ _ _ H500 Ht1) as Hcet1.
  apply (py_add_number_l _ _ _ Hcet1) in Ht1 as [Hat1 _].
  apply number_at_get_or in Hat1 as H150.
  apply report_mismatch_number in Hrep1. apply number_at_get in Hrep1 as H600.
  unfold cr1_own_funds_calculation, calculated_own_funds in H4.
  apply bind_Ok in H4 as (funds & Hof & Hrep2).
  pose proof (get_or_addend_l _ _ _ _ H600 Hof) as Htier1.
  apply (py_add_number_l _ _ _ Htier1) in Hof as [Htier2 _].
  apply number_at_get_or in Htier2 as H200.
  apply report_mismatch_number in Hrep2. apply number_at_get in Hrep2 as H700.
  unfold cr1_rule_ids.
  repeat (apply Forall_cons_1 in Hinputs as [? Hinputs]).
  repeat (constructor; [done|]). constructor.
Qed.

Lemma _validate_cr2_rules_number field_map out :
  _validate_cr2_rules field_map = Ok out ->
  Forall (number_at field_map) cr2_rule_ids.
Proof.
  unfold _validate_cr2_rules. intros H. apply bind_Ok in H as (rwa & Hrwa & _).
  unfold cr2_rwa_calculation in Hrwa. apply bind_Ok in Hrwa as (c & Hc & Hrep).
  apply calculated_rwa_number in Hc as [Hinputs _].
  apply report_mismatch_number in Hrep. apply number_at_get in Hrep as H100.
  unfold cr2_rule_ids.
  repeat (apply Forall_cons_1 in Hinputs as [? Hinputs]).
  repeat (constructor; [done|]). constructor.
Qed.

Lemma _validate_cr1_rules_raise field_map e :
  _validate_cr1_rules field_map = Raise e -> cross_field_exn e.
Proof.
  unfold _validate_cr1_rules.
  destruct (cr1_cet1_calculation field_map) as [v2|e2] eqn:H2; simpl.
  - destruct (cr1_tier1_calculation field_map) as [v3|e3] eqn:H3; simpl.
    + destruct (cr1_own_funds_calculation field_map) as [v4|e4] eqn:H4; simpl.
      * unfold cr1_minimum_cet1.
        destruct (negb (is_none (get field_map "CR1_500_010"))); simpl.
        -- unfold py_lt_int. destruct (as_num _); simpl.
           ++ destruct (match num_compare_Z _ _ with Some Lt => true | _ => false end);
                discriminate.
           ++ intros [= <-]. by left.
        -- discriminate.
      * intros [= <-]. unfold cr1_own_funds_calculation, calculated_own_funds in H4.
        destruct (py_add _ _) as [c|e'] eqn:Hc; simpl in H4.
        -- by apply report_mismatch_raise in H4.
        -- injection H4 as <-. by apply py_add_raise in Hc.
    + intros [= <-]. unfold cr1_tier1_calculation, calculated_tier1 in H3.
      destruct (py_add _ _) as [c|e'] eqn:Hc; simpl in H3.
      * by apply report_mismatch_raise in H3.
      * injection H3 as <-. by apply py_add_raise in Hc.
  - intros [= <-]. unfold cr1_cet1_calculation in H2.
    destruct (calculated_cet1 field_map) as [c|e'] eqn:Hc; simpl in H2.
    + by apply report_mismatch_raise in H2.
    + injection H2 as <-. by apply calculated_cet1_raise in Hc.
Qed.

Lemma _validate_cr2_rules_raise field_map e :
  _validate_cr2_rules field_map = Raise e -> cross_field_exn e.
Proof.
  unfold _validate_cr2_rules.
  destruct (cr2_rwa_calculation field_map) as [rwa|e1] eqn:Hrwa; simpl;
    [discriminate|].
  intros [= <-]. unfold cr2_rwa_calculation in Hrwa.
  destruct (calculated_rwa field_map) as [c|e'] eqn:Hc; simpl in Hrwa.
  - by apply report_mismatch_raise in Hrwa.
  - injection Hrwa as <-. by apply calculated_rwa_raise in Hc.
Qed.

Lemma _validate_cross_field_rules_raise fields template_type schema e :
  _validate_cross_field_rules fields template_type schema = Raise e ->
  cross_field_exn e /\
  (template_type = OWN_FUNDS_CR1 \/ template_type = CAPITAL_REQUIREMENTS_CR2).
Proof.
  unfold _validate_cross_field_rules.
  destruct (String.eqb_spec template_type OWN_FUNDS_CR1) as [->|_].
  - intros H. split; [by apply _validate_cr1_rules_raise in H | by left].
  - destruct (String.eqb_spec template_type CAPITAL_REQUIREMENTS_CR2) as [->|_].
    + intros H. split; [by apply _validate_cr2_rules_raise in H | by right].
    + discriminate.
Qed.

(** ** The cross-field rules on numbers *)

Lemma py_add_overflow v w e :
  is_number v = true -> is_number w = true ->
  py_add v w = Raise e -> e = OverflowError.
Proof.
  unfold is_number, py_add. destruct (as_num v) as [a|]; [|discriminate].
  destruct (as_num w) as [b|]; [|discriminate]. intros _ _.
  apply num_binop_raise.
Qed.

Lemma py_sub_overflow v w e :
  is_number v = true -> is_number w = true ->
  py_sub v w = Raise e -> e = OverflowError.
Proof.
  unfold is_number, py_sub. destruct (as_num v) as [a|]; [|discriminate].
  destruct (as_num w) as [b|]; [|discriminate]. intros _ _.
  apply num_binop_raise.
Qed.

Lemma py_mul_float_overflow v c e :
  is_number v = true -> py_mul_float v c = Raise e -> e = OverflowError.
Proof.
  unfold is_number, py_mul_float. destruct (as_num v) as [a|]; [|discriminate].
  intros _. apply num_binop_raise.
Qed.

Lemma py_sum_fold_overflow (l : list pyvalue) a e :
  is_number a = true -> Forall (fun x => is_number x = true) l ->
  fold_left (fun acc x => do a <- acc; py_add a x) l (Ok a) = Raise e ->
  e = OverflowError.
Proof.
  revert a. induction l as [|x l IH]; simpl; intros a Ha Hl H; [discriminate|].
  apply Forall_cons_1 in Hl as [Hx Hl].
  destruct (py_add a x) as [s|e'] eqn:Hadd.
  - destruct (py_add_number_l _ _ _ Ha Hadd) as [_ Hs]. by apply (IH s).
  - rewrite py_sum_fold_raise in H. injection H as <-.
    by apply (py_add_overflow a x).
Qed.

Lemma py_sum_overflow l e :
  Forall (fun x => is_number x = true) l -> py_sum l = Raise e ->
  e = OverflowError.
Proof. by apply py_sum_fold_overflow. Qed.

Lemma format_2f_overflow v e :
  is_number v = true -> format_2f v = Raise e -> e = OverflowError.
Proof.
  destruct v; try discriminate; intros _; simpl.
  - destruct (F64.of_int _) as [g|e2] eqn:Hg; simpl; [discriminate|].
    intros [= <-]. by apply of_int_raise in Hg.
  - destruct (F64.of_int _) as [g|e2] eqn:Hg; simpl; [discriminate|].
    intros [= <-]. by apply of_int_raise in Hg.
Qed.

Lemma report_mismatch_overflow calculated reported fid what how rule_id e :
  is_number calculated = true ->
  is_none reported = true \/ is_number reported = true ->
  report_mismatch calculated reported fid what how rule_id = Raise e ->
  e = OverflowError.
Proof.
  intros Hc Hr. unfold report_mismatch.
  destruct (is_none reported) eqn:Hn; simpl; [discriminate|].
  destruct Hr as [Hr|Hr]; [discriminate|].
  destruct (py_sub calculated reported) as [d|e1] eqn:Hd; simpl;
    [|intros [= <-]; by apply (py_sub_overflow calculated reported)].
  apply py_sub_number in Hd as (_ & _ & Hdn).
  unfold py_abs, py_gt_int. unfold is_number in Hdn.
  destruct (as_num d) as [[x|f]|]; try discriminate; simpl.
  - destruct (Z.abs x ?= 1); try discriminate.
    destruct (format_2f calculated) as [p|e2] eqn:Hp; simpl; [discriminate|].
    intros [= <-]. by apply (format_2f_overflow calculated).
  - destruct (F64.compare_Z (SFabs f) 1) as [[]|]; try discriminate.
    destruct (format_2f calculated) as [p|e2] eqn:Hp; simpl; [discriminate|].
    intros [= <-]. by apply (format_2f_overflow calculated).
Qed.

Lemma get_or_numbers (field_map : gmap string pyvalue) ids k :
  numbers_at field_map ids -> k ∈ ids ->
  is_number (get_or field_map k (PyInt 0)) = true.
Proof.
  intros H Hk. unfold get_or.
  destruct (field_map !! k) as [v|] eqn:Hv; [|done]. by apply (H k).
Qed.

Lemma get_numbers (field_map : gmap string pyvalue) ids k :
  numbers_at field_map ids -> k ∈ ids ->
  is_none (get field_map k) = true \/ is_number (get field_map k) = true.
Proof.
  intros H Hk. unfold get, get_or.
  destruct (field_map !! k) as [v|] eqn:Hv; [|by left]. right. by apply (H k).
Qed.

(** Either all the values under the ids are numbers, or one that is not
    can be named. *)
Lemma numbers_at_dec (field_map : gmap string pyvalue) (ids : list string) :
  numbers_at field_map ids \/
  exists k v, k ∈ ids /\ field_map !! k = Some v /\ is_number v = false.
Proof.
  induction ids as [|k ids IH].
  - left. intros k v Hk. by apply elem_of_nil in Hk.
  - destruct IH as [IH|(k' & v & Hk & Hv & Hn)];
      [|right; exists k', v; split; [by right | done]].
    destruct (field_map !! k) as [v|] eqn:Hv.
    + destruct (is_number v) eqn:Hn.
      * left. intros k' v' Hk' Hv'. apply elem_of_cons in Hk' as [->|Hk'].
        -- congruence.
        -- by apply (IH k').
      * right. exists k, v. split; [by left | done].
    + left. intros k' v' Hk' Hv'. apply elem_of_cons in Hk' as [->|Hk'].
      * congruence.
      * by apply (IH k').
Qed.

Lemma calculated_cet1_overflow field_map e :
  numbers_at field_map cr1_rule_ids ->
  calculated_cet1 field_map = Raise e -> e = OverflowError.
Proof.
  intros Hnum. unfold calculated_cet1.
  destruct (py_sum _) as [t|e'] eqn:Hsum; simpl.
  - apply py_sum_number in Hsum as [_ Ht]. apply py_add_overflow; [done|].
    apply (get_or_numbers _ _ _ Hnum). unfold cr1_rule_ids. repeat constructor.
  - intros [= <-]. apply py_sum_overflow in Hsum; [done|].
    repeat (constructor;
            [apply (get_or_numbers _ _ _ Hnum); unfold cr1_rule_ids;
             solve [repeat constructor]|]).
    constructor.
Qed.

Lemma calculated_rwa_overflow field_map e :
  numbers_at field_map cr2_rule_ids ->
  calculated_rwa field_map = Raise e -> e = OverflowError.
Proof.
  intros Hnum. unfold calculated_rwa.
  assert (Hid : forall k, k ∈ cr2_rule_ids ->
                          is_number (get_or field_map k (PyInt 0)) = true)
    by (intros k; apply get_or_numbers; done).
  destruct (py_add (get_or field_map "CR2_010_010" _) _) as [credit|e1] eqn:H1;
    simpl.
  2:{ intros [= <-]. apply py_add_overflow in H1; [done|..];
        apply Hid; unfold cr2_rule_ids; solve [repeat constructor]. }
  destruct (py_add (get_or field_map "CR2_050_010" _) _) as [other|e2] eqn:H2;
    simpl.
  2:{ intros [= <-]. apply py_add_overflow in H2; [done|..];
        apply Hid; unfold cr2_rule_ids; solve [repeat constructor]. }
  apply py_add_number_l in H1 as [_ Hcredit];
    [|apply Hid; unfold cr2_rule_ids; solve [repeat constructor]].
  apply py_add_number_l in H2 as [_ Hother];
    [|apply Hid; unfold cr2_rule_ids; solve [repeat constructor]].
  destruct (py_mul_float other F64.lit_12_5) as [scaled|e3] eqn:H3; simpl.
  2:{ intros [= <-]. by apply py_mul_float_overflow in H3. }
  apply py_mul_float_number in H3 as [_ (f & ->)].
  by apply py_add_overflow.
Qed.

Lemma formula_check_overflow field_map ids input other reported
    fid what how rule_id e :
  numbers_at field_map ids -> input ∈ ids -> other ∈ ids -> reported ∈ ids ->
  (do calculated <- py_add (get_or field_map input (PyInt 0))
                           (get_or field_map other (PyInt 0));
   report_mismatch calculated (get field_map reported) fid what how rule_id)
  = Raise e -> e = OverflowError.
Proof.
  intros Hnum Hi Ho Hr.
  pose proof (get_or_numbers _ _ _ Hnum Hi) as Hin.
  pose proof (get_or_numbers _ _ _ Hnum Ho) as Hon.
  destruct (py_add _ _) as [c|e'] eqn:Hc; simpl.
  - apply py_add_number_l in Hc as [_ Hc]; [|done].
    apply report_mismatch_overflow; [done|]. by apply (get_numbers _ ids).
  - intros [= <-]. by apply py_add_overflow in Hc.
Qed.

Lemma cr1_minimum_cet1_returns field_map :
  numbers_at field_map cr1_rule_ids ->
  exists out, cr1_minimum_cet1 field_map = Ok out.
Proof.
  intros Hnum. unfold cr1_minimum_cet1.
  destruct (get_numbers field_map cr1_rule_ids "CR1_500_010" Hnum) as [Hn|Hn];
    [unfold cr1_rule_ids; solve [repeat constructor] | |].
  - rewrite Hn. simpl. eauto.
  - unfold py_lt_int. unfold is_number in Hn.
    destruct (negb _); simpl; [|eauto].
    destruct (as_num _) as [a|]; [|discriminate]. simpl.
    destruct (match num_compare_Z a 0 with Some Lt => true | _ => false end);
      eauto.
Qed.

Lemma _validate_cr1_rules_overflow field_map e :
  numbers_at field_map cr1_rule_ids ->
  _validate_cr1_rules field_map = Raise e -> e = OverflowError.
Proof.
  intros Hnum. unfold _validate_cr1_rules.
  destruct (cr1_cet1_calculation field_map) as [v2|e2] eqn:H2; simpl.
  - destruct (cr1_tier1_calculation field_map) as [v3|e3] eqn:H3; simpl.
    + destruct (cr1_own_funds_calculation field_map) as [v4|e4] eqn:H4; simpl.
      * destruct (cr1_minimum_cet1_returns _ Hnum) as [v6 ->]. discriminate.
      * intros [= <-].
        apply (formula_check_overflow _ cr1_rule_ids) in H4; [done..| | |];
          unfold cr1_rule_ids; solve [repeat constructor].
    + intros [= <-].
      apply (formula_check_overflow _ cr1_rule_ids) in H3; [done..| | |];
        unfold cr1_rule_ids; solve [repeat constructor].
  - intros [= <-]. unfold cr1_cet1_calculation in H2.
    destruct (calculated_cet1 field_map) as [c|e'] eqn:Hc; simpl in H2.
    + apply calculated_cet1_number in Hc as [_ Hc].
      apply report_mismatch_overflow in H2; [done..|].
      apply (get_numbers _ cr1_rule_ids); [done|].
      unfold cr1_rule_ids; solve [repeat constructor].
    + injection H2 as <-. by apply calculated_cet1_overflow in Hc.
Qed.

Lemma _validate_cr2_rules_overflow field_map e :
  numbers_at field_map cr2_rule_ids ->
  _validate_cr2_rules field_map = Raise e -> e = OverflowError.
Proof.
  intros Hnum. unfold _validate_cr2_rules.
  destruct (cr2_rwa_calculation field_map) as [rwa|e1] eqn:Hrwa; simpl;
    [discriminate|].
  intros [= <-]. unfold cr2_rwa_calculation in Hrwa.
  destruct (calculated_rwa field_map) as [c|e'] eqn:Hc; simpl in Hrwa.
  - apply calculated_rwa_number in Hc as [_ (f & ->)].
    apply report_mismatch_overflow in Hrwa; [done..|].
    apply (get_numbers _ cr2_rule_ids); [done|].
    unfold cr2_rule_ids; solve [repeat constructor].
  - injection Hrwa as <-. by apply calculated_rwa_overflow in Hc.
Qed.

Lemma numbers_at_value_map fields ids :
  Forall (number_at (value_map_of fields)) ids ->
  numbers_at (value_map_of fields) ids.
Proof.
  intros H k v Hk Hv. rewrite Forall_forall in H.
  apply (H k Hk v Hv). by apply value_map_of_not_none in Hv.
Qed.

Lemma cross_field_rules_Ok fields template_type schema out :
  _validate_cross_field_rules fields template_type schema = Ok out ->
  numbers_at (value_map_of fields) (cross_field_inputs template_type).
Proof.
  unfold _validate_cross_field_rules, cross_field_inputs.
  destruct (String.eqb template_type OWN_FUNDS_CR1).
  - intros H. apply numbers_at_value_map.
    by apply _validate_cr1_rules_number in H.
  - destruct (String.eqb template_type CAPITAL_REQUIREMENTS_CR2).
    + intros H. apply numbers_at_value_map.
      by apply _validate_cr2_rules_number in H.
    + intros _ k v Hk. by apply elem_of_nil in Hk.
Qed.

Lemma cross_field_rules_TypeError fields template_type schema :
  _validate_cross_field_rules fields template_type schema = Raise TypeError ->
  exists k v, k ∈ cross_field_inputs template_type /\
              value_map_of fields !! k = Some v /\ is_number v = false.
Proof.
  intros H.
  destruct (numbers_at_dec (value_map_of fields)
              (cross_field_inputs template_type)) as [Hnum|Hex]; [|done].
  exfalso. revert H Hnum.
  unfold _validate_cross_field_rules, cross_field_inputs.
  destruct (String.eqb template_type OWN_FUNDS_CR1).
  - intros H Hnum. by apply _validate_cr1_rules_overflow in H.
  - destruct (String.eqb template_type CAPITAL_REQUIREMENTS_CR2).
    + intros H Hnum. by apply _validate_cr2_rules_overflow in H.
    + discriminate.
Qed.

(** X7. The cross-field rules return only when every amount they read is a
    number; they raise nothing but [TypeError] and [OverflowError], and a
    [TypeError] only for an amount that is not a number. *)
Theorem X7_cross_field_rules_need_numbers fields template_type schema :
  let field_map := value_map_of fields in
  let ids := cross_field_inputs template_type in
  let run := _validate_cross_field_rules fields template_type schema in
  (forall out, run = Ok out -> numbers_at field_map ids) /\
  (forall e, run = Raise e -> e = TypeError \/ e = OverflowError) /\
  (run = Raise TypeError ->
   exists k v, k ∈ ids /\ field_map !! k = Some v /\ is_number v = false).
Proof.
  simpl. split; [|split].
  - intros out. apply cross_field_rules_Ok.
  - intros e H. by apply _validate_cross_field_rules_raise in H as [H _].
  - apply cross_field_rules_TypeError.
Qed.

(** ** Exceptions of the whole validation *)

Lemma validate_fields_raise float_of_str fields template_type schema e :
  validate_fields float_of_str fields template_type schema = Raise e ->
  (validate_schema_fields float_of_str fields schema = Raise e) \/
  (exists per_field,
      validate_schema_fields float_of_str fields schema = Ok per_field /\
      _validate_cross_field_rules fields template_type schema = Raise e).
Proof.
  unfold validate_fields.
  destruct (validate_schema_fields _ _ _) as [per_field|e1]; simpl.
  - destruct (_validate_cross_field_rules _ _ _) as [cross|e2]; simpl;
      [discriminate|]. intros [= <-]. right. eauto.
  - intros [= <-]. by left.
Qed.

(** X8. An amount that is not a number, supplied under an id the cross-field
    rules of the template read, makes the validation raise: no list of
    findings is returned. *)
Theorem X8_non_number_amount_raises (float_of_str : string -> option spec_float)
    (fields : list TemplateField) (template_type : TemplateType)
    (schema : template_schema) (k : string) (v : pyvalue) :
  k ∈ cross_field_inputs template_type ->
  value_map_of fields !! k = Some v ->
  is_number v = false ->
  exists e,
    validate_fields float_of_str fields template_type schema = Raise e /\
    (e = TypeError \/ e = OverflowError).
Proof.
  intros Hk Hv Hn.
  destruct (validate_fields float_of_str fields template_type schema)
    as [issues|e] eqn:Hrun.
  - apply validate_fields_Ok in Hrun as (per_field & cross & _ & Hcross & _).
    apply (cross_field_rules_Ok fields template_type schema) in Hcross.
    rewrite (Hcross k v Hk Hv) in Hn. discriminate.
  - exists e. split; [done|].
    apply validate_fields_raise in Hrun as [Hrun|(per_field & _ & Hrun)].
    + apply validate_schema_fields_raise in Hrun as [-> _]. by right.
    + by apply _validate_cross_field_rules_raise in Hrun as [Hrun _].
Qed.

(** X9. The validation never raises [ValueError].  It raises [OverflowError],
    or else [TypeError], and that only once the per-field pass has
    returned and for an amount, read by the cross-field rules of the
    template, that is not a number. *)
Theorem X9_validator_exceptions (float_of_str : string -> option spec_float)
    (fields : list TemplateField) (template_type : TemplateType)
    (schema : template_schema) (e : exn) :
  validate_fields float_of_str fields template_type schema = Raise e ->
  e = OverflowError \/
  (e = TypeError /\
   (exists per_field,
       validate_schema_fields float_of_str fields schema = Ok per_field) /\
   exists k v, k ∈ cross_field_inputs template_type /\
               value_map_of fields !! k = Some v /\ is_number v = false).
Proof.
  intros Hrun.
  apply validate_fields_raise in Hrun as [Hrun|(per_field & Hper & Hrun)].
  - apply validate_schema_fields_raise in Hrun as [-> _]. by left.
  - apply _validate_cross_field_rules_raise in Hrun as Hkind.
    destruct Hkind as [[->| ->] _]; [|by left].
    right. split; [done|]. split; [eauto|].
    by apply (cross_field_rules_TypeError fields template_type schema).
Qed.

(** ** The CR1 rules on integer amounts *)

Lemma report_mismatch_int_silent (calculated reported : Z) fid what how rule_id :
  report_mismatch (PyInt calculated) (PyInt reported) fid what how rule_id = Ok []
  <-> Z.abs (calculated - reported) <= 1.
Proof.
  rewrite report_mismatch_int.
  destruct (Z.gtb_spec (Z.abs (calculated - reported)) 1) as [Hgt|Hle].
  - split; [|lia]. simpl. destruct (F64.of_int calculated); discriminate.
  - split; [lia | done].
Qed.

Lemma cr1_minimum_cet1_int (field_map : gmap string pyvalue) (cet1 : Z) :
  field_map !! "CR1_500_010" = Some (PyInt cet1) ->
  cr1_minimum_cet1 field_map = Ok [] <-> 0 <= cet1.
Proof.
  intros H. unfold cr1_minimum_cet1, get, get_or. rewrite H. simpl.
  destruct (Z.compare_spec cet1 0); simpl; split; (done || lia).
Qed.

(** X10. On integer amounts the CR1 rules report nothing exactly when each
    reported total is within 1 of the total calculated from its inputs and
    the reported CET1 is not negative.  Each check starts from the
    reported total of the one before, so the three tolerances add up: the
    reported own funds can then be up to 3 away from the sum of all the
    components. *)
Theorem X10_cr1_rules_silent_on_integers (field_map : gmap string pyvalue)
    (c1 c2 c3 c4 c5 adjustments at1 tier2 cet1 tier1 own_funds : Z) :
  get_or field_map "CR1_010_010" (PyInt 0) = PyInt c1 ->
  get_or field_map "CR1_020_010" (PyInt 0) = PyInt c2 ->
  get_or field_map "CR1_030_010" (PyInt 0) = PyInt c3 ->
  get_or field_map "CR1_040_010" (PyInt 0) = PyInt c4 ->
  get_or field_map "CR1_050_010" (PyInt 0) = PyInt c5 ->
  get_or field_map "CR1_100_010" (PyInt 0) = PyInt adjustments ->
  get_or field_map "CR1_150_010" (PyInt 0) = PyInt at1 ->
  get_or field_map "CR1_200_010" (PyInt 0) = PyInt tier2 ->
  field_map !! "CR1_500_010" = Some (PyInt cet1) ->
  field_map !! "CR1_600_010" = Some (PyInt tier1) ->
  field_map !! "CR1_700_010" = Some (PyInt own_funds) ->
  (_validate_cr1_rules field_map = Ok [] <->
   Z.abs (c1 + c2 + c3 + c4 + c5 + adjustments - cet1) <= 1 /\
   Z.abs (cet1 + at1 - tier1) <= 1 /\
   Z.abs (tier1 + tier2 - own_funds) <= 1 /\
   0 <= cet1) /\
  (_validate_cr1_rules field_map = Ok [] ->
   Z.abs (c1 + c2 + c3 + c4 + c5 + adjustments + at1 + tier2 - own_funds) <= 3).
Proof.
  intros H1 H2 H3 H4 H5 H6 Hat1 Htier2 Hcet1 Htier1 Hown.
  assert (Hv2 : cr1_cet1_calculation field_map = Ok [] <->
                Z.abs (c1 + c2 + c3 + c4 + c5 + adjustments - cet1) <= 1).
  { unfold cr1_cet1_calculation.
    rewrite (calculated_cet1_int _ _ _ _ _ _ _ H1 H2 H3 H4 H5 H6). simpl.
    rewrite (get_lookup _ _ _ Hcet1). apply report_mismatch_int_silent. }
  assert (Hv3 : cr1_tier1_calculation field_map = Ok [] <->
                Z.abs (cet1 + at1 - tier1) <= 1).
  { unfold cr1_tier1_calculation, calculated_tier1.
    rewrite (get_or_lookup _ _ _ _ Hcet1), Hat1. simpl.
    rewrite (get_lookup _ _ _ Htier1). apply report_mismatch_int_silent. }
  assert (Hv4 : cr1_own_funds_calculation field_map = Ok [] <->
                Z.abs (tier1 + tier2 - own_funds) <= 1).
  { unfold cr1_own_funds_calculation, calculated_own_funds.
    rewrite (get_or_lookup _ _ _ _ Htier1), Htier2. simpl.
    rewrite (get_lookup _ _ _ Hown). apply report_mismatch_int_silent. }
  pose proof (cr1_minimum_cet1_int _ _ Hcet1) as Hv6.
  assert (Hiff : _validate_cr1_rules field_map = Ok [] <->
                 cr1_cet1_calculation field_map = Ok [] /\
                 cr1_tier1_calculation field_map = Ok [] /\
                 cr1_own_funds_calculation field_map = Ok [] /\
                 cr1_minimum_cet1 field_map = Ok []).
  { unfold _validate_cr1_rules. split.
    - intros H. apply bind_Ok in H as (v2 & E2 & H).
      apply bind_Ok in H as (v3 & E3 & H). apply bind_Ok in H as (v4 & E4 & H).
      apply bind_Ok in H as (v6 & E6 & H). injection H as H.
      apply app_eq_nil in H as [-> H]. apply app_eq_nil in H as [-> H].
      apply app_eq_nil in H as [-> ->]. done.
    - intros (-> & -> & -> & ->). reflexivity. }
  rewrite Hiff, Hv2, Hv3, Hv4, Hv6. split; [done|]. lia.
Qed.

(** ** The rule names of the findings *)

Lemma validate_field_def_rules float_of_str fm fd o :
  validate_field_def float_of_str fm fd = Ok o ->
  Forall (fun i => rule i ∈ per_field_rules) o.
Proof.
  destruct (not_populated (fm !! fd_field_id fd)) eqn:Hn.
  - rewrite validate_field_def_not_populated by done. intros [= <-].
    destruct (default false (fd_required fd)); [|constructor].
    constructor; [|constructor]. simpl.
    unfold per_field_rules, known_rules. simpl. solve [repeat constructor].
  - destruct (fm !! fd_field_id fd) as [f|] eqn:Hf; [|discriminate].
    simpl in Hn. rewrite (validate_field_def_populated _ fm fd f Hf Hn).
    rewrite validate_populated_Some by done. intros H.
    apply bind_Ok in H as (ri & Hri & H). injection H as <-.
    apply Forall_app. split.
    + apply rule_issues_shape in Hri. eapply Forall_impl; [exact Hri|].
      simpl. intros i (_ & _ & Hk). apply elem_of_app. by left.
    + destruct (SFltb _ _); [|constructor]. constructor; [|constructor].
      simpl. apply elem_of_app. right. by left.
Qed.

Lemma validate_schema_fields_rules float_of_str fields schema o :
  validate_schema_fields float_of_str fields schema = Ok o ->
  Forall (fun i => rule i ∈ per_field_rules) o.
Proof.
  rewrite validate_schema_fields_flat. apply for_each_Forall.
  intros fd out _. apply validate_field_def_rules.
Qed.

Lemma report_mismatch_rule calculated reported fid what how rule_id o :
  report_mismatch calculated reported fid what how rule_id = Ok o ->
  Forall (fun i => rule i = rule_id) o.
Proof.
  intros H. apply report_mismatch_shape in H.
  eapply Forall_impl; [exact H|]. simpl. by intros i (_ & _ & Hr).
Qed.

Lemma py_eq_int_0 (v : pyvalue) : py_eq_int v 0 = zero_or_absent (Some v).
Proof.
  unfold py_eq_int. destruct v as [|b|z|f|s|l|d]; simpl; try reflexivity.
  - by destruct b.
  - by destruct z.
  - rewrite compare_Z_0. by destruct f as [[] | [] | | [] m e].
Qed.

Lemma get_or_zero (field_map : gmap string pyvalue) k :
  py_eq_int (get_or field_map k (PyInt 0)) 0 = zero_or_absent (field_map !! k).
Proof.
  unfold get_or. destruct (field_map !! k) as [v|]; [|reflexivity].
  apply py_eq_int_0.
Qed.

(** X11. The CR2 validation gives the credit-risk warning, once, exactly when
    neither credit-risk amount is there or other than zero: an amount
    that is lacking, or supplied as [None], counts as zero. *)
Theorem X11_credit_risk_warning (float_of_str : string -> option spec_float)
    (fields : list TemplateField) (schema : template_schema)
    (issues : list ValidationIssue) :
  validate_fields float_of_str fields CAPITAL_REQUIREMENTS_CR2 schema
    = Ok issues ->
  filter (fun i => rule i = "cr2_credit_risk_required") issues =
  if zero_or_absent (value_map_of fields !! "CR2_010_010") &&
     zero_or_absent (value_map_of fields !! "CR2_020_010")
  then [credit_risk_warning] else [].
Proof.
  intros H. apply validate_fields_Ok in H as (per_field & cross & Hp & Hc & ->).
  rewrite filter_app. rewrite (filter_Forall_none _ per_field).
  2:{ apply validate_schema_fields_rules in Hp.
      eapply Forall_impl; [exact Hp|]. simpl. intros i Hi Heq.
      rewrite Heq in Hi. unfold per_field_rules, known_rules in Hi. simpl in Hi.
      repeat (apply elem_of_cons in Hi as [Hi|Hi]; [discriminate|]).
      by apply elem_of_nil in Hi. }
  simpl. unfold _validate_cross_field_rules in Hc. simpl in Hc.
  unfold _validate_cr2_rules in Hc. apply bind_Ok in Hc as (rwa & Hrwa & Hc).
  injection Hc as <-. rewrite filter_app. rewrite (filter_Forall_none _ rwa).
  2:{ unfold cr2_rwa_calculation in Hrwa.
      apply bind_Ok in Hrwa as (c & _ & Hrwa).
      apply report_mismatch_rule in Hrwa.
      eapply Forall_impl; [exact Hrwa|]. simpl. intros i -> . discriminate. }
  simpl. unfold cr2_credit_risk_required. rewrite !get_or_zero.
  by destruct (_ && _).
Qed.

(** ** The summary of a validation *)

Lemma count_severity_fmap sev (issues : list ValidationIssue) :
  count_severity sev issues =
  Z.of_nat (length (filter (fun s => s = sev) (severity <$> issues))).
Proof.
  rewrite count_severity_length. f_equal.
  induction issues as [|i issues IH]; [reflexivity|].
  rewrite fmap_cons, !filter_cons.
  destruct (decide (severity i = sev)); simpl; by rewrite IH.
Qed.

(** X12. The summary depends only on how many findings there are of each
    severity: two lists with the same severities in any order have the
    same summary, and the summary of two lists put together adds their
    counts and is valid when both are. *)
Theorem X12_summary_of_severities (issues issues' : list ValidationIssue) :
  (severity <$> issues ≡ₚ severity <$> issues' ->
   generate_validation_summary issues = generate_validation_summary issues') /\
  (let s := generate_validation_summary issues in
   let s' := generate_validation_summary issues' in
   let both := generate_validation_summary (issues ++ issues') in
   total_issues both = total_issues s + total_issues s' /\
   errors both = errors s + errors s' /\
   warnings both = warnings s + warnings s' /\
   info both = info s + info s' /\
   is_valid both = is_valid s && is_valid s').
Proof.
  split.
  - intros Hperm. unfold generate_validation_summary.
    assert (Hcount : forall sev,
               count_severity sev issues = count_severity sev issues').
    { intros sev. rewrite !count_severity_fmap. by rewrite Hperm. }
    rewrite !Hcount. f_equal.
    apply Permutation_length in Hperm. rewrite !length_fmap in Hperm.
    by rewrite Hperm.
  - simpl. rewrite !count_severity_app, length_app.
    repeat split; [lia|].
    pose proof (count_severity_length "error" issues).
    pose proof (count_severity_length "error" issues').
    destruct (Z.eqb_spec (count_severity "error" issues) 0) as [->|];
      destruct (Z.eqb_spec (count_severity "error" issues') 0) as [->|];
      simpl; lia.
Qed.

Lemma validate_fields_kind float_of_str fields template_type schema issues :
  validate_fields float_of_str fields template_type schema = Ok issues ->
  Forall error_or_warning issues.
Proof.
  intros Hrun.
  apply validate_fields_Ok in Hrun as (per_field & cross & Hp & Hc & ->).
  apply Forall_app. split.
  - rewrite validate_schema_fields_flat in Hp.
    eapply for_each_Forall; [|exact Hp]. intros fd o _ Ho.
    apply validate_field_def_shape in Ho.
    eapply Forall_impl; [exact Ho|]. simpl. intros i [Hs Hf].
    split; [done | by rewrite Hf].
  - apply _validate_cross_field_rules_kind in Hc.
    eapply Forall_impl; [exact Hc | apply cross_field_issue_kind].
Qed.

Lemma length_by_severity (issues : list ValidationIssue) :
  Forall error_or_warning issues ->
  Z.of_nat (length issues) =
  count_severity "error" issues + count_severity "warning" issues.
Proof.
  induction 1 as [|i issues [Hs _] _ IH].
  - reflexivity.
  - change (i :: issues) with ([i] ++ issues).
    rewrite !count_severity_app, length_app, Nat2Z.inj_add, IH.
    rewrite !count_severity_length, !filter_cons, !filter_nil.
    destruct Hs as [Hs|Hs]; rewrite Hs; simpl; lia.
Qed.

(** X13. What [process_query] reports after validating against the catalog:
    every finding is counted as an error or as a warning, and the result
    is valid exactly when every field definition of the template is in
    order (populated if required, passing its rules if populated) and the
    cross-field rules found no error. *)
Theorem X13_process_query_validity (float_of_str : string -> option spec_float)
    (template_fields : list TemplateField) (template_type : TemplateType)
    (issues : list ValidationIssue) (summary : ValidationSummary) :
  process_query_validation float_of_str template_fields template_type
    = Ok (issues, summary) ->
  total_issues summary = errors summary + warnings summary /\
  info summary = 0 /\
  (is_valid summary = true <->
   (forall fd, fd ∈ schema_field_defs (get_template_schema template_type) ->
               field_in_order float_of_str (field_map_of template_fields) fd) /\
   exists cross,
     _validate_cross_field_rules template_fields template_type
       (get_template_schema template_type) = Ok cross /\
     Forall (fun i => severity i <> "error") cross).
Proof.
  unfold process_query_validation. intros H.
  apply bind_Ok in H as (found & Hrun & H). injection H as <- <-.
  pose proof (validate_fields_kind _ _ _ _ _ Hrun) as Hkind.
  split; [by apply length_by_severity|]. split.
  - apply count_severity_zero. eapply Forall_impl; [exact Hkind|]. simpl.
    intros i [[Hs|Hs] _]; rewrite Hs; discriminate.
  - apply validate_fields_Ok in Hrun as (per_field & cross & Hp & Hc & ->).
    simpl. rewrite Z.eqb_eq, count_severity_zero, Forall_app.
    rewrite (validate_schema_fields_error_free _ _ _ _ Hp).
    split.
    + intros [Hfields Hcross]. split; [done|]. by exists cross.
    + intros [Hfields (cross' & Hc' & Hcross)]. split; [done|]. congruence.
Qed.

(** ** The catalog and its endpoint *)

Lemma get_template_schema_cases (t : TemplateType) :
  (t = OWN_FUNDS_CR1 /\ get_template_schema t = _get_cr1_schema) \/
  (t = CAPITAL_REQUIREMENTS_CR2 /\ get_template_schema t = _get_cr2_schema) \/
  (t <> OWN_FUNDS_CR1 /\ t <> CAPITAL_REQUIREMENTS_CR2 /\
   get_template_schema t = empty_schema).
Proof.
  unfold get_template_schema. rewrite templates_lookup.
  destruct (decide (t = OWN_FUNDS_CR1)) as [->|H1]; [by left|].
  destruct (decide (t = CAPITAL_REQUIREMENTS_CR2)) as [->|H2]; [right; by left|].
  right. right. done.
Qed.

Lemma cross_field_inputs_cases (t : TemplateType) :
  cross_field_inputs t =
  if decide (t = OWN_FUNDS_CR1) then cr1_rule_ids
  else if decide (t = CAPITAL_REQUIREMENTS_CR2) then cr2_rule_ids else [].
Proof.
  unfold cross_field_inputs.
  destruct (String.eqb_spec t OWN_FUNDS_CR1) as [->|H1]; [reflexivity|].
  rewrite decide_False by done.
  destruct (String.eqb_spec t CAPITAL_REQUIREMENTS_CR2) as [->|H2];
    [reflexivity|]. by rewrite decide_False.
Qed.

Lemma get_all_field_ids_defs (t : TemplateType) :
  get_all_field_ids t = fd_field_id <$> schema_field_defs (get_template_schema t).
Proof.
  unfold get_all_field_ids, schema_field_defs.
  induction (default [] (ts_sections (get_template_schema t))) as [|x l IH];
    [reflexivity|].
  simpl. by rewrite fmap_app, IH.
Qed.

(** X14. The catalog is well formed for the validator, whatever the template
    type: the field ids of a template are pairwise distinct, every field
    definition is a number with its [required] flag and its rule list,
    every rule name it lists is one of the two numeric rules of the
    registry, and every amount the cross-field rules of the template read
    has a field definition. *)
Theorem X14_catalog_well_formed (template_type : TemplateType) :
  let defs := schema_field_defs (get_template_schema template_type) in
  get_all_field_ids template_type = fd_field_id <$> defs /\
  NoDup (get_all_field_ids template_type) /\
  Forall (fun fd =>
            fd_data_type fd = "number" /\ is_Some (fd_required fd) /\
            exists rules,
              fd_validation_rules fd = Some rules /\
              rules ⊆ ["must_be_positive"; "must_be_negative_or_zero"]) defs /\
  cross_field_inputs template_type ⊆ get_all_field_ids template_type.
Proof.
  simpl. rewrite get_all_field_ids_defs, cross_field_inputs_cases.
  destruct (get_template_schema_cases template_type)
    as [[-> ->]|[[-> ->]|(H1 & H2 & ->)]].
  - split; [reflexivity|]. split; [compute_done|].
    split; [|compute_done].
    repeat (constructor;
            [split; [reflexivity|]; split; [by eexists|];
             eexists; split; [reflexivity|];
             compute_done|]).
    constructor.
  - split; [reflexivity|]. split; [compute_done|].
    split; [|compute_done].
    repeat (constructor;
            [split; [reflexivity|]; split; [by eexists|];
             eexists; split; [reflexivity|];
             compute_done|]).
    constructor.
  - rewrite !decide_False by done. simpl.
    split; [reflexivity|]. split; [constructor|]. split; [constructor|].
    by intros k Hk.
Qed.

(** X15. The schema endpoint answers 200 with the catalog schema for the two
    template types, and 404 with no schema for any other string: it never
    answers 500, and never the empty dictionary that the service returns
    for a template type it does not know. *)
Theorem X15_schema_endpoint (template_type : string) :
  match api_get_template_schema template_type with
  | Http200 body =>
      template_type ∈ [OWN_FUNDS_CR1; CAPITAL_REQUIREMENTS_CR2] /\
      body = get_template_schema template_type /\
      templates !! template_type = Some body /\
      body <> empty_schema
  | HTTPException status_code detail cause =>
      (template_type ∉ [OWN_FUNDS_CR1; CAPITAL_REQUIREMENTS_CR2]) /\
      status_code = 404 /\ cause = None /\
      detail = ("Template type '" +:+ template_type +:+ "' not found")
  end.
Proof.
  unfold api_get_template_schema, TemplateType_of.
  destruct (decide (template_type ∈ _)) as [Hin|Hout]; [|done].
  split; [done|]. split; [done|].
  unfold get_template_schema. rewrite templates_lookup.
  in_list Hin.
  - rewrite decide_True by done. split; [reflexivity | discriminate].
  - rewrite decide_False by discriminate. rewrite decide_True by done.
    split; [reflexivity | discriminate].
Qed.

(** ** The two dictionaries of the supplied fields *)

Lemma last_filter_snoc {A} (P : A -> Prop) `{!forall x, Decision (P x)}
    (l : list A) (x : A) :
  last (filter P (l ++ [x])) = if decide (P x) then Some x else last (filter P l).
Proof.
  rewrite filter_app, filter_cons, filter_nil.
  destruct (decide (P x)); [apply last_snoc | by rewrite app_nil_r].
Qed.

Lemma field_map_of_last (fields : list TemplateField) (k : string) :
  field_map_of fields !! k = last (filter (fun f => tf_field_id f = k) fields).
Proof.
  induction fields as [|f fields IH] using rev_ind; [reflexivity|].
  rewrite field_map_of_snoc, last_filter_snoc, lookup_insert.
  destruct (decide (tf_field_id f = k)); [reflexivity | exact IH].
Qed.

Lemma value_map_of_last (fields : list TemplateField) (k : string) :
  value_map_of fields !! k =
  tf_value <$>
    last (filter (fun f => tf_field_id f = k /\ is_none (tf_value f) = false)
            fields).
Proof.
  induction fields as [|f fields IH] using rev_ind; [reflexivity|].
  rewrite value_map_of_snoc, last_filter_snoc.
  destruct (is_none (tf_value f)) eqn:Hv; simpl.
  - rewrite decide_False by (intros [_ ?]; discriminate). exact IH.
  - rewrite lookup_insert. destruct (decide (tf_field_id f = k)) as [Hk|Hk].
    + by rewrite decide_True.
    + rewrite decide_False by (by intros [? _]). exact IH.
Qed.

Lemma value_map_of_field_map (fields : list TemplateField) (k : string) f :
  field_map_of fields !! k = Some f -> is_none (tf_value f) = false ->
  value_map_of fields !! k = Some (tf_value f).
Proof.
  induction fields as [|g fields IH] using rev_ind; [discriminate|].
  rewrite field_map_of_snoc, value_map_of_snoc, lookup_insert.
  destruct (decide (tf_field_id g = k)) as [Hk|Hk].
  - intros [= ->] Hv. rewrite Hv. simpl. rewrite lookup_insert.
    by rewrite decide_True.
  - intros Hf Hv. destruct (negb _); [|by apply IH].
    rewrite lookup_insert, decide_False by done. by apply IH.
Qed.

(** X16. When an id is supplied more than once, the per-field pass looks at
    the last field supplied under it, and the cross-field rules at the
    value of the last one whose value is not [None]; the two agree when
    that last field is populated. *)
Theorem X16_later_field_wins (fields : list TemplateField) (k : string) :
  field_map_of fields !! k = last (filter (fun f => tf_field_id f = k) fields) /\
  value_map_of fields !! k =
    tf_value <$>
      last (filter (fun f => tf_field_id f = k /\ is_none (tf_value f) = false)
              fields) /\
  (forall f, field_map_of fields !! k = Some f ->
             is_none (tf_value f) = false ->
             value_map_of fields !! k = Some (tf_value f)).
Proof.
  split; [apply field_map_of_last|]. split; [apply value_map_of_last|].
  apply value_map_of_field_map.
Qed.

(** ** Supplied fields the template does not define *)

Lemma filter_filter_id (ids : list string) (k : string)
    (P : TemplateField -> Prop) `{!forall f, Decision (P f)}
    (fields : list TemplateField) :
  k ∈ ids ->
  filter (fun f => tf_field_id f = k /\ P f)
    (filter (fun f => tf_field_id f ∈ ids) fields) =
  filter (fun f => tf_field_id f = k /\ P f) fields.
Proof.
  intros Hk. induction fields as [|f fields IH]; [reflexivity|].
  rewrite !filter_cons. destruct (decide (tf_field_id f ∈ ids)) as [Hin|Hout].
  - rewrite filter_cons. by rewrite IH.
  - rewrite IH. rewrite decide_False; [done|]. intros [Hid _]. congruence.
Qed.

Lemma field_map_of_filter (ids : list string) (k : string) fields :
  k ∈ ids ->
  field_map_of (filter (fun f => tf_field_id f ∈ ids) fields) !! k =
  field_map_of fields !! k.
Proof.
  intros Hk. rewrite !field_map_of_last. f_equal.
  pose proof (filter_filter_id ids k (fun _ => True) fields Hk) as H.
  assert (Hext : forall l : list TemplateField,
             filter (fun f => tf_field_id f = k) l =
             filter (fun f => tf_field_id f = k /\ True) l).
  { intros l. apply list_filter_iff. intros f. tauto. }
  by rewrite !Hext.
Qed.

Lemma value_map_of_filter (ids : list string) (k : string) fields :
  k ∈ ids ->
  value_map_of (filter (fun f => tf_field_id f ∈ ids) fields) !! k =
  value_map_of fields !! k.
Proof.
  intros Hk. rewrite !value_map_of_last. f_equal. f_equal.
  by apply (filter_filter_id ids k (fun f => is_none (tf_value f) = false)).
Qed.

Lemma validate_field_def_ext float_of_str
    (fm fm' : gmap string TemplateField) fd :
  fm !! fd_field_id fd = fm' !! fd_field_id fd ->
  validate_field_def float_of_str fm fd = validate_field_def float_of_str fm' fd.
Proof. intros H. unfold validate_field_def. by rewrite H. Qed.

Lemma _validate_cr1_rules_ext (fm fm' : gmap string pyvalue) :
  (forall k, k ∈ cr1_rule_ids -> fm !! k = fm' !! k) ->
  _validate_cr1_rules fm = _validate_cr1_rules fm'.
Proof.
  intros H.
  assert (Hget : forall k d, k ∈ cr1_rule_ids -> get_or fm k d = get_or fm' k d)
    by (intros k d Hk; unfold get_or; by rewrite (H k Hk)).
  unfold _validate_cr1_rules, cr1_cet1_calculation, calculated_cet1,
    cr1_tier1_calculation, calculated_tier1, cr1_own_funds_calculation,
    calculated_own_funds, cr1_minimum_cet1, get.
  by rewrite !Hget by (unfold cr1_rule_ids; solve [repeat constructor]).
Qed.

Lemma _validate_cr2_rules_ext (fm fm' : gmap string pyvalue) :
  (forall k, k ∈ cr2_rule_ids -> fm !! k = fm' !! k) ->
  _validate_cr2_rules fm = _validate_cr2_rules fm'.
Proof.
  intros H.
  assert (Hget : forall k d, k ∈ cr2_rule_ids -> get_or fm k d = get_or fm' k d)
    by (intros k d Hk; unfold get_or; by rewrite (H k Hk)).
  unfold _validate_cr2_rules, cr2_rwa_calculation, calculated_rwa,
    cr2_credit_risk_required, get.
  by rewrite !Hget by (unfold cr2_rule_ids; solve [repeat constructor]).
Qed.

Lemma validate_schema_fields_filter float_of_str fields schema :
  validate_schema_fields float_of_str
    (filter (fun f => tf_field_id f ∈ fd_field_id <$> schema_field_defs schema)
       fields) schema =
  validate_schema_fields float_of_str fields schema.
Proof.
  rewrite !validate_schema_fields_flat. apply for_each_ext. intros fd Hfd.
  apply validate_field_def_ext. apply field_map_of_filter.
  by apply list_elem_of_fmap_2.
Qed.

Lemma cross_field_rules_filter (ids : list string) fields template_type schema :
  cross_field_inputs template_type ⊆ ids ->
  _validate_cross_field_rules
    (filter (fun f => tf_field_id f ∈ ids) fields) template_type schema =
  _validate_cross_field_rules fields template_type schema.
Proof.
  unfold cross_field_inputs, _validate_cross_field_rules.
  destruct (String.eqb template_type OWN_FUNDS_CR1).
  - intros Hsub. apply _validate_cr1_rules_ext. intros k Hk.
    apply value_map_of_filter. by apply Hsub.
  - destruct (String.eqb template_type CAPITAL_REQUIREMENTS_CR2); [|done].
    intros Hsub. apply _validate_cr2_rules_ext. intros k Hk.
    apply value_map_of_filter. by apply Hsub.
Qed.

(** X17. Supplied fields whose id the template does not define are ignored:
    the per-field pass of any schema, and the whole validation against the
    catalog schema of a template type, give the same result, findings or
    exception, without them. *)
Theorem X17_undefined_fields_ignored (float_of_str : string -> option spec_float)
    (fields : list TemplateField) :
  (forall schema,
      validate_schema_fields float_of_str
        (filter (fun f => tf_field_id f ∈ fd_field_id <$> schema_field_defs schema)
           fields) schema =
      validate_schema_fields float_of_str fields schema) /\
  (forall template_type,
      validate_fields float_of_str
        (filter (fun f => tf_field_id f ∈ get_all_field_ids template_type) fields)
        template_type (get_template_schema template_type) =
      validate_fields float_of_str fields template_type
        (get_template_schema template_type)).
Proof.
  split; [apply validate_schema_fields_filter|]. intros template_type.
  unfold validate_fields. rewrite get_all_field_ids_defs.
  rewrite validate_schema_fields_filter.
  rewrite cross_field_rules_filter; [done|].
  rewrite <- get_all_field_ids_defs, cross_field_inputs_cases.
  destruct (get_template_schema_cases template_type)
    as [[-> _]|[[-> _]|(H1 & H2 & _)]].
  - compute_done.
  - compute_done.
  - rewrite !decide_False by done. intros k Hk. by apply elem_of_nil in Hk.
Qed.

(** ** The confidence warnings *)

Lemma confidence_findings_of_field float_of_str fm fd o :
  validate_field_def float_of_str fm fd = Ok o ->
  filter (fun i => rule i = "confidence_threshold") o = confidence_warnings fm fd.
Proof.
  unfold confidence_warnings.
  destruct (not_populated (fm !! fd_field_id fd)) eqn:Hn.
  - rewrite validate_field_def_not_populated by done. intros [= <-].
    destruct (fm !! fd_field_id fd) as [f|]; simpl in Hn.
    + rewrite Hn. simpl. by destruct (default false (fd_required fd)).
    + by destruct (default false (fd_required fd)).
  - destruct (fm !! fd_field_id fd) as [f|] eqn:Hf; [|discriminate].
    simpl in Hn. rewrite (validate_field_def_populated _ fm fd f Hf Hn).
    rewrite validate_populated_Some by done. intros H.
    apply bind_Ok in H as (ri & Hri & H). injection H as <-.
    rewrite filter_app. rewrite (filter_Forall_none _ ri).
    + rewrite Hn. simpl. by destruct (SFltb _ _).
    + apply rule_issues_not_confidence in Hri.
      eapply Forall_impl; [exact Hri|]. done.
Qed.

(** X18. The confidence warnings of the per-field pass are those of the field
    definitions of the schema whose field is populated with a confidence
    score below 0.5, one each, in the order of the schema; the outcome of
    the rules of the definition plays no part. *)
Theorem X18_confidence_findings (float_of_str : string -> option spec_float)
    (fields : list TemplateField) (schema : template_schema)
    (issues : list ValidationIssue) :
  validate_schema_fields float_of_str fields schema = Ok issues ->
  filter (fun i => rule i = "confidence_threshold") issues =
  flat_map (confidence_warnings (field_map_of fields)) (schema_field_defs schema).
Proof.
  rewrite validate_schema_fields_flat. intros Hrun.
  eapply for_each_filter; [|exact Hrun].
  intros fd o _ Ho. by apply confidence_findings_of_field in Ho.
Qed.

(** ** Conversion of integers to binary64 *)

Lemma digits2_pos_iter_xO (m k : positive) :
  digits2_pos (Pos.iter xO m k) = (digits2_pos m + k)%positive.
Proof.
  induction k as [|k IH] using Pos.peano_ind.
  - simpl. by rewrite Pos.add_1_r.
  - rewrite Pos.iter_succ. simpl. rewrite IH. by rewrite Pos.add_succ_r.
Qed.

Lemma digits2_pos_lower (p : positive) :
  2 ^ (Zpos (digits2_pos p) - 1) <= Zpos p.
Proof.
  induction p as [p IH|p IH|]; simpl digits2_pos.
  - rewrite Pos2Z.inj_succ.
    replace (Z.succ (Zpos (digits2_pos p)) - 1)
      with (Z.succ (Zpos (digits2_pos p) - 1)) by lia.
    rewrite Z.pow_succ_r by lia. lia.
  - rewrite Pos2Z.inj_succ.
    replace (Z.succ (Zpos (digits2_pos p)) - 1)
      with (Z.succ (Zpos (digits2_pos p) - 1)) by lia.
    rewrite Z.pow_succ_r by lia. lia.
  - simpl. lia.
Qed.

Lemma digits2_pos_small (p : positive) :
  Zpos p < 2 ^ 53 -> Zpos (digits2_pos p) <= 53.
Proof.
  intros Hp. destruct (Z.le_gt_cases (Zpos (digits2_pos p)) 53) as [|Hd]; [done|].
  pose proof (digits2_pos_lower p) as Hlow.
  assert (2 ^ 53 <= 2 ^ (Zpos (digits2_pos p) - 1))
    by (apply Z.pow_le_mono_r; lia).
  lia.
Qed.

(** A mantissa of 53 digits is kept as it is. *)
Lemma binary_round_aux_exact (sx : bool) (mz : positive) (ez : Z) :
  Zpos (digits2_pos mz) = 53 -> -1074 <= ez <= 971 ->
  binary_round_aux F64.prec F64.emax sx (Zpos mz) ez loc_Exact =
  S754_finite sx mz ez.
Proof.
  intros Hd He. unfold binary_round_aux, shr_fexp. simpl Zdigits2. rewrite Hd.
  assert (Hshift : fexp F64.prec F64.emax (53 + ez) - ez = 0).
  { unfold fexp, emin, F64.prec, F64.emax. lia. }
  rewrite Hshift. simpl. rewrite Hd, Hshift. simpl.
  unfold F64.emax, F64.prec. replace (ez <=? 1024 - 53) with true; [done|].
  symmetry. apply Z.leb_le. lia.
Qed.

Lemma binary_round_small (sx : bool) (mx : positive) :
  Zpos (digits2_pos mx) <= 53 ->
  exists m e, binary_round F64.prec F64.emax sx mx 0 = S754_finite sx m e.
Proof.
  intros Hd. unfold binary_round, shl_align.
  assert (Hexp : fexp F64.prec F64.emax (Zpos (digits2_pos mx) + 0) - 0 =
                 Zpos (digits2_pos mx) - 53).
  { unfold fexp, emin, F64.prec, F64.emax. lia. }
  assert (Hfexp : fexp F64.prec F64.emax (Zpos (digits2_pos mx) + 0) =
                  Zpos (digits2_pos mx) - 53).
  { unfold fexp, emin, F64.prec, F64.emax. lia. }
  rewrite Hexp. destruct (Zpos (digits2_pos mx) - 53) as [|k|k] eqn:Hk.
  - rewrite binary_round_aux_exact by lia. eauto.
  - lia.
  - rewrite Hfexp. rewrite binary_round_aux_exact; [eauto| |lia].
    rewrite digits2_pos_iter_xO. lia.
Qed.

(** The float of an integer below [2^53] in magnitude is finite, with the
    sign of the integer. *)
Lemma of_int_small (z : Z) :
  Z.abs z < 2 ^ 53 ->
  exists f, F64.of_int z = Ok f /\ F64.compare_Z f 0 = Some (z ?= 0).
Proof.
  intros Hz. unfold F64.of_int, F64.round_Z, binary_normalize.
  destruct z as [|p|p].
  - eauto.
  - destruct (binary_round_small false p) as (m & e & ->);
      [apply digits2_pos_small; lia|].
    simpl. eexists. split; [reflexivity|]. by rewrite compare_Z_0.
  - destruct (binary_round_small true p) as (m & e & ->);
      [apply digits2_pos_small; lia|].
    simpl. eexists. split; [reflexivity|]. by rewrite compare_Z_0.
Qed.

(** Whatever the integer, its float is a zero, a NaN, or has its sign. *)
Lemma binary_round_aux_sign sx mx ex lx :
  match binary_round_aux F64.prec F64.emax sx mx ex lx with
  | S754_finite s _ _ | S754_infinity s | S754_zero s => s = sx
  | S754_nan => True
  end.
Proof.
  unfold binary_round_aux. destruct (shr_fexp _ _ _ _ _) as [mrs' e'].
  destruct (shr_fexp _ _ _ _ _) as [mrs'' e''].
  destruct (shr_m mrs''); [done| |done]. by destruct (_ <=? _).
Qed.

Lemma round_Z_not_positive (z : Z) :
  z <= 0 -> F64.compare_Z (F64.round_Z z) 0 <> Some Gt.
Proof.
  intros Hz. rewrite compare_Z_0. unfold F64.round_Z, binary_normalize.
  destruct z as [|p|p]; [done|lia|]. unfold binary_round.
  destruct (shl_align _ _ _) as [mz ez].
  pose proof (binary_round_aux_sign true (Zpos mz) ez loc_Exact) as Hs.
  destruct (binary_round_aux _ _ _ _ _ _) as [s|s| |s m e]; try done;
    by rewrite Hs.
Qed.

Section IntegerPredicates.
Variable float_of_str : string -> option spec_float.

Lemma _validate_positive_int_sound (z : Z) :
  _validate_positive float_of_str (PyInt z) = Ok true -> 0 < z.
Proof.
  unfold _validate_positive, try_float. simpl. unfold F64.of_int.
  destruct (F64.is_infinity _); [discriminate|]. intros [= H].
  destruct (Z.lt_ge_cases 0 z) as [|Hle]; [done|]. exfalso.
  apply (round_Z_not_positive z); [lia|].
  by destruct (F64.compare_Z (F64.round_Z z) 0) as [[]|].
Qed.

(** X19. On an integer below [2^53] in magnitude the two numeric predicates are
    the comparisons with 0, and neither raises; on any integer at all,
    [must_be_positive] holds only of a positive one. *)
Theorem X19_predicates_on_integers (z : Z) :
  (Z.abs z < 2 ^ 53 ->
   _validate_positive float_of_str (PyInt z) = Ok (0 <? z) /\
   _validate_negative_or_zero float_of_str (PyInt z) = Ok (z <=? 0)) /\
  (_validate_positive float_of_str (PyInt z) = Ok true -> 0 < z).
Proof.
  split.
  - intros Hz. destruct (of_int_small z Hz) as (f & Hf & Hcmp).
    unfold _validate_positive, _validate_negative_or_zero, try_float. simpl.
    rewrite Hf, Hcmp. destruct (Z.compare_spec z 0) as [->| |]; split; f_equal;
      symmetry; (apply Z.ltb_lt || apply Z.ltb_ge || apply Z.leb_le
                 || apply Z.leb_gt); lia.
  - apply _validate_positive_int_sound.
Qed.
End IntegerPredicates.

(** ** A negative CET1 total *)

Lemma _validate_positive_negative float_of_str (v : pyvalue) (b : bool) :
  py_lt_int v 0 = Ok true -> _validate_positive float_of_str v = Ok b ->
  b = false.
Proof.
  destruct v as [|x|z|f|s|l|d]; try discriminate.
  - by destruct x.
  - simpl. intros [= Hz] Hb. destruct b; [|done].
    apply _validate_positive_int_sound in Hb.
    destruct (Z.compare_spec z 0); (discriminate || lia).
  - unfold py_lt_int, _validate_positive, try_float. simpl.
    destruct (F64.compare_Z f 0) as [[]|]; try discriminate. by intros _ [= <-].
Qed.

Lemma cet1_field_def :
  exists fd, fd ∈ schema_field_defs (get_template_schema OWN_FUNDS_CR1) /\
             fd_field_id fd = "CR1_500_010" /\
             fd_field_name fd = "Total Common Equity Tier 1 capital" /\
             fd_required fd = Some true /\
             fd_validation_rules fd = Some ["must_be_positive"].
Proof.
  exists (number_field "CR1_500_010" "Total Common Equity Tier 1 capital"
            true ["must_be_positive"]
            (Some "sum(CR1_010_010:CR1_050_010) - CR1_100_010")).
  split; [|done]. apply list_elem_of_In. vm_compute.
  repeat (try (left; reflexivity); right).
Qed.

Lemma cr1_minimum_cet1_found (field_map : gmap string pyvalue) v6 :
  cr1_minimum_cet1 field_map = Ok v6 ->
  negative_cet1_issue ∈ v6 <->
  exists v, field_map !! "CR1_500_010" = Some v /\ py_lt_int v 0 = Ok true.
Proof.
  unfold cr1_minimum_cet1, get, get_or.
  destruct (field_map !! "CR1_500_010") as [v|]; simpl.
  - destruct (is_none v) eqn:Hn; simpl.
    + intros [= <-]. split; [by intros H%elem_of_nil|].
      intros (w & [= <-] & Hw). by destruct v.
    + destruct (py_lt_int v 0) as [[]|e] eqn:Hlt; simpl; [| |discriminate];
        intros [= <-].
      * split; [intros _; by exists v | intros _; by left].
      * split; [by intros H%elem_of_nil|]. intros (w & [= <-] & Hw).
        congruence.
  - intros [= <-]. split; [by intros H%elem_of_nil|]. by intros (w & Hw & _).
Qed.

Lemma not_elem_by_rule (i : ValidationIssue) (l : list ValidationIssue)
    (P : string -> Prop) :
  Forall (fun j => P (rule j)) l -> ~ P (rule i) -> i ∉ l.
Proof. intros Hl Hi Hin. rewrite Forall_forall in Hl. by apply Hi, Hl. Qed.

(** X20. In the validation of the CR1 template, the error of the sign check
    is found exactly when the CET1 total read by the cross-field rules is
    a number below zero; and whenever it is found, the per-field pass has
    reported an error on the same field too, from the rule
    [must_be_positive], or from the required-field check when the last
    field supplied under the id has the value [None]. *)
Theorem X20_negative_cet1_reported_twice (float_of_str : string -> option spec_float)
    (fields : list TemplateField) (issues : list ValidationIssue) :
  validate_fields float_of_str fields OWN_FUNDS_CR1
    (get_template_schema OWN_FUNDS_CR1) = Ok issues ->
  (negative_cet1_issue ∈ issues <->
   exists v, value_map_of fields !! "CR1_500_010" = Some v /\
             py_lt_int v 0 = Ok true) /\
  (negative_cet1_issue ∈ issues ->
   exists i, i ∈ issues /\ severity i = "error" /\
             field_id i = Some "CR1_500_010" /\
             (rule i = "must_be_positive" \/ rule i = "required_field")).
Proof.
  intros Hrun.
  apply validate_fields_Ok in Hrun as (per_field & cross & Hp & Hc & ->).
  assert (Hnot_per : negative_cet1_issue ∉ per_field).
  { apply validate_schema_fields_rules in Hp.
    apply (not_elem_by_rule _ _ (fun r => r ∈ per_field_rules)); [done|].
    compute_done. }
  unfold _validate_cross_field_rules in Hc. simpl in Hc.
  unfold _validate_cr1_rules in Hc.
  apply bind_Ok in Hc as (v2 & H2 & Hc). apply bind_Ok in Hc as (v3 & H3 & Hc).
  apply bind_Ok in Hc as (v4 & H4 & Hc). apply bind_Ok in Hc as (v6 & H6 & Hc).
  injection Hc as <-.
  assert (Hnot2 : negative_cet1_issue ∉ v2).
  { unfold cr1_cet1_calculation in H2. apply bind_Ok in H2 as (c & _ & H2).
    apply report_mismatch_rule in H2.
    by apply (not_elem_by_rule _ _ (fun r => r = "cr1_cet1_calculation")). }
  assert (Hnot3 : negative_cet1_issue ∉ v3).
  { unfold cr1_tier1_calculation in H3. apply bind_Ok in H3 as (c & _ & H3).
    apply report_mismatch_rule in H3.
    by apply (not_elem_by_rule _ _ (fun r => r = "cr1_tier1_calculation")). }
  assert (Hnot4 : negative_cet1_issue ∉ v4).
  { unfold cr1_own_funds_calculation in H4.
    apply bind_Ok in H4 as (c & _ & H4). apply report_mismatch_rule in H4.
    by apply (not_elem_by_rule _ _ (fun r => r = "cr1_own_funds_calculation")). }
  pose proof (cr1_minimum_cet1_found _ _ H6) as Hfound.
  assert (Hiff : negative_cet1_issue ∈ per_field ++ v2 ++ v3 ++ v4 ++ v6 <->
                 negative_cet1_issue ∈ v6).
  { rewrite !elem_of_app. tauto. }
  rewrite Hiff, Hfound. split; [done|].
  intros (v & Hv & Hneg).
  destruct cet1_field_def as (fd & Hfd & Hid & Hname & Hreq & Hrules).
  rewrite validate_schema_fields_flat in Hp.
  destruct (for_each_elem _ _ _ _ Hp Hfd) as (o & Ho & Hsub).
  destruct (field_map_of fields !! "CR1_500_010") as [f|] eqn:Hf.
  2:{ exfalso. rewrite field_map_of_lookup_None in Hf.
      assert (Hnone : value_map_of fields !! "CR1_500_010" = None).
      { apply value_map_of_lookup_None. intros g Hg Hgid.
        by destruct (Hf g Hg). }
      congruence. }
  destruct (is_none (tf_value f)) eqn:Hnull.
  - rewrite validate_field_def_not_populated in Ho
      by (rewrite Hid, Hf; exact Hnull).
    rewrite Hreq in Ho. injection Ho as <-.
    exists (required_issue fd). split.
    + apply elem_of_app. left. apply Hsub. by left.
    + simpl. rewrite Hid. split; [done|]. split; [done|]. by right.
  - pose proof (value_map_of_field_map _ _ _ Hf Hnull) as Hsame.
    rewrite Hv in Hsame. injection Hsame as ->.
    rewrite (validate_field_def_populated float_of_str _ fd f) in Ho
      by (by rewrite ?Hid).
    rewrite validate_populated_Some in Ho by done.
    rewrite Hrules in Ho. simpl in Ho.
    apply bind_Ok in Ho as (ri & Hri & Ho). injection Ho as <-.
    apply bind_Ok in Hri as (here & Hhere & Hri). injection Hri as <-.
    unfold apply_rule in Hhere. rewrite validation_rules_lookup in Hhere.
    simpl in Hhere. apply bind_Ok in Hhere as (ok & Hok & Hhere).
    rewrite (_validate_positive_negative _ _ _ Hneg Hok) in Hhere.
    injection Hhere as <-.
    eexists. split.
    + apply elem_of_app. left. apply Hsub. apply elem_of_app. left. by left.
    + simpl. rewrite Hid. split; [done|]. split; [done|]. by left.
Qed.

(** ** Amounts on which the validation always returns *)

Lemma of_int_Ok (z : Z) : Z.abs z < 2 ^ 53 -> exists f, F64.of_int z = Ok f.
Proof. intros Hz. destruct (of_int_small z Hz) as (f & Hf & _). eauto. Qed.

Lemma amount_within_mono (a b : Z) (v : pyvalue) :
  a <= b -> amount_within a v -> amount_within b v.
Proof.
  unfold amount_within. destruct (as_num v) as [[z|f]|]; [lia|done|done].
Qed.

Lemma amount_within_number (a : Z) (v : pyvalue) :
  amount_within a v -> is_number v = true.
Proof. unfold amount_within, is_number. by destruct (as_num v). Qed.

Lemma num_binop_within zop fop (a b : Z) (x y : pynum) :
  (forall p q, Z.abs p < a -> Z.abs q < b -> Z.abs (zop p q) < a + b) ->
  a <= 2 ^ 53 -> b <= 2 ^ 53 ->
  match x with NInt p => Z.abs p < a | NFloat _ => True end ->
  match y with NInt q => Z.abs q < b | NFloat _ => True end ->
  exists r, num_binop zop fop x y = Ok r /\ amount_within (a + b) r.
Proof.
  intros Hop Ha Hb Hx Hy. destruct x as [p|f], y as [q|g]; simpl.
  - eexists. split; [reflexivity|]. by apply Hop.
  - destruct (of_int_Ok p) as [fp ->]; [lia|]. simpl. eauto.
  - destruct (of_int_Ok q) as [fq ->]; [lia|]. simpl. eauto.
  - eauto.
Qed.

Lemma py_add_within (a b : Z) (v w : pyvalue) :
  0 <= a -> 0 <= b -> a + b <= 2 ^ 53 ->
  amount_within a v -> amount_within b w ->
  exists r, py_add v w = Ok r /\ amount_within (a + b) r.
Proof.
  intros Ha Hb Hab Hv Hw. unfold py_add, amount_within in *.
  destruct (as_num v) as [x|]; [|done]. destruct (as_num w) as [y|]; [|done].
  apply num_binop_within; [lia..|done|done].
Qed.

Lemma py_sub_within (a b : Z) (v w : pyvalue) :
  0 <= a -> 0 <= b -> a + b <= 2 ^ 53 ->
  amount_within a v -> amount_within b w ->
  exists r, py_sub v w = Ok r /\ amount_within (a + b) r.
Proof.
  intros Ha Hb Hab Hv Hw. unfold py_sub, amount_within in *.
  destruct (as_num v) as [x|]; [|done]. destruct (as_num w) as [y|]; [|done].
  apply num_binop_within; [lia..|done|done].
Qed.

Lemma py_mul_float_within (v : pyvalue) (c : spec_float) :
  amount_within (2 ^ 53) v -> exists f, py_mul_float v c = Ok (PyFloat f).
Proof.
  unfold py_mul_float, amount_within. destruct (as_num v) as [[p|g]|]; [| |done].
  - intros Hp. simpl. destruct (of_int_Ok p Hp) as [fp ->]. simpl. eauto.
  - intros _. simpl. eauto.
Qed.

Lemma py_sum_fold_within (b : Z) (l : list pyvalue) (a : Z) (acc : pyvalue) :
  0 <= a -> 0 <= b -> a + Z.of_nat (length l) * b <= 2 ^ 53 ->
  amount_within a acc -> Forall (amount_within b) l ->
  exists r, fold_left (fun acc x => do a <- acc; py_add a x) l (Ok acc) = Ok r /\
            amount_within (a + Z.of_nat (length l) * b) r.
Proof.
  intros Ha Hb. revert a acc Ha.
  induction l as [|x l IH]; intros a acc Ha Hbound Hacc Hl.
  - simpl. exists acc. split; [done|]. by rewrite Z.add_0_r.
  - apply Forall_cons_1 in Hl as [Hx Hl]. rewrite length_cons in Hbound |- *.
    destruct (py_add_within a b acc x) as (s & Hs & Hsum); [lia..|done|done|].
    simpl. rewrite Hs.
    destruct (IH (a + b) s) as (r & Hr & Hwithin); [lia|lia|done|done|].
    exists r. split; [done|].
    eapply amount_within_mono; [|exact Hwithin]. lia.
Qed.

Lemma format_2f_within (v : pyvalue) :
  amount_within (2 ^ 53) v -> exists p, format_2f v = Ok p.
Proof.
  unfold amount_within. destruct v as [|x|z|f|s|l|d]; simpl; try done.
  - intros Hx. destruct (of_int_Ok (Z.b2z x) Hx) as [g ->]. simpl. eauto.
  - intros Hz. destruct (of_int_Ok z Hz) as [g ->]. simpl. eauto.
  - eauto.
Qed.

Lemma report_mismatch_within (a b : Z) calculated reported fid what how rule_id :
  0 <= a -> 0 <= b -> a + b <= 2 ^ 53 ->
  amount_within a calculated ->
  reported = PyNone \/ amount_within b reported ->
  exists o, report_mismatch calculated reported fid what how rule_id = Ok o.
Proof.
  intros Ha Hb Hab Hc Hr. unfold report_mismatch.
  destruct (is_none reported) eqn:Hn; simpl; [eauto|].
  destruct Hr as [->|Hr]; [discriminate|].
  destruct (py_sub_within a b calculated reported) as (d & -> & Hd);
    [done..|]. simpl.
  apply amount_within_number in Hd. unfold is_number in Hd.
  unfold py_abs, py_gt_int. destruct (as_num d) as [[x|f]|]; [| |done]; simpl.
  - destruct (format_2f_within calculated) as [p ->];
      [eapply amount_within_mono; [|exact Hc]; lia|].
    simpl. destruct (Z.abs x ?= 1); eauto.
  - destruct (format_2f_within calculated) as [p ->];
      [eapply amount_within_mono; [|exact Hc]; lia|].
    simpl. destruct (F64.compare_Z (SFabs f) 1) as [[]|]; eauto.
Qed.

(** What the cross-field rules read from a dictionary of amounts. *)
Section SmallAmounts.
Variable field_map : gmap string pyvalue.
Hypothesis amounts :
  forall k v, field_map !! k = Some v -> amount_within (2 ^ 50) v.

Lemma get_or_within (k : string) :
  amount_within (2 ^ 50) (get_or field_map k (PyInt 0)).
Proof.
  unfold get_or. destruct (field_map !! k) as [v|] eqn:Hv; simpl.
  - by apply (amounts k).
  - unfold amount_within. simpl. lia.
Qed.

Lemma get_within (k : string) :
  get field_map k = PyNone \/ amount_within (2 ^ 50) (get field_map k).
Proof.
  unfold get, get_or. destruct (field_map !! k) as [v|] eqn:Hv; simpl.
  - right. by apply (amounts k).
  - by left.
Qed.

Lemma formula_check_within input other reported fid what how rule_id :
  exists o,
    (do calculated <- py_add (get_or field_map input (PyInt 0))
                             (get_or field_map other (PyInt 0));
     report_mismatch calculated (get field_map reported) fid what how rule_id)
    = Ok o.
Proof.
  destruct (py_add_within (2 ^ 50) (2 ^ 50) (get_or field_map input (PyInt 0))
              (get_or field_map other (PyInt 0)))
    as (c & -> & Hc); [lia..|apply get_or_within|apply get_or_within|].
  simpl. apply (report_mismatch_within (2 ^ 50 + 2 ^ 50) (2 ^ 50));
    [lia..|done|apply get_within].
Qed.

Lemma _validate_cr1_rules_within :
  exists o, _validate_cr1_rules field_map = Ok o.
Proof.
  unfold _validate_cr1_rules.
  assert (H2 : exists v2, cr1_cet1_calculation field_map = Ok v2).
  { unfold cr1_cet1_calculation, calculated_cet1, py_sum.
    match goal with
    | |- context [fold_left _ ?l (Ok (PyInt 0))] =>
        destruct (py_sum_fold_within (2 ^ 50) l 1 (PyInt 0))
          as (t & Hsum & Ht)
    end.
    { lia. }
    { lia. }
    { simpl length. lia. }
    { unfold amount_within. simpl. lia. }
    { repeat (constructor; [apply get_or_within|]). constructor. }
    rewrite Hsum. simpl. simpl length in Ht.
    destruct (py_add_within (1 + 5 * 2 ^ 50) (2 ^ 50) t
                (get_or field_map "CR1_100_010" (PyInt 0)))
      as (c & -> & Hc); [lia..|exact Ht|apply get_or_within|].
    simpl. apply (report_mismatch_within (1 + 5 * 2 ^ 50 + 2 ^ 50) (2 ^ 50));
      [lia..|done|apply get_within]. }
  destruct H2 as [v2 ->]. simpl.
  destruct (formula_check_within "CR1_500_010" "CR1_150_010" "CR1_600_010"
              "CR1_600_010" "Total Tier 1" "CET1 + AT1" "cr1_tier1_calculation")
    as [v3 H3].
  unfold cr1_tier1_calculation, calculated_tier1. rewrite H3. simpl.
  destruct (formula_check_within "CR1_600_010" "CR1_200_010" "CR1_700_010"
              "CR1_700_010" "Total own funds" "Tier 1 + Tier 2"
              "cr1_own_funds_calculation") as [v4 H4].
  unfold cr1_own_funds_calculation, calculated_own_funds. rewrite H4. simpl.
  unfold cr1_minimum_cet1.
  destruct (get_within "CR1_500_010") as [->|Hcet1]; simpl; [eauto|].
  apply amount_within_number in Hcet1. unfold is_number in Hcet1.
  destruct (negb _); simpl; [|eauto]. unfold py_lt_int.
  destruct (as_num _) as [x|]; [|done]. simpl.
  destruct (match num_compare_Z x 0 with Some Lt => true | _ => false end);
    eauto.
Qed.

Lemma _validate_cr2_rules_within :
  exists o, _validate_cr2_rules field_map = Ok o.
Proof.
  unfold _validate_cr2_rules, cr2_rwa_calculation, calculated_rwa.
  destruct (py_add_within (2 ^ 50) (2 ^ 50)
              (get_or field_map "CR2_010_010" (PyInt 0))
              (get_or field_map "CR2_020_010" (PyInt 0)))
    as (credit & -> & Hcredit); [lia..|apply get_or_within|apply get_or_within|].
  destruct (py_add_within (2 ^ 50) (2 ^ 50)
              (get_or field_map "CR2_050_010" (PyInt 0))
              (get_or field_map "CR2_060_010" (PyInt 0)))
    as (other & -> & Hother); [lia..|apply get_or_within|apply get_or_within|].
  simpl.
  destruct (py_mul_float_within other F64.lit_12_5) as [scaled ->];
    [eapply amount_within_mono; [|exact Hother]; lia|].
  simpl.
  destruct (py_add_within (2 ^ 50 + 2 ^ 50) 0 credit (PyFloat scaled))
    as (rwa & -> & Hrwa); [lia..|done|done|].
  simpl.
  destruct (report_mismatch_within (2 ^ 50 + 2 ^ 50 + 0) (2 ^ 50) rwa
              (get field_map "CR2_100_010") "CR2_100_010" "Total RWA"
              "calculated RWA" "cr2_rwa_calculation") as [o ->];
    [lia..|done|apply get_within|].
  simpl. eauto.
Qed.
End SmallAmounts.

Lemma value_map_of_elem (fields : list TemplateField) (k : string) v :
  value_map_of fields !! k = Some v ->
  exists f, f ∈ fields /\ tf_value f = v /\ is_none v = false.
Proof.
  induction fields as [|g fields IH] using rev_ind; [discriminate|].
  rewrite value_map_of_snoc.
  assert (Hrec : value_map_of fields !! k = Some v ->
                 exists f, f ∈ fields ++ [g] /\ tf_value f = v /\
                           is_none v = false).
  { intros H. destruct (IH H) as (f & Hf & Hv). exists f.
    split; [apply elem_of_app; by left | done]. }
  destruct (is_none (tf_value g)) eqn:Hg; simpl; [exact Hrec|].
  rewrite lookup_insert. case_decide; [|exact Hrec].
  intros [= <-]. exists g. split; [apply elem_of_app; right; by left | done].
Qed.

(** X21. When every supplied value is [None], a float, or an integer below
    [2^50] in magnitude, the validation returns its list of findings,
    whatever the template type and the schema: no exception reaches the
    caller. *)
Theorem X21_validation_returns (float_of_str : string -> option spec_float)
    (fields : list TemplateField) (template_type : TemplateType)
    (schema : template_schema) :
  Forall (fun f => plain_amount (tf_value f)) fields ->
  exists issues,
    validate_fields float_of_str fields template_type schema = Ok issues.
Proof.
  intros Hfields. rewrite Forall_forall in Hfields.
  unfold validate_fields.
  destruct (validate_schema_fields_returns float_of_str fields schema)
    as [per_field ->].
  { intros f Hf. destruct (Hfields f Hf) as [->|Hv]; [discriminate|].
    unfold amount_within in Hv.
    destruct (tf_value f) as [|x|z|g|s|l|d]; simpl in *; try done.
    - destruct (of_int_Ok (Z.b2z x)) as [h ->]; [lia | discriminate].
    - destruct (of_int_Ok z) as [h ->]; [lia | discriminate]. }
  simpl.
  assert (Hmap : forall k v, value_map_of fields !! k = Some v ->
                             amount_within (2 ^ 50) v).
  { intros k v Hv. apply value_map_of_elem in Hv as (f & Hf & <- & Hn).
    destruct (Hfields f Hf) as [Hnone|Hv]; [|done].
    rewrite Hnone in Hn. discriminate. }
  unfold _validate_cross_field_rules.
  destruct (String.eqb template_type OWN_FUNDS_CR1).
  - destruct (_validate_cr1_rules_within _ Hmap) as [cross ->]. simpl. eauto.
  - destruct (String.eqb template_type CAPITAL_REQUIREMENTS_CR2).
    + destruct (_validate_cr2_rules_within _ Hmap) as [cross ->]. simpl. eauto.
    + simpl. eauto.
Qed.

(** ** Worked runs of the further properties *)

Lemma negative_X_per_field_run :
  validate_schema_fields no_string_parses [negative_X] schema_X =
    Ok negative_X_issues.
Proof. by vm_compute. Qed.

Lemma X2_minus_five :
  (forall e,
      _validate_positive no_string_parses (PyInt (-5)) = Raise e <->
      _validate_negative_or_zero no_string_parses (PyInt (-5)) = Raise e) /\
  (forall positive non_positive,
      _validate_positive no_string_parses (PyInt (-5)) = Ok positive ->
      _validate_negative_or_zero no_string_parses (PyInt (-5)) = Ok non_positive ->
      positive && non_positive = false /\
      (forall f, py_float no_string_parses (PyInt (-5)) = Ok f -> f <> S754_nan ->
                 positive = negb non_positive)).
Proof. apply X2_predicates_exclusive. discriminate. Defined.

(** Nothing supplied: the one required definition is reported. *)
Lemma X3_nothing_supplied :
  filter (fun i => rule i = "required_field") [required_issue field_X] =
  required_issue <$>
    filter (fun fd => missing_required (field_map_of []) fd = true)
      (schema_field_defs schema_X).
Proof.
  apply (X3_required_field_findings no_string_parses [] schema_X).
  by vm_compute.
Defined.

Lemma X4_listed_required :
  validate_field_def no_string_parses (field_map_of [negative_X])
    listed_required_X =
  validate_field_def no_string_parses (field_map_of [negative_X])
    (with_rules listed_required_X
       (filter (fun r => r <> "required_field")
          ["required_field"; "must_be_positive"])).
Proof. apply X4_required_field_rule_is_inert. reflexivity. Defined.

Lemma X5_negative_X :
  Forall (fun i => severity i <> "error") negative_X_issues <->
  forall fd, fd ∈ schema_field_defs schema_X ->
             field_in_order no_string_parses (field_map_of [negative_X]) fd.
Proof.
  apply X5_error_free_per_field_pass. exact negative_X_per_field_run.
Defined.

Lemma X8_text_amount :
  exists e,
    validate_fields no_string_parses text_amount OWN_FUNDS_CR1
      (get_template_schema OWN_FUNDS_CR1) = Raise e /\
    (e = TypeError \/ e = OverflowError).
Proof.
  apply (X8_non_number_amount_raises no_string_parses text_amount OWN_FUNDS_CR1
           (get_template_schema OWN_FUNDS_CR1) "CR1_010_010" (PyStr "100")).
  - vm_compute. by left.
  - by vm_compute.
  - reflexivity.
Defined.

Lemma X9_text_amount :
  TypeError = OverflowError \/
  (TypeError = TypeError /\
   (exists per_field,
       validate_schema_fields no_string_parses text_amount
         (get_template_schema OWN_FUNDS_CR1) = Ok per_field) /\
   exists k v, k ∈ cross_field_inputs OWN_FUNDS_CR1 /\
               value_map_of text_amount !! k = Some v /\ is_number v = false).
Proof.
  apply (X9_validator_exceptions no_string_parses text_amount OWN_FUNDS_CR1
           (get_template_schema OWN_FUNDS_CR1) TypeError).
  by vm_compute.
Defined.

(** Own funds of 103 against components that add up to 100: no finding. *)
Lemma X10_drifting_totals :
  _validate_cr1_rules (value_map_of drifting_totals) = Ok [] /\
  Z.abs (100 + 0 + 0 + 0 + 0 + 0 + 0 + 0 - 103) <= 3.
Proof.
  destruct (X10_cr1_rules_silent_on_integers (value_map_of drifting_totals)
              100 0 0 0 0 0 0 0 101 102 103) as [Hiff Hsum];
    [by vm_compute..|].
  assert (Hsilent : _validate_cr1_rules (value_map_of drifting_totals) = Ok [])
    by (apply Hiff; lia).
  split; [exact Hsilent | exact (Hsum Hsilent)].
Defined.

Lemma X11_nothing_supplied :
  filter (fun i => rule i = "cr2_credit_risk_required") [credit_risk_warning] =
  if zero_or_absent (value_map_of [] !! "CR2_010_010") &&
     zero_or_absent (value_map_of [] !! "CR2_020_010")
  then [credit_risk_warning] else [].
Proof.
  apply (X11_credit_risk_warning no_string_parses [] empty_schema).
  by vm_compute.
Defined.

Lemma X13_complete_cr2 :
  process_query_validation no_string_parses complete_cr2 CAPITAL_REQUIREMENTS_CR2
    = Ok ([], generate_validation_summary []) /\
  total_issues (generate_validation_summary []) =
    errors (generate_validation_summary []) +
    warnings (generate_validation_summary []) /\
  forall fd, fd ∈ schema_field_defs (get_template_schema CAPITAL_REQUIREMENTS_CR2) ->
             field_in_order no_string_parses (field_map_of complete_cr2) fd.
Proof.
  assert (Hrun : process_query_validation no_string_parses complete_cr2
                   CAPITAL_REQUIREMENTS_CR2
                 = Ok ([], generate_validation_summary [])) by (by vm_compute).
  destruct (X13_process_query_validity no_string_parses complete_cr2
              CAPITAL_REQUIREMENTS_CR2 [] (generate_validation_summary []) Hrun)
    as (Htotal & _ & Hvalid).
  split; [exact Hrun|]. split; [exact Htotal|].
  by apply Hvalid.
Defined.

Lemma X18_negative_X :
  filter (fun i => rule i = "confidence_threshold") negative_X_issues =
  flat_map (confidence_warnings (field_map_of [negative_X]))
    (schema_field_defs schema_X).
Proof.
  apply (X18_confidence_findings no_string_parses [negative_X] schema_X).
  exact negative_X_per_field_run.
Defined.

Lemma X20_negative_cet1 :
  exists issues,
    validate_fields no_string_parses negative_cet1 OWN_FUNDS_CR1
      (get_template_schema OWN_FUNDS_CR1) = Ok issues /\
    negative_cet1_issue ∈ issues /\
    exists i, i ∈ issues /\ severity i = "error" /\
              field_id i = Some "CR1_500_010" /\
              (rule i = "must_be_positive" \/ rule i = "required_field").
Proof.
  destruct (validate_fields no_string_parses negative_cet1 OWN_FUNDS_CR1
              (get_template_schema OWN_FUNDS_CR1)) as [issues|e] eqn:Hrun;
    [|by vm_compute in Hrun].
  destruct (X20_negative_cet1_reported_twice no_string_parses negative_cet1
              issues Hrun) as [Hiff Htwice].
  assert (Hfound : negative_cet1_issue ∈ issues).
  { apply Hiff. exists (PyInt (-5)). split; by vm_compute. }
  exists issues. split; [reflexivity|]. split; [exact Hfound|].
  exact (Htwice Hfound).
Defined.

Lemma X21_scenario_C :
  exists issues,
    validate_fields no_string_parses (scenario_C (PyInt 131)) OWN_FUNDS_CR1
      (get_template_schema OWN_FUNDS_CR1) = Ok issues.
Proof.
  apply X21_validation_returns.
  repeat (constructor; [right; unfold amount_within; simpl; lia|]).
  constructor.
Defined.

(** * The CET1 tolerance *)

Lemma format_2f_shown (v : pyvalue) :
  amount_within (2 ^ 53) v -> exists shown, format_2f v = Ok (Fmt_2f shown).
Proof.
  unfold amount_within. destruct v as [|x|z|f|s|l|d]; simpl; try done.
  - intros Hx. destruct (of_int_Ok (Z.b2z x) Hx) as [g ->]. simpl. eauto.
  - intros Hz. destruct (of_int_Ok z Hz) as [g ->]. simpl. eauto.
  - eauto.
Qed.

(** The CET1 check is decided by the distance as Python computes it. *)
Lemma cet1_check_by_distance (field_map : gmap string pyvalue)
    (calculated reported distance : pyvalue) :
  calculated_cet1 field_map = Ok calculated ->
  field_map !! "CR1_500_010" = Some reported ->
  is_none reported = false ->
  (do d <- py_sub calculated reported; py_abs d) = Ok distance ->
  cr1_cet1_calculation field_map =
    do off <- py_gt_int distance 1;
    if off then
      do shown <- format_2f calculated;
      Ok [mk_issue "error" "CR1_500_010"
            [Lit "Total CET1"; Lit " ("; Fmt reported; Lit ") does not match ";
             Lit "sum of components"; Lit " ("; shown; Lit ")"]
            "cr1_cet1_calculation"]
    else Ok [].
Proof.
  intros Hcalc Hrep Hnone Hdist. apply bind_Ok in Hdist as (d & Hd & Habs).
  unfold cr1_cet1_calculation. rewrite Hcalc. simpl.
  rewrite (get_lookup _ _ _ Hrep). unfold report_mismatch.
  rewrite Hnone, Hd. simpl. by rewrite Habs.
Qed.

(** C1, as the code has it.  In scenario C the calculated CET1 is 130, at
    distance exactly 1 from the reported 131, and no finding of rule
    [cr1_cet1_calculation] is returned.  In general the check compares
    the distance [abs(calculated - reported)] as Python computes it.  On
    integer totals that distance is the exact one: nothing is reported
    within 1, and above 1 the error is reported when the calculated total
    is below [2^53] in magnitude.  On any numbers, a computed distance
    equal to 1, or not above 1, is not reported, and a computed distance
    above 1 is reported as the error when the calculated total is a float
    or an integer below [2^53] in magnitude.  With the reported total
    131.0 nothing is reported and with 131.01 the error is. *)
Theorem C1_cet1_tolerance (float_of_str : string -> option spec_float) :
  (calculated_cet1 (value_map_of (scenario_C (PyInt 131))) = Ok (PyInt 130) /\
   (do d <- py_sub (PyInt 130) (PyInt 131); py_abs d) = Ok (PyInt 1) /\
   cr1_cet1_calculation (value_map_of (scenario_C (PyInt 131))) = Ok [] /\
   _validate_cr1_rules (value_map_of (scenario_C (PyInt 131))) = Ok [] /\
   exists issues,
     validate_fields float_of_str (scenario_C (PyInt 131)) OWN_FUNDS_CR1
       (get_template_schema OWN_FUNDS_CR1) = Ok issues /\
     Forall (fun i => rule i <> "cr1_cet1_calculation") issues) /\
  (forall (field_map : gmap string pyvalue) c1 c2 c3 c4 c5 adjustments reported,
      get_or field_map "CR1_010_010" (PyInt 0) = PyInt c1 ->
      get_or field_map "CR1_020_010" (PyInt 0) = PyInt c2 ->
      get_or field_map "CR1_030_010" (PyInt 0) = PyInt c3 ->
      get_or field_map "CR1_040_010" (PyInt 0) = PyInt c4 ->
      get_or field_map "CR1_050_010" (PyInt 0) = PyInt c5 ->
      get_or field_map "CR1_100_010" (PyInt 0) = PyInt adjustments ->
      field_map !! "CR1_500_010" = Some (PyInt reported) ->
      let calculated := c1 + c2 + c3 + c4 + c5 + adjustments in
      calculated_cet1 field_map = Ok (PyInt calculated) /\
      (do d <- py_sub (PyInt calculated) (PyInt reported); py_abs d) =
        Ok (PyInt (Z.abs (calculated - reported))) /\
      (Z.abs (calculated - reported) <= 1 ->
       cr1_cet1_calculation field_map = Ok []) /\
      (Z.abs (calculated - reported) > 1 -> Z.abs calculated < 2 ^ 53 ->
       exists shown,
         F64.of_int calculated = Ok shown /\
         cr1_cet1_calculation field_map =
           Ok [cet1_mismatch_issue (PyInt reported) shown])) /\
  (forall (field_map : gmap string pyvalue) calculated reported distance,
      calculated_cet1 field_map = Ok calculated ->
      field_map !! "CR1_500_010" = Some reported ->
      is_none reported = false ->
      (do d <- py_sub calculated reported; py_abs d) = Ok distance ->
      (py_eq_int distance 1 = true -> cr1_cet1_calculation field_map = Ok []) /\
      (py_gt_int distance 1 = Ok false ->
       cr1_cet1_calculation field_map = Ok []) /\
      (py_gt_int distance 1 = Ok true -> amount_within (2 ^ 53) calculated ->
       exists shown,
         format_2f calculated = Ok (Fmt_2f shown) /\
         cr1_cet1_calculation field_map =
           Ok [cet1_mismatch_issue reported shown])) /\
  cr1_cet1_calculation (value_map_of (scenario_C (PyFloat lit_131_0))) = Ok [] /\
  cr1_cet1_calculation (value_map_of (scenario_C (PyFloat lit_131_01))) =
    Ok [cet1_mismatch_issue (PyFloat lit_131_01) (F64.round_Z 130)].
Proof.
  split; [|split; [|split; [|split]]].
  - split; [by vm_compute|]. split; [reflexivity|].
    split; [by vm_compute|]. split; [by vm_compute|].
    eexists. split; [by vm_compute|].
    repeat (constructor; [discriminate|]). constructor.
  - intros field_map c1 c2 c3 c4 c5 adjustments reported
      H1 H2 H3 H4 H5 H6 Hrep calculated.
    pose proof (calculated_cet1_int _ _ _ _ _ _ _ H1 H2 H3 H4 H5 H6) as Hcalc.
    fold calculated in Hcalc. split; [exact Hcalc|]. split; [reflexivity|].
    unfold cr1_cet1_calculation. rewrite Hcalc.
    unfold get, get_or. rewrite Hrep. simpl.
    rewrite report_mismatch_int. split.
    + intros Hle. destruct (Z.gtb_spec (Z.abs (calculated - reported)) 1);
        [lia | reflexivity].
    + intros Hgt Hsmall.
      destruct (Z.gtb_spec (Z.abs (calculated - reported)) 1); [|lia].
      destruct (of_int_Ok calculated Hsmall) as [shown Hshown].
      exists shown. split; [exact Hshown|]. simpl. by rewrite Hshown.
  - intros field_map calculated reported distance Hcalc Hrep Hnone Hdist.
    rewrite (cet1_check_by_distance _ _ _ _ Hcalc Hrep Hnone Hdist).
    split; [|split].
    + intros Heq. by rewrite (py_eq_int_not_gt _ _ Heq).
    + by intros ->.
    + intros -> Hsmall. destruct (format_2f_shown _ Hsmall) as [shown Hshown].
      exists shown. split; [exact Hshown|]. simpl. by rewrite Hshown.
  - by vm_compute.
  - by vm_compute.
Qed.

(** Reported 135 against a calculated 130. *)
Lemma C1_scenario_D :
  Z.abs (100 + 50 + 0 + 0 + 0 + -20 - 135) > 1 /\
  cr1_cet1_calculation (value_map_of (scenario_C (PyInt 135))) =
    Ok [cet1_mismatch_issue (PyInt 135) (F64.round_Z 130)].
Proof.
  split; [lia|].
  destruct (C1_cet1_tolerance no_string_parses) as (_ & Hint & _).
  destruct (Hint (value_map_of (scenario_C (PyInt 135))) 100 50 0 0 0 (-20) 135)
    as (_ & _ & _ & Hfar); [by vm_compute.. |].
  destruct Hfar as (shown & Hshown & Hrun); [lia | by vm_compute |].
  rewrite Hrun. vm_compute in Hshown. by injection Hshown as <-.
Defined.

(** The distance is the one Python computes, not the difference of the
    two totals.  The integer [2^53 + 1] is converted to the float [2^53]
    before a float is subtracted from it: against a reported total exactly
    1 above it the computed distance is 2 and the error is reported, and
    against a reported total exactly 2 below it the computed distance is 1
    and nothing is reported.  Against a calculated total beyond the
    binary64 range the check raises [OverflowError] and reports nothing. *)
Lemma C1_difference_is_rounded :
  calculated_cet1 (value_map_of (odd_total (PyFloat lit_2_53_plus_2))) =
    Ok (PyInt (2 ^ 53 + 1)) /\
  F64.compare_Z lit_2_53_plus_2 (2 ^ 53 + 1 + 1) = Some Eq /\
  cr1_cet1_calculation (value_map_of (odd_total (PyFloat lit_2_53_plus_2))) =
    Ok [cet1_mismatch_issue (PyFloat lit_2_53_plus_2)
          (F64.round_Z (2 ^ 53 + 1))] /\
  F64.compare_Z lit_2_53_minus_1 (2 ^ 53 + 1 - 2) = Some Eq /\
  cr1_cet1_calculation (value_map_of (odd_total (PyFloat lit_2_53_minus_1))) =
    Ok [] /\
  calculated_cet1 (value_map_of beyond_binary64) = Ok (PyInt (2 ^ 1024)) /\
  cr1_cet1_calculation (value_map_of beyond_binary64) = Raise OverflowError.
Proof. repeat split; by vm_compute. Defined.
